(** * gemini-image-retouch: the batch manifest contract, verified

    A shallow embedding of the four scripts of the repository
    ([main.py], [src/single_retouch.py], [src/batch_retouch.py],
    [src/check_batch.py]) and the properties their specification states
    about them.

    Python [str] values are lists of Unicode code points, [bytes] values
    are lists of octets; both are [list N].  Library calls that can raise
    are functions into [option], [None] standing for the raised
    exception.  The remote service, the object store and the local file
    system are not modelled: what the scripts send to them is recorded as
    a list of events, and a request to them is taken to succeed.

    The modules [PyStr], [PyPath], [Json] and [Base64] hold the parts of
    the Python library the scripts call; [Builder], [Fetcher] and [Sync]
    hold the scripts; [Spec] holds the words of the specification.  The
    modules after them prove the properties. *)

From Stdlib Require Import Ascii String.
From Stdlib Require Import List NArith ZArith Bool Lia Arith.
From Stdlib Require DecimalNat DecimalFacts.
Import ListNotations.

Set Implicit Arguments.
Set Warnings "-register-all".

(* ================================================================== *)
(** * Python strings *)
(* ================================================================== *)

Module PyStr.

(** A [str]: the sequence of its code points. *)
Definition pystr := list N.

(** A [bytes] object: the sequence of its octets. *)
Definition pybytes := list N.

Definition ch (a : ascii) : N := N_of_ascii a.

(** A string literal of the source. *)
Definition py (s : string) : pystr := map N_of_ascii (list_ascii_of_string s).

(** [a == b] on strings. *)
Fixpoint eqb (a b : pystr) : bool :=
  match a, b with
  | [], [] => true
  | x :: a', y :: b' => (x =? y)%N && eqb a' b'
  | _, _ => false
  end.

(** [s.startswith(p)]. *)
Fixpoint startswith (p s : pystr) : bool :=
  match p, s with
  | [], _ => true
  | _ :: _, [] => false
  | a :: p', b :: s' => (a =? b)%N && startswith p' s'
  end.

(** [s.endswith(suf)]. *)
Definition endswith (suf s : pystr) : bool := startswith (rev suf) (rev s).

(** [s.endswith((suf1, suf2, ...))]: a tuple of alternatives. *)
Definition endswith_any (sufs : list pystr) (s : pystr) : bool :=
  existsb (fun suf => endswith suf s) sufs.

(** [sub in s]: substring test. *)
Fixpoint contains (sub s : pystr) : bool :=
  startswith sub s ||
  match s with
  | [] => false
  | _ :: s' => contains sub s'
  end.

(** [s.replace(old, new)]: every non-overlapping occurrence of [old],
    scanning from the left.  [skip] counts the characters of an
    occurrence just replaced that are still to be passed over. *)
Fixpoint replace_from (old new : pystr) (skip : nat) (s : pystr) : pystr :=
  match s with
  | [] => []
  | c :: s' =>
      match skip with
      | S k => replace_from old new k s'
      | O =>
          if startswith old s
          then new ++ replace_from old new (length old - 1) s'
          else c :: replace_from old new 0 s'
      end
  end.

Definition replace (old new s : pystr) : pystr :=
  match old with
  | [] => new ++ flat_map (fun c => c :: new) s
  | _ :: _ => replace_from old new 0 s
  end.

(** [s.rfind(c)] for a one-character [c]: the highest index, or [-1]. *)
Fixpoint rfind_from (c : N) (s : pystr) (i last : Z) : Z :=
  match s with
  | [] => last
  | x :: s' => rfind_from c s' (i + 1) (if (x =? c)%N then i else last)
  end.

Definition rfind (c : N) (s : pystr) : Z := rfind_from c s 0 (-1).

(** Slices [s[:i]], [s[i:]] and [s[i:j]] for non-negative indices. *)
Definition upto (i : Z) (s : pystr) : pystr := firstn (Z.to_nat i) s.
Definition from (i : Z) (s : pystr) : pystr := skipn (Z.to_nat i) s.
Definition slice (i j : Z) (s : pystr) : pystr := upto (j - i) (from i s).

(** Code-point-wise lower-casing of the ASCII letters.  [str.lower] also
    maps the cased letters outside ASCII; none of them is mapped to a
    character of the suffixes tested in this program, and they are left
    alone here. *)
Definition lower_cp (c : N) : N :=
  if ((65 <=? c) && (c <=? 90))%N then (c + 32)%N else c.

Definition lower (s : pystr) : pystr := map lower_cp s.

(** [str(i)] for a non-negative integer: its decimal digits. *)
Fixpoint digits_of_uint (d : Decimal.uint) : pystr :=
  match d with
  | Decimal.Nil => []
  | Decimal.D0 d' => 48%N :: digits_of_uint d'
  | Decimal.D1 d' => 49%N :: digits_of_uint d'
  | Decimal.D2 d' => 50%N :: digits_of_uint d'
  | Decimal.D3 d' => 51%N :: digits_of_uint d'
  | Decimal.D4 d' => 52%N :: digits_of_uint d'
  | Decimal.D5 d' => 53%N :: digits_of_uint d'
  | Decimal.D6 d' => 54%N :: digits_of_uint d'
  | Decimal.D7 d' => 55%N :: digits_of_uint d'
  | Decimal.D8 d' => 56%N :: digits_of_uint d'
  | Decimal.D9 d' => 57%N :: digits_of_uint d'
  end.

Definition str_of_nat (n : nat) : pystr := digits_of_uint (Nat.to_uint n).

Definition is_digit (c : N) : bool := ((48 <=? c) && (c <=? 57))%N.

End PyStr.

Import PyStr.

(* ================================================================== *)
(** * [os.path] and [pathlib] *)
(* ================================================================== *)

Module PyPath.

Definition SEP : N := ch "/".
Definition EXTSEP : N := ch ".".

(** The leading-dots loop of [genericpath._splitext]: is there a
    character other than the dot in [p[filenameIndex:dotIndex]]? *)
Definition has_non_dot (s : pystr) : bool :=
  existsb (fun c => negb (c =? EXTSEP)%N) s.

(** [os.path.splitext(p)] on POSIX. *)
Definition splitext (p : pystr) : pystr * pystr :=
  let sepIndex := rfind SEP p in
  let dotIndex := rfind EXTSEP p in
  if (sepIndex <? dotIndex)%Z then
    let filenameIndex := (sepIndex + 1)%Z in
    if has_non_dot (slice filenameIndex dotIndex p)
    then (upto dotIndex p, from dotIndex p)
    else (p, [])
  else (p, []).

(** [os.path.join(a, b)] on POSIX, for one added component. *)
Definition join (a b : pystr) : pystr :=
  if startswith [SEP] b then b
  else
    match a with
    | [] => b
    | _ :: _ => if endswith [SEP] a then a ++ b else a ++ SEP :: b
    end.

End PyPath.

(* ================================================================== *)
(** * The [json] library: values, [dumps] and [loads] *)
(* ================================================================== *)

Module Json.

Notation "x <- e ;; k" :=
  (match e with Some x => k | None => None end)
  (at level 61, e at next level, right associativity).
Notation "' p <- e ;; k" :=
  (match e with Some p => k | None => None end)
  (at level 61, p pattern, e at next level, right associativity).

(** What [json.loads] returns and [json.dumps] accepts.  A [dict] keeps
    its keys in insertion order and holds each key once.  An [int] is
    exact; a [float] is kept as the literal it was read from. *)
Inductive json : Type :=
| JNull
| JBool (b : bool)
| JInt (z : Z)
| JFloat (lexeme : pystr)
| JStr (s : pystr)
| JArr (items : list json)
| JObj (members : list (pystr * json)).

(** ** Dictionaries *)

Definition dict := list (pystr * json).

(** [key in d]. *)
Fixpoint dict_mem (key : pystr) (d : dict) : bool :=
  match d with
  | [] => false
  | (k, _) :: d' => PyStr.eqb k key || dict_mem key d'
  end.

(** [d[key]], [None] for [KeyError]. *)
Fixpoint dict_lookup (key : pystr) (d : dict) : option json :=
  match d with
  | [] => None
  | (k, v) :: d' => if PyStr.eqb k key then Some v else dict_lookup key d'
  end.

(** [d[key] = v]: an existing key keeps its place. *)
Fixpoint dict_set (key : pystr) (v : json) (d : dict) : dict :=
  match d with
  | [] => [(key, v)]
  | (k, w) :: d' =>
      if PyStr.eqb k key then (k, v) :: d' else (k, w) :: dict_set key v d'
  end.

(** [dict(pairs)]. *)
Definition dict_of_pairs (pairs : list (pystr * json)) : dict :=
  fold_left (fun d kv => dict_set (fst kv) (snd kv) d) pairs [].

(** ** [json.dumps] with its default options *)

Definition QUOTE : N := 34%N.
Definition BACKSLASH : N := ch "\".

(** One digit of the [x] format. *)
Definition hex_digit (d : N) : N :=
  if (d <? 10)%N then (48 + d)%N else (87 + d)%N.

(** ['{0:04x}'.format(n)] for [n < 0x10000]. *)
Definition hex4 (n : N) : pystr :=
  [ hex_digit (n / 4096 mod 16); hex_digit (n / 256 mod 16);
    hex_digit (n / 16 mod 16); hex_digit (n mod 16) ]%N.

Definition u_escape (n : N) : pystr := BACKSLASH :: ch "u" :: hex4 n.

(** The replacement of one character by [encode_basestring_ascii]:
    [ESCAPE_DCT] first, printable ASCII as it is, then [\uXXXX], with a
    surrogate pair above the basic plane. *)
Definition escape_char (c : N) : pystr :=
  if (c =? QUOTE)%N then [BACKSLASH; QUOTE]
  else if (c =? BACKSLASH)%N then [BACKSLASH; BACKSLASH]
  else if (c =? 10)%N then [BACKSLASH; ch "n"]
  else if (c =? 13)%N then [BACKSLASH; ch "r"]
  else if (c =? 9)%N then [BACKSLASH; ch "t"]
  else if (c =? 12)%N then [BACKSLASH; ch "f"]
  else if (c =? 8)%N then [BACKSLASH; ch "b"]
  else if ((32 <=? c) && (c <=? 126))%N then [c]
  else if (c <? 0x10000)%N then u_escape c
  else
    let n := (c - 0x10000)%N in
    let s1 := N.lor 0xd800 (N.land (N.shiftr n 10) 0x3ff) in
    let s2 := N.lor 0xdc00 (N.land n 0x3ff) in
    u_escape s1 ++ u_escape s2.

Definition encode_string (s : pystr) : pystr :=
  QUOTE :: flat_map escape_char s ++ [QUOTE].

(** [sep.join(chunks)]. *)
Fixpoint join_with (sep : pystr) (chunks : list pystr) : pystr :=
  match chunks with
  | [] => []
  | [x] => x
  | x :: rest => x ++ sep ++ join_with sep rest
  end.

(** [str(z)] for an [int]. *)
Definition str_of_Z (z : Z) : pystr :=
  match z with
  | Z0 => [48%N]
  | Zpos p => digits_of_uint (Pos.to_uint p)
  | Zneg p => ch "-" :: digits_of_uint (Pos.to_uint p)
  end.

(** [json.dumps(v)]: separators [", "] and [": "], ASCII only.  The
    program serialises strings, lists and dictionaries only; a float is
    written back as its literal. *)
Fixpoint dumps (v : json) : pystr :=
  match v with
  | JNull => py "null"
  | JBool true => py "true"
  | JBool false => py "false"
  | JInt z => str_of_Z z
  | JFloat lexeme => lexeme
  | JStr s => encode_string s
  | JArr items =>
      ch "[" :: join_with (py ", ") (map dumps items) ++ [ch "]"]
  | JObj members =>
      ch "{" ::
      join_with (py ", ")
        (map (fun kv => encode_string (fst kv) ++ py ": " ++ dumps (snd kv))
             members)
      ++ [ch "}"]
  end.

(** ** [json.loads] *)

(** [WHITESPACE]: space, tab, line feed, carriage return. *)
Definition is_ws (c : N) : bool :=
  ((c =? 32) || (c =? 9) || (c =? 10) || (c =? 13))%N.

Fixpoint skip_ws (s : pystr) : pystr :=
  match s with
  | c :: s' => if is_ws c then skip_ws s' else s
  | [] => []
  end.

Definition hex_val (c : N) : option N :=
  if is_digit c then Some (c - 48)%N
  else if ((97 <=? c) && (c <=? 102))%N then Some (c - 87)%N
  else if ((65 <=? c) && (c <=? 70))%N then Some (c - 55)%N
  else None.

(** [_decode_uXXXX]: exactly four hexadecimal digits. *)
Definition decode_uXXXX (s : pystr) : option (N * pystr) :=
  match s with
  | a :: b :: c :: d :: rest =>
      x <- hex_val a ;; y <- hex_val b ;; z <- hex_val c ;; w <- hex_val d ;;
      Some (x * 4096 + y * 256 + z * 16 + w, rest)%N
  | _ => None
  end.

Definition is_high_surrogate (c : N) : bool :=
  ((0xd800 <=? c) && (c <=? 0xdbff))%N.
Definition is_low_surrogate (c : N) : bool :=
  ((0xdc00 <=? c) && (c <=? 0xdfff))%N.
Definition join_surrogates (uni uni2 : N) : N :=
  (0x10000 + N.lor (N.shiftl (uni - 0xd800) 10) (uni2 - 0xdc00))%N.

(** The [BACKSLASH] table of the decoder. *)
Definition backslash (esc : N) : option N :=
  if (esc =? QUOTE)%N then Some QUOTE
  else if (esc =? BACKSLASH)%N then Some BACKSLASH
  else if (esc =? ch "/")%N then Some (ch "/")
  else if (esc =? ch "b")%N then Some 8%N
  else if (esc =? ch "f")%N then Some 12%N
  else if (esc =? ch "n")%N then Some 10%N
  else if (esc =? ch "r")%N then Some 13%N
  else if (esc =? ch "t")%N then Some 9%N
  else None.

(** One escape sequence, its backslash already read. *)
Definition scan_escape (s : pystr) : option (N * pystr) :=
  match s with
  | [] => None
  | esc :: s1 =>
      if (esc =? ch "u")%N then
        '(uni, s2) <- decode_uXXXX s1 ;;
        if is_high_surrogate uni && startswith [BACKSLASH; ch "u"] s2 then
          '(uni2, s3) <- decode_uXXXX (skipn 2 s2) ;;
          if is_low_surrogate uni2
          then Some (join_surrogates uni uni2, s3)
          else Some (uni, s2)
        else Some (uni, s2)
      else
        c <- backslash esc ;; Some (c, s1)
  end.

(** [scanstring] in strict mode, the opening quote already read: the
    decoded string and what follows the closing quote. *)
Fixpoint scanstring (fuel : nat) (s : pystr) : option (pystr * pystr) :=
  match fuel with
  | O => None
  | S fuel' =>
      match s with
      | [] => None
      | c :: s1 =>
          if (c =? QUOTE)%N then Some ([], s1)
          else if (c =? BACKSLASH)%N then
            '(u, s2) <- scan_escape s1 ;;
            '(str, rest) <- scanstring fuel' s2 ;;
            Some (u :: str, rest)
          else if (c <? 32)%N then None
          else
            '(str, rest) <- scanstring fuel' s1 ;;
            Some (c :: str, rest)
      end
  end.

(** The longest prefix of decimal digits, and the rest. *)
Fixpoint span_digits (s : pystr) : pystr * pystr :=
  match s with
  | c :: s' =>
      if is_digit c
      then let (ds, rest) := span_digits s' in (c :: ds, rest)
      else ([], s)
  | [] => ([], [])
  end.

(** [int(digits)]. *)
Definition Z_of_digits (ds : pystr) : Z :=
  fold_left (fun acc c => (acc * 10 + (Z.of_N c - 48))%Z) ds 0%Z.

(** [NUMBER_RE]: an optional minus sign, then [0] or a digit string
    without leading zero; an optional fraction (a dot and at least one
    digit); an optional exponent ([e] or [E], an optional sign, at least
    one digit).  Without fraction and exponent the number is an [int]. *)
Definition scan_number (s : pystr) : option (json * pystr) :=
  let (sign, s0) :=
    match s with
    | c :: s' => if (c =? ch "-")%N then ([c], s') else ([], s)
    | [] => ([], s)
    end in
  '(integer, s1) <-
    match s0 with
    | c :: s' =>
        if (c =? 48)%N then Some ([c], s')
        else if is_digit c
        then let (ds, rest) := span_digits s' in Some (c :: ds, rest)
        else None
    | [] => None
    end ;;
  let (frac, s2) :=
    match s1 with
    | c :: s' =>
        if (c =? ch ".")%N then
          match span_digits s' with
          | ([], _) => ([], s1)
          | (ds, rest) => (c :: ds, rest)
          end
        else ([], s1)
    | [] => ([], s1)
    end in
  let (exp, s3) :=
    match s2 with
    | c :: s' =>
        if ((c =? ch "e") || (c =? ch "E"))%N then
          let (esign, s'') :=
            match s' with
            | d :: t => if ((d =? ch "-") || (d =? ch "+"))%N
                        then ([d], t) else ([], s')
            | [] => ([], s')
            end in
          match span_digits s'' with
          | ([], _) => ([], s2)
          | (ds, rest) => (c :: esign ++ ds, rest)
          end
        else ([], s2)
    | [] => ([], s2)
    end in
  match frac, exp with
  | [], [] =>
      Some (JInt (match sign with
                  | [] => Z_of_digits integer
                  | _ => - Z_of_digits integer
                  end), s3)
  | _, _ => Some (JFloat (sign ++ integer ++ frac ++ exp), s3)
  end.

Definition LBRACE : N := ch "{".
Definition RBRACE : N := ch "}".
Definition LBRACKET : N := ch "[".
Definition RBRACKET : N := ch "]".
Definition COLON : N := ch ":".
Definition COMMA : N := ch ",".

(** A literal [word] at the head of [s]. *)
Definition literal (word : pystr) (v : json) (s : pystr)
  : option (json * pystr) :=
  if startswith word s then Some (v, skipn (length word) s) else None.

(** [scan_once], [JSONObject] and [JSONArray].  Every call reads at
    least one character, so [fuel] above the length of the input never
    runs out.  (The interpreter's limits on the depth of nesting and on
    the number of digits of an [int] are not part of the model.) *)
Fixpoint scan_once (fuel : nat) (s : pystr) {struct fuel}
  : option (json * pystr) :=
  match fuel with
  | O => None
  | S fuel' =>
      match s with
      | [] => None
      | c :: s1 =>
          if (c =? QUOTE)%N then
            '(str, rest) <- scanstring fuel' s1 ;; Some (JStr str, rest)
          else if (c =? LBRACE)%N then
            match skip_ws s1 with
            | d :: s2 =>
                if (d =? RBRACE)%N then Some (JObj [], s2)
                else
                  '(pairs, rest) <- scan_members fuel' (d :: s2) ;;
                  Some (JObj (dict_of_pairs pairs), rest)
            | [] => None
            end
          else if (c =? LBRACKET)%N then
            match skip_ws s1 with
            | d :: s2 =>
                if (d =? RBRACKET)%N then Some (JArr [], s2)
                else
                  '(items, rest) <- scan_items fuel' (d :: s2) ;;
                  Some (JArr items, rest)
            | [] => None
            end
          else if startswith (py "null") s then literal (py "null") JNull s
          else if startswith (py "true") s
          then literal (py "true") (JBool true) s
          else if startswith (py "false") s
          then literal (py "false") (JBool false) s
          else
            match scan_number s with
            | Some r => Some r
            | None =>
                if startswith (py "NaN") s
                then literal (py "NaN") (JFloat (py "NaN")) s
                else if startswith (py "Infinity") s
                then literal (py "Infinity") (JFloat (py "Infinity")) s
                else literal (py "-Infinity") (JFloat (py "-Infinity")) s
            end
      end
  end

with scan_members (fuel : nat) (s : pystr) {struct fuel}
  : option (list (pystr * json) * pystr) :=
  match fuel with
  | O => None
  | S fuel' =>
      match s with
      | q :: s1 =>
          if (q =? QUOTE)%N then
            '(key, s2) <- scanstring fuel' s1 ;;
            match skip_ws s2 with
            | col :: s3 =>
                if (col =? COLON)%N then
                  '(value, s4) <- scan_once fuel' (skip_ws s3) ;;
                  match skip_ws s4 with
                  | e :: s5 =>
                      if (e =? RBRACE)%N then Some ([(key, value)], s5)
                      else if (e =? COMMA)%N then
                        '(more, s6) <- scan_members fuel' (skip_ws s5) ;;
                        Some ((key, value) :: more, s6)
                      else None
                  | [] => None
                  end
                else None
            | [] => None
            end
          else None
      | [] => None
      end
  end

with scan_items (fuel : nat) (s : pystr) {struct fuel}
  : option (list json * pystr) :=
  match fuel with
  | O => None
  | S fuel' =>
      '(value, s1) <- scan_once fuel' s ;;
      match skip_ws s1 with
      | e :: s2 =>
          if (e =? RBRACKET)%N then Some ([value], s2)
          else if (e =? COMMA)%N then
            '(more, s3) <- scan_items fuel' (skip_ws s2) ;;
            Some (value :: more, s3)
          else None
      | [] => None
      end
  end.

(** [json.loads(s)] for a [str]: one value, white space around it, and
    nothing else.  A leading byte-order mark is refused. *)
Definition loads (s : pystr) : option json :=
  '(obj, rest) <- scan_once (S (length s)) (skip_ws s) ;;
  match skip_ws rest with
  | [] => Some obj
  | _ :: _ => None
  end.

(** [bytes.decode('utf-8', 'surrogatepass')]. *)
Definition is_cont (b : N) : bool := ((0x80 <=? b) && (b <? 0xc0))%N.

Fixpoint decode_utf8 (b : pybytes) : option pystr :=
  match b with
  | [] => Some []
  | b0 :: t0 =>
      if (b0 <? 0x80)%N then
        s <- decode_utf8 t0 ;; Some (b0 :: s)
      else if ((0xc2 <=? b0) && (b0 <? 0xe0))%N then
        match t0 with
        | b1 :: t1 =>
            if is_cont b1 then
              s <- decode_utf8 t1 ;;
              Some (((b0 - 0xc0) * 64 + (b1 - 0x80))%N :: s)
            else None
        | _ => None
        end
      else if ((0xe0 <=? b0) && (b0 <? 0xf0))%N then
        match t0 with
        | b1 :: b2 :: t2 =>
            let c := ((b0 - 0xe0) * 4096 + (b1 - 0x80) * 64 + (b2 - 0x80))%N in
            if is_cont b1 && is_cont b2 && (0x800 <=? c)%N then
              s <- decode_utf8 t2 ;; Some (c :: s)
            else None
        | _ => None
        end
      else if ((0xf0 <=? b0) && (b0 <? 0xf5))%N then
        match t0 with
        | b1 :: b2 :: b3 :: t3 =>
            let c := ((b0 - 0xf0) * 262144 + (b1 - 0x80) * 4096
                      + (b2 - 0x80) * 64 + (b3 - 0x80))%N in
            if is_cont b1 && is_cont b2 && is_cont b3
               && (0x10000 <=? c)%N && (c <? 0x110000)%N then
              s <- decode_utf8 t3 ;; Some (c :: s)
            else None
        | _ => None
        end
      else None
  end.

(** [json.loads(b)] for [bytes] holding UTF-8 text, the encoding of the
    service's result files, with or without a byte-order mark.  (The
    UTF-16 and UTF-32 variants that [detect_encoding] recognises are
    left out.) *)
Definition loads_bytes (b : pybytes) : option json :=
  let text :=
    match b with
    | b0 :: b1 :: b2 :: b' =>
        if ((b0 =? 0xef) && (b1 =? 0xbb) && (b2 =? 0xbf))%N then b' else b
    | _ => b
    end in
  s <- decode_utf8 text ;; loads s.

End Json.

Import Json.

(* ================================================================== *)
(** * [base64.b64decode] *)
(* ================================================================== *)

Module Base64.

(** [table_a2b_base64]: the value of a character of the alphabet. *)
Definition b64_value (c : N) : option N :=
  if ((65 <=? c) && (c <=? 90))%N then Some (c - 65)%N
  else if ((97 <=? c) && (c <=? 122))%N then Some (c - 71)%N
  else if is_digit c then Some (c + 4)%N
  else if (c =? ch "+")%N then Some 62%N
  else if (c =? ch "/")%N then Some 63%N
  else None.

Definition BASE64_PAD : N := ch "=".

(** The loop of [binascii.a2b_base64] outside strict mode: characters
    that are not of the alphabet are passed over, a complete pad
    sequence ends the input, and data left in an unfinished quad is an
    error. *)
Fixpoint a2b_loop (data : pybytes) (quad_pos : nat) (leftchar : N)
                  (pads : nat) : option pybytes :=
  match data with
  | [] => if (quad_pos =? 0)%nat then Some [] else None
  | this_ch :: rest =>
      if (this_ch =? BASE64_PAD)%N then
        if (2 <=? quad_pos)%nat then
          if (4 <=? quad_pos + (pads + 1))%nat then Some []
          else a2b_loop rest quad_pos leftchar (pads + 1)
        else a2b_loop rest quad_pos leftchar pads
      else
        match b64_value this_ch with
        | None => a2b_loop rest quad_pos leftchar pads
        | Some v =>
            match quad_pos with
            | 0 => a2b_loop rest 1 v 0
            | 1 =>
                out <- a2b_loop rest 2 (N.land v 0x0f) 0 ;;
                Some (N.lor (N.shiftl leftchar 2) (N.shiftr v 4) :: out)
            | 2 =>
                out <- a2b_loop rest 3 (N.land v 0x03) 0 ;;
                Some (N.lor (N.shiftl leftchar 4) (N.shiftr v 2) :: out)
            | _ =>
                out <- a2b_loop rest 0 0%N 0 ;;
                Some (N.lor (N.shiftl leftchar 6) v :: out)
            end
        end
  end.

Definition a2b_base64 (data : pybytes) : option pybytes :=
  a2b_loop data 0 0%N 0.

(** [base64.b64decode(s)] for a value read from JSON: a [str] of ASCII
    characters is decoded, anything else raises. *)
Definition b64decode (s : json) : option pybytes :=
  match s with
  | JStr t => if forallb (fun c => c <? 128)%N t then a2b_base64 t else None
  | _ => None
  end.

End Base64.

(* ================================================================== *)
(** * [src/batch_retouch.py]: the batch submitter *)
(* ================================================================== *)

Module Builder.

Definition GCS_INPUT_PATH : pystr := py "gs://gemini-image-retouch/raw/".
Definition GCS_OUTPUT_PATH : pystr := py "gs://gemini-image-retouch/proccessed/".
Definition MODEL_ID : pystr := py "models/gemini-2.5-flash".

(** The tag put in front of a file name to make its [custom_id]. *)
Definition ID_TAG : pystr := py "retouch_".

(** The [line] dictionary of [create_batch_file]. *)
Definition request_line (img_name prompt : pystr) : json :=
  JObj
    [ (py "custom_id", JStr (ID_TAG ++ img_name));
      (py "method", JStr (py "POST"));
      (py "request",
       JObj
         [ (py "model", JStr MODEL_ID);
           (py "contents",
            JArr
              [ JObj [ (py "parts", JArr [ JObj [ (py "text", JStr prompt) ] ]) ];
                JObj
                  [ (py "parts",
                     JArr
                       [ JObj
                           [ (py "file_data",
                              JObj
                                [ (py "mime_type", JStr (py "image/jpeg"));
                                  (py "file_uri",
                                   JStr (GCS_INPUT_PATH ++ img_name)) ]) ] ]) ] ]);
           (py "generation_config",
            JObj [ (py "response_modalities", JArr [ JStr (py "IMAGE") ]) ]) ]) ].

(** [create_batch_file(image_names, prompt)]: the text of
    [batch_requests.jsonl] when the function returns.  The file is
    opened with mode ["w"], so it starts empty; each turn of the loop
    appends one line. *)
Definition create_batch_file (image_names : list pystr) (prompt : pystr)
  : pystr :=
  fold_left
    (fun f img_name => f ++ dumps (request_line img_name prompt) ++ [10%N])
    image_names [].

(** The file names [upload_images_to_gcs] keeps from a directory
    listing. *)
Definition UPLOAD_SUFFIXES : list pystr :=
  [py ".jpg"; py ".jpeg"; py ".png"; py ".webp"].

Definition upload_accepts (f : pystr) : bool :=
  endswith_any UPLOAD_SUFFIXES (lower f).

(** [s.split("/", 1)]. *)
Fixpoint split_first_slash (s : pystr) : list pystr :=
  match s with
  | [] => [[]]
  | c :: s' =>
      if (c =? ch "/")%N then [[]; s']
      else
        match split_first_slash s' with
        | x :: rest => (c :: x) :: rest
        | [] => [[c]]
        end
  end.

(** What the script does to the outside world. *)
Inductive action : Type :=
| UploadBlob (bucket blob_path local_file_path : pystr)
| WriteManifest (content : pystr)
| UploadManifest
| CreateBatchJob (model : pystr) (dest : option pystr).

(** [upload_images_to_gcs(local_dir, gcs_path)], given the listing of
    [local_dir]: the uploads made and the list returned; [None] when it
    raises. *)
Definition upload_images_to_gcs (local_dir : pystr)
    (listing : option (list pystr)) (gcs_path : pystr)
  : option (list action * list pystr) :=
  if negb (startswith (py "gs://") gcs_path) then None
  else
    let path_parts := split_first_slash (skipn 5 gcs_path) in
    let bucket_name := hd [] path_parts in
    let prefix := match path_parts with _ :: p :: _ => p | _ => [] end in
    let prefix :=
      match prefix with
      | [] => prefix
      | _ :: _ => if endswith (py "/") prefix then prefix else prefix ++ py "/"
      end in
    match listing with
    | None => None
    | Some entries =>
        let files := filter upload_accepts entries in
        Some (map (fun filename =>
                     UploadBlob bucket_name (prefix ++ filename)
                                (PyPath.join local_dir filename))
                  files,
              files)
    end.

Definition RAW_DIR : pystr := py "./data/raw/piano_full".

(** The [__main__] block, its requests to the service taken to succeed:
    the actions performed, in order.  An exception inside the block is
    caught and reported, and [exit()] leaves it; both end the run. *)
Definition script (listing : option (list pystr)) (master_prompt : pystr)
  : list action :=
  match upload_images_to_gcs RAW_DIR listing GCS_INPUT_PATH with
  | None => []
  | Some (uploads, uploaded_files) =>
      match uploaded_files with
      | [] => uploads
      | _ :: _ =>
          uploads ++
          [ WriteManifest (create_batch_file uploaded_files master_prompt);
            UploadManifest;
            CreateBatchJob MODEL_ID (Some GCS_OUTPUT_PATH) ]
      end
  end.

End Builder.

(* ================================================================== *)
(** * [src/check_batch.py]: the batch result fetcher *)
(* ================================================================== *)

Module Fetcher.

Definition OUTPUT_DIR : pystr := py "./data/processed".

(** ** The operations of the Python object model the script applies to
    values read from JSON.  [None] is the exception each can raise. *)

(** [obj.get(key, default)]: only a [dict] has the method. *)
Definition py_get (obj : json) (key : pystr) (default : json) : option json :=
  match obj with
  | JObj d =>
      match dict_lookup key d with
      | Some v => Some v
      | None => Some default
      end
  | _ => None
  end.

(** [key in obj] for a string [key]: a key of a [dict], an element of a
    [list], a substring of a [str]; other values are not containers. *)
Definition py_in (key : pystr) (obj : json) : option bool :=
  match obj with
  | JObj d => Some (dict_mem key d)
  | JArr items =>
      Some (existsb (fun x => match x with
                              | JStr s => PyStr.eqb s key
                              | _ => false
                              end) items)
  | JStr s => Some (contains key s)
  | _ => None
  end.

(** [obj[key]] for a string [key]. *)
Definition py_item (obj : json) (key : pystr) : option json :=
  match obj with
  | JObj d => dict_lookup key d
  | _ => None
  end.

(** [obj[0]]. *)
Definition py_item0 (obj : json) : option json :=
  match obj with
  | JArr (x :: _) => Some x
  | JStr (c :: _) => Some (JStr [c])
  | _ => None
  end.

(** Is the [float] read from [lexeme] equal to zero?  The literal
    denotes [m * 10 ^ e]; it is rounded to zero exactly when it is at
    most half the smallest positive [float], [2 ^ -1075]. *)
Definition float_is_zero (lexeme : pystr) : bool :=
  let s0 :=
    match lexeme with
    | c :: t => if (c =? ch "-")%N then t else lexeme
    | [] => []
    end in
  let (int_ds, s1) := span_digits s0 in
  match int_ds with
  | [] => false
  | _ :: _ =>
      let (frac_ds, s2) :=
        match s1 with
        | c :: t => if (c =? ch ".")%N then span_digits t else ([], s1)
        | [] => ([], s1)
        end in
      let exp :=
        match s2 with
        | _ :: d :: t =>
            if (d =? ch "-")%N then (- Z_of_digits t)%Z
            else if (d =? ch "+")%N then Z_of_digits t
            else Z_of_digits (d :: t)
        | _ => 0%Z
        end in
      let m := Z_of_digits (int_ds ++ frac_ds) in
      let e := (exp - Z.of_nat (length frac_ds))%Z in
      ((m =? 0) || ((e <? 0) && (m * 2 ^ 1075 <=? 10 ^ (- e))))%Z
  end.

(** The truth value of an object. *)
Definition truthy (obj : json) : bool :=
  match obj with
  | JNull => false
  | JBool b => b
  | JInt z => negb (z =? 0)%Z
  | JFloat lexeme => negb (float_is_zero lexeme)
  | JStr s => match s with [] => false | _ => true end
  | JArr items => match items with [] => false | _ => true end
  | JObj d => match d with [] => false | _ => true end
  end.

(** The values [for part in obj] visits. *)
Definition py_iter (obj : json) : option (list json) :=
  match obj with
  | JArr items => Some items
  | JStr s => Some (map (fun c => JStr [c]) s)
  | JObj d => Some (map (fun kv => JStr (fst kv)) d)
  | _ => None
  end.

(** [obj.replace(old, new)]: a method of [str]. *)
Definition py_replace (obj : json) (old new : pystr) : option pystr :=
  match obj with
  | JStr s => Some (replace old new s)
  | _ => None
  end.

(** ** What the script shows and writes *)

Inductive event : Type :=
| PrintError (custom_id err : json)
| PrintNoCandidates (custom_id : json)
| OpenFile (out_path : pystr)
| WriteBytes (out_path : pystr) (data : pybytes)
| PrintSaved (out_path : pystr)
| PrintFailed (i : nat)
| PrintStillRunning
| PrintJobFailed
| PrintComplete (success_count : nat).

Record state : Type := mkState
  { trace : list event;
    success_count : nat }.

Definition initial : state := mkState [] 0.

(** A statement sequence that can raise: the state reached, and [None]
    in place of the value when an exception left it. *)
Definition M (A : Type) : Type := state -> option A * state.

Definition ret {A} (a : A) : M A := fun st => (Some a, st).

Definition bind {A B} (m : M A) (k : A -> M B) : M B :=
  fun st =>
    match m st with
    | (Some a, st') => k a st'
    | (None, st') => (None, st')
    end.

Definition try {A} (o : option A) : M A := fun st => (o, st).

Definition say (e : event) : M unit :=
  fun st => (Some tt, mkState (trace st ++ [e]) (success_count st)).

Definition count_success : M unit :=
  fun st => (Some tt, mkState (trace st) (success_count st + 1)).

Notation "x <~ m ;; k" := (bind m (fun x => k))
  (at level 61, m at next level, right associativity).
Notation "m ;;; k" := (bind m (fun _ => k))
  (at level 61, right associativity).

(** The extension chosen from the declared MIME type. *)
Definition ext_for (is_jpeg : bool) : pystr :=
  if is_jpeg then py ".jpg" else py ".png".

(** [out_name] of a [custom_id] string and an extension. *)
Definition out_name_of (custom_id ext : pystr) : pystr :=
  let base_name := replace (py "retouch_") [] custom_id in
  let name_part := fst (PyPath.splitext base_name) in
  name_part ++ py "_retouched" ++ ext.

(** The body of [for part in parts].  The file is opened, and so
    created or emptied, before the payload is decoded. *)
Definition save_part (custom_id part : json) : M unit :=
  has_inline <~ try (py_in (py "inline_data") part) ;;
  if has_inline then
    inline_data <~ try (py_item part (py "inline_data")) ;;
    mime_type <~ try (py_get inline_data (py "mime_type")
                             (JStr (py "image/png"))) ;;
    data_b64 <~ try (py_item inline_data (py "data")) ;;
    is_jpeg <~ try (py_in (py "jpeg") mime_type) ;;
    let ext := ext_for is_jpeg in
    base_name <~ try (py_replace custom_id (py "retouch_") []) ;;
    let name_part := fst (PyPath.splitext base_name) in
    let out_name := name_part ++ py "_retouched" ++ ext in
    let out_path := PyPath.join OUTPUT_DIR out_name in
    say (OpenFile out_path) ;;;
    data <~ try (Base64.b64decode data_b64) ;;
    say (WriteBytes out_path data) ;;;
    say (PrintSaved out_path) ;;;
    count_success
  else ret tt.

Fixpoint for_parts (custom_id : json) (parts : list json) : M unit :=
  match parts with
  | [] => ret tt
  | part :: rest => save_part custom_id part ;;; for_parts custom_id rest
  end.

(** The body of the [try] statement for line [i]. *)
Definition line_body (i : nat) (line : pybytes) : M unit :=
  result <~ try (loads_bytes line) ;;
  custom_id <~ try (py_get result (py "custom_id")
                           (JStr (py "image_" ++ str_of_nat i))) ;;
  response <~ try (py_get result (py "response") (JObj [])) ;;
  has_error <~ try (py_in (py "error") response) ;;
  if has_error then
    err <~ try (py_item response (py "error")) ;;
    say (PrintError custom_id err)
  else
    candidates <~ try (py_get response (py "candidates") (JArr [])) ;;
    if negb (truthy candidates) then say (PrintNoCandidates custom_id)
    else
      candidate <~ try (py_item0 candidates) ;;
      content <~ try (py_get candidate (py "content") (JObj [])) ;;
      parts <~ try (py_get content (py "parts") (JArr [])) ;;
      items <~ try (py_iter parts) ;;
      for_parts custom_id items.

(** One turn of [for i, line in enumerate(lines)]: [except Exception]
    reports the failure and the loop goes on. *)
Definition process_line (i : nat) (line : pybytes) (st : state) : state :=
  match line_body i line st with
  | (Some _, st') => st'
  | (None, st') => mkState (trace st' ++ [PrintFailed i]) (success_count st')
  end.

Fixpoint for_lines (i : nat) (lines : list pybytes) (st : state) : state :=
  match lines with
  | [] => st
  | line :: rest => for_lines (S i) rest (process_line i line st)
  end.

(** [bytes.strip()] and [bytes.split(b"\n")]. *)
Definition is_space (c : N) : bool :=
  ((c =? 32) || (c =? 9) || (c =? 10) || (c =? 13) || (c =? 11) || (c =? 12))%N.

Fixpoint lstrip (s : pybytes) : pybytes :=
  match s with
  | c :: s' => if is_space c then lstrip s' else s
  | [] => []
  end.

Definition strip (s : pybytes) : pybytes := rev (lstrip (rev (lstrip s))).

Fixpoint split_nl (s : pybytes) : list pybytes :=
  match s with
  | [] => [[]]
  | c :: s' =>
      if (c =? 10)%N then [] :: split_nl s'
      else
        match split_nl s' with
        | l :: ls => (c :: l) :: ls
        | [] => [[c]]
        end
  end.

(** The parse of a downloaded result file. *)
Definition parse_results (content : pybytes) : state :=
  let lines := split_nl (strip content) in
  let st := for_lines 0 lines initial in
  mkState (trace st ++ [PrintComplete (success_count st)]) (success_count st).

(** [main()], given the state the service reports for the job and the
    content of its output file. *)
Definition main (job_state : pystr) (content : pybytes) : state :=
  if PyStr.eqb job_state (py "JOB_STATE_ACTIVE")
     || PyStr.eqb job_state (py "JOB_STATE_PENDING")
  then mkState [PrintStillRunning] 0
  else if PyStr.eqb job_state (py "JOB_STATE_FAILED")
  then mkState [PrintJobFailed] 0
  else if PyStr.eqb job_state (py "JOB_STATE_SUCCEEDED")
          || PyStr.eqb job_state (py "JOB_STATE_COMPLETED")
  then parse_results content
  else initial.

(** The files on disk after a run: each path with its last content. *)
Fixpoint put (path : pystr) (data : pybytes) (fs : list (pystr * pybytes))
  : list (pystr * pybytes) :=
  match fs with
  | [] => [(path, data)]
  | (p, d) :: fs' =>
      if PyStr.eqb p path then (p, data) :: fs' else (p, d) :: put path data fs'
  end.

Definition files_of (tr : list event) : list (pystr * pybytes) :=
  fold_left
    (fun fs e =>
       match e with
       | OpenFile p => put p [] fs
       | WriteBytes p d => put p d fs
       | _ => fs
       end) tr [].

(** The payloads written, in order. *)
Definition writes_of (tr : list event) : list (pystr * pybytes) :=
  flat_map (fun e => match e with
                     | WriteBytes p d => [(p, d)]
                     | _ => []
                     end) tr.

(** The lines reported as failed. *)
Definition failures_of (tr : list event) : list nat :=
  flat_map (fun e => match e with PrintFailed i => [i] | _ => [] end) tr.

End Fetcher.

(* ================================================================== *)
(** * [main.py] and [src/single_retouch.py]: the synchronous processors *)
(* ================================================================== *)

Module Sync.

(** The suffixes both scripts pass to [str.endswith]. *)
Definition SYNC_SUFFIXES : list pystr :=
  [py ".jpg"; py ".png"; py ".jpeg"; py ".JPG"; py ".PNG"; py ".JPEG"].

(** The test a directory entry has to pass to be processed. *)
Definition accepts (filename : pystr) : bool :=
  endswith_any SYNC_SUFFIXES filename.

Definition image_files (listing : list pystr) : list pystr :=
  filter accepts listing.

(** ** [pathlib.PurePosixPath] *)

(** A parsed path: its root (empty, ["/"] or ["//"]) and its segments. *)
Record Path : Type := mkPath
  { root : pystr;
    segs : list pystr }.

(** [s.split("/")]. *)
Fixpoint split_sep (s : pystr) : list pystr :=
  match s with
  | [] => [[]]
  | c :: s' =>
      if (c =? PyPath.SEP)%N then [] :: split_sep s'
      else
        match split_sep s' with
        | x :: rest => (c :: x) :: rest
        | [] => [[c]]
        end
  end.

(** A component that the parser keeps: not empty and not ["."]. *)
Definition kept (x : pystr) : bool :=
  negb (PyStr.eqb x [] || PyStr.eqb x (py ".")).

(** [Path(s)]: exactly two leading slashes make the root ["//"], any
    other number of them ["/"]. *)
Definition parse (s : pystr) : Path :=
  let r :=
    if startswith (py "/") s then
      if startswith (py "//") s && negb (startswith (py "///") s)
      then py "//" else py "/"
    else [] in
  mkPath r (filter kept (split_sep s)).

(** [p.parts]. *)
Definition parts (p : Path) : list pystr :=
  match root p with
  | [] => segs p
  | _ :: _ => root p :: segs p
  end.

(** [p.joinpath( *args )]: an argument with a root replaces what comes
    before it. *)
Definition joinpath (p : Path) (args : list pystr) : Path :=
  fold_left
    (fun acc a =>
       let q := parse a in
       match root q with
       | [] => mkPath (root acc) (segs acc ++ segs q)
       | _ :: _ => q
       end) args p.

(** [str(p)]. *)
Definition to_str (p : Path) : pystr :=
  match root p ++ join_with (py "/") (segs p) with
  | [] => py "."
  | s => s
  end.

(** [p.name] and [p.stem]. *)
Definition name (p : Path) : pystr := last (segs p) [].

Definition stem (p : Path) : pystr :=
  let n := name p in
  let i := rfind PyPath.EXTSEP n in
  if ((0 <? i) && (i <? Z.of_nat (length n) - 1))%Z then upto i n else n.

(** [tuple.index(x)]: the first position of [x]. *)
Fixpoint index (x : pystr) (l : list pystr) : option nat :=
  match l with
  | [] => None
  | y :: l' => if PyStr.eqb y x then Some 0 else option_map S (index x l')
  end.

(** [x in tuple]. *)
Definition member (x : pystr) (l : list pystr) : bool :=
  existsb (fun y => PyStr.eqb y x) l.

(** ** [src/single_retouch.py] *)

(** Lines 75-86: the directory the results go to. *)
Definition output_dir (raw_dir processed_dir : pystr) : Path :=
  let raw_path := parse raw_dir in
  let processed_base := parse processed_dir in
  let raw_parts := parts raw_path in
  if member (py "raw") raw_parts then
    match index (py "raw") raw_parts with
    | Some raw_idx =>
        let subdir_parts := skipn (raw_idx + 1) raw_parts in
        joinpath processed_base subdir_parts
    | None => processed_base
    end
  else processed_base.

(** Line 128: the name a result is saved under. *)
Definition output_name (filename : pystr) : pystr :=
  py "retouched_" ++ stem (parse filename) ++ py ".png".

Definition output_path (raw_dir processed_dir filename : pystr) : pystr :=
  PyPath.join (to_str (output_dir raw_dir processed_dir))
              (output_name filename).

(** ** [main.py] *)

(** Lines 99-101: the name and the path a result is saved under. *)
Definition flat_output_name (filename : pystr) : pystr :=
  py "retouched_" ++ filename.

Definition flat_output_path (processed_dir filename : pystr) : pystr :=
  PyPath.join processed_dir (flat_output_name filename).

End Sync.

(* ================================================================== *)
(** * Vocabulary of the specification *)
(* ================================================================== *)

Module Spec.

(** A text string: code points of Unicode, none of them a high
    surrogate.  Directory listings and source literals are of this kind
    (an undecodable byte of a file name becomes a low surrogate). *)
Definition text_char (c : N) : bool :=
  ((c <? 0x110000) && negb (is_high_surrogate c))%N.

Definition text (s : pystr) : bool := forallb text_char s.

(** Keys that are pairwise different. *)
Fixpoint distinct (keys : list pystr) : bool :=
  match keys with
  | [] => true
  | k :: keys' => negb (existsb (PyStr.eqb k) keys') && distinct keys'
  end.

(** The values the program serialises: text strings, lists, and
    dictionaries with text keys. *)
Fixpoint serialisable (v : json) : bool :=
  match v with
  | JNull | JBool _ => true
  | JInt _ | JFloat _ => false
  | JStr s => text s
  | JArr items => forallb serialisable items
  | JObj members =>
      forallb (fun kv => text (fst kv) && serialisable (snd kv)) members
      && distinct (map fst members)
  end.

(** A character that can start a value: not white space, and not the
    bracket that closes a list. *)
Definition opener (c : N) : Prop :=
  is_ws c = false /\ (c =? RBRACKET)%N = false.

(** [v] is read back from its serialisation, whatever follows it. *)
Definition reads_back (v : json) : Prop :=
  forall (fuel : nat) (rest : pystr),
    length (dumps v) <= fuel ->
    scan_once fuel (dumps v ++ rest) = Some (v, rest).

(** The text [dumps] writes for one member of a dictionary. *)
Definition member_text (kv : pystr * json) : pystr :=
  encode_string (fst kv) ++ py ": " ++ dumps (snd kv).

(** A printable character of ASCII. *)
Definition printable (c : N) : bool := ((32 <=? c) && (c <=? 126))%N.

(** The lines of a text file, without their line feeds; text after the
    last line feed counts as a line. *)
Fixpoint lines_of (s : pystr) : list pystr :=
  match s with
  | [] => []
  | c :: s' =>
      if (c =? 10)%N then [] :: lines_of s'
      else
        match lines_of s' with
        | l :: ls => (c :: l) :: ls
        | [] => [[c]]
        end
  end.

(** [name] ends with [ext], whatever the case of its letters. *)
Definition ends_with_ci (ext name : pystr) : Prop :=
  exists stem suffix, name = stem ++ suffix /\ lower suffix = ext.

(** [sub] occurs in [s]. *)
Definition occurs (sub s : pystr) : Prop :=
  exists pre post, s = pre ++ sub ++ post.

(** A name without a slash in it. *)
Definition no_sep (s : pystr) : bool :=
  forallb (fun c => negb (c =? PyPath.SEP)%N) s.

(** The decoding of a [custom_id] the result parser is meant to do:
    the tag taken off the front. *)
Definition strip_tag (custom_id : pystr) : pystr :=
  skipn (length Builder.ID_TAG) custom_id.

(** ** Result lines

    The shape of a result line, [{"custom_id": str, "response":
    {"candidates": [{"content": {"parts": [...]}}]}}], read off a parsed
    value.  Fields the schema does not name may be present anywhere. *)

(** The candidates of a line and the content parts of a candidate. *)
Definition candidates_of (v : json) : list json :=
  match v with
  | JObj d =>
      match dict_lookup (py "response") d with
      | Some (JObj r) =>
          match dict_lookup (py "candidates") r with
          | Some (JArr cs) => cs
          | _ => []
          end
      | _ => []
      end
  | _ => []
  end.

Definition parts_of (candidate : json) : list json :=
  match candidate with
  | JObj c =>
      match dict_lookup (py "content") c with
      | Some (JObj ct) =>
          match dict_lookup (py "parts") ct with
          | Some (JArr ps) => ps
          | _ => []
          end
      | _ => []
      end
  | _ => []
  end.

(** A part that carries inline image bytes. *)
Definition carries_inline (part : json) : bool :=
  match part with
  | JObj p => dict_mem (py "inline_data") p
  | _ => false
  end.

(** The MIME type an [inline_data] object declares: a string, or
    nothing, which stands for ["image/png"]. *)
Definition declared_mime (idata : dict) : option pystr :=
  match dict_lookup (py "mime_type") idata with
  | Some (JStr m) => Some m
  | Some _ => None
  | None => Some (py "image/png")
  end.

(** Well-formed parts: an object; its [inline_data], when it has one,
    is an object with a well-typed MIME type and a base64 payload. *)
Definition wf_inline (idata : json) : bool :=
  match idata with
  | JObj i =>
      match declared_mime i, dict_lookup (py "data") i with
      | Some _, Some data =>
          match Base64.b64decode data with Some _ => true | None => false end
      | _, _ => false
      end
  | _ => false
  end.

Definition wf_part (part : json) : bool :=
  match part with
  | JObj p =>
      match dict_lookup (py "inline_data") p with
      | Some idata => wf_inline idata
      | None => true
      end
  | _ => false
  end.

(** A well-formed candidate: an object; its [content], when it has
    one, is an object; the [parts] of the content, when it has them,
    are a list of well-formed parts. *)
Definition wf_candidate (c : json) : bool :=
  match c with
  | JObj cd =>
      match dict_lookup (py "content") cd with
      | Some (JObj ct) =>
          match dict_lookup (py "parts") ct with
          | Some (JArr ps) => forallb wf_part ps
          | Some _ => false
          | None => true
          end
      | Some _ => false
      | None => true
      end
  | _ => false
  end.

(** The identifier of a line: its [custom_id] string, if it has one. *)
Definition id_of (v : json) : option (option pystr) :=
  match v with
  | JObj d =>
      match dict_lookup (py "custom_id") d with
      | Some (JStr s) => Some (Some s)
      | Some _ => None
      | None => Some None
      end
  | _ => None
  end.

(** A well-formed success line: an object whose [custom_id], if
    present, is a string and whose [response] is an object without
    [error] and with a non-empty list of well-formed [candidates]. *)
Definition wf_success (v : json) : bool :=
  match v with
  | JObj d =>
      match id_of v, dict_lookup (py "response") d with
      | Some _, Some (JObj r) =>
          negb (dict_mem (py "error") r) &&
          match dict_lookup (py "candidates") r with
          | Some (JArr (c :: cs)) => forallb wf_candidate (c :: cs)
          | _ => false
          end
      | _, _ => false
      end
  | _ => false
  end.

(** A line whose [response] object contains an [error] field. *)
Definition is_error_line (v : json) : bool :=
  match v with
  | JObj d =>
      match dict_lookup (py "response") d with
      | Some (JObj r) => dict_mem (py "error") r
      | _ => false
      end
  | _ => false
  end.

(** The image a well-formed part holds for the line [custom_id]: the
    path it is to be saved under and its bytes. *)
Definition image_of (custom_id : pystr) (part : json)
  : list (pystr * pybytes) :=
  match part with
  | JObj p =>
      match dict_lookup (py "inline_data") p with
      | Some (JObj idata) =>
          match declared_mime idata, dict_lookup (py "data") idata with
          | Some mime, Some data =>
              match Base64.b64decode data with
              | Some payload =>
                  [ (PyPath.join Fetcher.OUTPUT_DIR
                       (Fetcher.out_name_of custom_id
                          (Fetcher.ext_for (contains (py "jpeg") mime))),
                     payload) ]
              | None => []
              end
          | _, _ => []
          end
      | _ => []
      end
  | _ => []
  end.

(** The identifier the images of line [i] are named after. *)
Definition name_of_line (i : nat) (v : json) : pystr :=
  match id_of v with
  | Some (Some s) => s
  | _ => py "image_" ++ str_of_nat i
  end.

(** The images of a well-formed line: those of the parts of its first
    candidate. *)
Definition images_of_line (i : nat) (v : json) : list (pystr * pybytes) :=
  flat_map (image_of (name_of_line i v)) (parts_of (hd JNull (candidates_of v))).

(** [st'] comes from [st] by saving [images], and nothing failed on the
    way. *)
Definition saved (st st' : Fetcher.state) (images : list (pystr * pybytes))
  : Prop :=
  exists evs,
    Fetcher.trace st' = Fetcher.trace st ++ evs /\
    Fetcher.writes_of evs = images /\
    Fetcher.failures_of evs = [] /\
    Fetcher.success_count st' = Fetcher.success_count st + length images.

End Spec.

(* ================================================================== *)
(** * Sample inputs *)
(* ================================================================== *)

Module Samples.

(** JSON text, written here with an apostrophe where the text has a
    double quote. *)
Definition json_text (s : string) : pybytes :=
  map (fun c => if (c =? ch "'")%N then Json.QUOTE else c) (py s).

(** The result line of the specification's end-to-end example, with a
    payload that decodes to [hello]. *)
Definition success_line : pybytes :=
  json_text "{'custom_id':'retouch_a.jpg','response':{'candidates':[{'content':{'parts':[{'inline_data':{'mime_type':'image/png','data':'aGVsbG8='}}]}}]}}".

(** A line that reports an error for its item. *)
Definition error_line : pybytes :=
  json_text "{'custom_id':'retouch_b.jpg','response':{'error':{'code':400,'message':'bad image'}}}".

(** A line that is not JSON. *)
Definition malformed_line : pybytes := json_text "{'custom_id': 'retouch_c.jpg', ".

(** A success line without [custom_id], a text part before its JPEG. *)
Definition anonymous_line : pybytes :=
  json_text "{'response':{'candidates':[{'content':{'parts':[{'text':'done'},{'inline_data':{'mime_type':'image/jpeg','data':'aGk='}}]}}]}}".

(** A success line with two candidates, one image in each. *)
Definition two_candidates_line : pybytes :=
  json_text "{'custom_id':'retouch_a.jpg','response':{'candidates':[{'content':{'parts':[{'inline_data':{'mime_type':'image/png','data':'aGk='}}]}},{'content':{'parts':[{'inline_data':{'mime_type':'image/jpeg','data':'aGk='}}]}}]}}".

(** The result line for the file [IMG_retouch_01.jpg]. *)
Definition tagged_name_line : pybytes :=
  json_text "{'custom_id':'retouch_IMG_retouch_01.jpg','response':{'candidates':[{'content':{'parts':[{'inline_data':{'mime_type':'image/png','data':'aGVsbG8='}}]}}]}}".

(** A success line whose candidate holds text only. *)
Definition text_only_line : pybytes :=
  json_text "{'custom_id':'retouch_d.jpg','response':{'candidates':[{'content':{'parts':[{'text':'no image'}]}}]}}".

Definition LF : pybytes := [10%N].

(** Result files made of these lines. *)
Definition success_then_error : pybytes :=
  success_line ++ LF ++ error_line ++ LF.

Definition malformed_in_between : pybytes :=
  success_line ++ LF ++ malformed_line ++ LF ++ anonymous_line ++ LF.

(** The values the sample lines are read as. *)
Definition value_of (line : pybytes) : json :=
  match loads_bytes line with
  | Some v => v
  | None => JNull
  end.

Definition success_value : json := Eval vm_compute in value_of success_line.
Definition error_value : json := Eval vm_compute in value_of error_line.
Definition anonymous_value : json :=
  Eval vm_compute in value_of anonymous_line.

(** The [inline_data] object of [success_line], and the part around it. *)
Definition png_inline : dict :=
  [ (py "mime_type", JStr (py "image/png"));
    (py "data", JStr (py "aGVsbG8=")) ].

Definition png_part : dict := [ (py "inline_data", JObj png_inline) ].

(** A directory listing and an instruction for the submitter. *)
Definition listing : list pystr := [py "a.jpg"; py "b c.png"].
Definition notes_only : list pystr := [py "notes.txt"; py "README"].
Definition instruction : pystr := py "Brighten the subjects.".

End Samples.

(* ================================================================== *)
(** * Further vocabulary: the result parser on arbitrary input *)
(* ================================================================== *)

Module Laws.

Import Fetcher.

(** A path that ends with the suffix and one of the two extensions the
    parser gives its files. *)
Definition named_retouched (p : pystr) : bool :=
  endswith (py "_retouched.jpg") p || endswith (py "_retouched.png") p.

(** The files opened for writing, in order. *)
Definition opens_of (tr : list event) : list pystr :=
  flat_map (fun e => match e with OpenFile p => [p] | _ => [] end) tr.

(** The identifier [main] uses for line [i]: the [custom_id] of the
    object, whatever its type, or the fallback. *)
Definition custom_id_at (i : nat) (v : json) : json :=
  match v with
  | JObj d =>
      match dict_lookup (py "custom_id") d with
      | Some c => c
      | None => JStr (py "image_" ++ str_of_nat i)
      end
  | _ => JNull
  end.

(** The parts [main] iterates over, for a line whose response has no
    [error] and whose first candidate is an object with [content] and
    [parts] absent or of the expected type; [None] for other lines. *)
Definition walk_of (v : json) : option (list json) :=
  match v with
  | JObj d =>
      match dict_lookup (py "response") d with
      | Some (JObj r) =>
          if dict_mem (py "error") r then None
          else
            match dict_lookup (py "candidates") r with
            | Some (JArr (JObj cd :: _)) =>
                match dict_lookup (py "content") cd with
                | None => Some []
                | Some (JObj ct) =>
                    match dict_lookup (py "parts") ct with
                    | None => Some []
                    | Some (JArr ps) => Some ps
                    | Some _ => None
                    end
                | Some _ => None
                end
            | _ => None
            end
      | _ => None
      end
  | _ => None
  end.

(** A line without candidates: an object whose [response] is absent, or
    an object without [error] whose [candidates] are absent or false
    (an empty list, [null], [0], ...). *)
Definition no_candidates (v : json) : bool :=
  match v with
  | JObj d =>
      match dict_lookup (py "response") d with
      | None => true
      | Some (JObj r) =>
          negb (dict_mem (py "error") r) &&
          match dict_lookup (py "candidates") r with
          | None => true
          | Some c => negb (truthy c)
          end
      | Some _ => false
      end
  | _ => false
  end.

Definition is_object (v : json) : bool :=
  match v with
  | JObj _ => true
  | _ => false
  end.

Definition is_string (v : json) : bool :=
  match v with
  | JStr _ => true
  | _ => false
  end.

(** A part that is an object without [inline_data]. *)
Definition plain_part (part : json) : bool :=
  match part with
  | JObj p => negb (dict_mem (py "inline_data") p)
  | _ => false
  end.

(** ** The events of a part, a line and a file *)

(** The three ways the body of the loop over the parts can end: nothing
    done; the file opened and the payload refused; the file written and
    counted. *)
Inductive part_events : option unit -> list event -> Prop :=
| part_nothing (o : option unit) : part_events o []
| part_refused (p : pystr) :
    named_retouched p = true -> part_events None [OpenFile p]
| part_saved (p : pystr) (d : pybytes) :
    named_retouched p = true ->
    part_events (Some tt) [OpenFile p; WriteBytes p d; PrintSaved p].

(** Every write comes right after the opening of the file it goes to:
    wherever the events are cut in front of a write, what precedes the
    cut ends with the opening of the same path. *)
Definition opened_first (evs : list event) : Prop :=
  forall (pre : list event) (p : pystr) (d : pybytes) (post : list event),
    evs = pre ++ WriteBytes p d :: post ->
    exists pre', pre = pre' ++ [OpenFile p].

(** Events without a report of failure, in which every payload goes to a
    path of the expected form, opened right before. *)
Definition quiet (evs : list event) : Prop :=
  failures_of evs = [] /\
  Forall (fun w => named_retouched (fst w) = true) (writes_of evs) /\
  incl (map fst (writes_of evs)) (opens_of evs) /\
  opened_first evs.

(** [st] after the events [evs]. *)
Definition after (st : state) (evs : list event) : state :=
  mkState (trace st ++ evs) (success_count st + length (writes_of evs)).

(** The events of line [i] processed on its own, and of the lines of a
    file processed one after the other, each on its own. *)
Definition line_events (i : nat) (line : pybytes) : list event :=
  trace (process_line i line initial).

Fixpoint events_from (i : nat) (lines : list pybytes) : list event :=
  match lines with
  | [] => []
  | line :: rest => line_events i line ++ events_from (S i) rest
  end.

(** Does line [i] end in the handler of the [try] statement? *)
Definition line_fails (i : nat) (line : pybytes) : bool :=
  match fst (line_body i line initial) with
  | Some _ => false
  | None => true
  end.

(** ** The files on disk *)

(** The effect of one event on the files: opening with mode ["wb"]
    creates or empties the file, writing fills it. *)
Definition file_step (fs : list (pystr * pybytes)) (e : event)
  : list (pystr * pybytes) :=
  match e with
  | OpenFile p => put p [] fs
  | WriteBytes p d => put p d fs
  | _ => fs
  end.

(** The files after the events [tr], starting from the files [fs]. *)
Definition files_after (fs : list (pystr * pybytes)) (tr : list event)
  : list (pystr * pybytes) :=
  fold_left file_step tr fs.

(** The content of the file [p], if it exists. *)
Fixpoint content_of (p : pystr) (fs : list (pystr * pybytes))
  : option pybytes :=
  match fs with
  | [] => None
  | (q, d) :: fs' => if PyStr.eqb q p then Some d else content_of p fs'
  end.

(** ** Decimal numerals *)

(** The number a string of decimal digits denotes, read from the left
    with [acc] for the digits already read; [None] when a character is
    not a digit. *)
Fixpoint decimal_value (acc : nat) (s : pystr) : option nat :=
  match s with
  | [] => Some acc
  | c :: s' =>
      if is_digit c then decimal_value (10 * acc + N.to_nat (c - 48)) s'
      else None
  end.

(** [s] is the decimal numeral of [n]: at least one digit, digits only,
    of value [n], and no zero in front but for the numeral of zero. *)
Definition decimal_of (n : nat) (s : pystr) : Prop :=
  s <> [] /\
  decimal_value 0 s = Some n /\
  (hd 0%N s = 48%N -> s = [48%N]).

(** ** The request manifest *)

(** The [file_uri] of a request line, found along
    [request -> contents[1] -> parts[0] -> file_data -> file_uri]. *)
Definition file_uri_of (line : json) : option pystr :=
  match py_item line (py "request") with
  | Some request =>
      match py_item request (py "contents") with
      | Some (JArr (_ :: image :: _)) =>
          match py_item image (py "parts") with
          | Some (JArr (part :: _)) =>
              match py_item part (py "file_data") with
              | Some file_data =>
                  match py_item file_data (py "file_uri") with
                  | Some (JStr uri) => Some uri
                  | _ => None
                  end
              | None => None
              end
          | _ => None
          end
      | _ => None
      end
  | None => None
  end.

(** A character of the manifest: printable ASCII or a line feed. *)
Definition manifest_char (c : N) : bool :=
  Spec.printable c || (c =? 10)%N.

(** A value made of strings, lists and dictionaries only. *)
Fixpoint stringy (v : json) : bool :=
  match v with
  | JStr _ => true
  | JArr items => forallb stringy items
  | JObj members => forallb (fun kv => stringy (snd kv)) members
  | _ => false
  end.

(** The prefix of the blob names, as [upload_images_to_gcs] normalises
    it: empty, or ending with a slash. *)
Definition normal_prefix (prefix : pystr) : pystr :=
  match prefix with
  | [] => prefix
  | _ :: _ => if endswith (py "/") prefix then prefix else prefix ++ py "/"
  end.

(** The address of a blob. *)
Definition blob_url (bucket blob_path : pystr) : pystr :=
  py "gs://" ++ bucket ++ py "/" ++ blob_path.

End Laws.

(* ================================================================== *)
(** * The loops of [main.py] and [src/single_retouch.py] *)
(* ================================================================== *)

Module SyncRun.

Import Sync.

(** What a run does to the outside world. *)
Inductive event : Type :=
| PrintProcessing (filename : pystr)
| ReadFile (img_path : pystr)
| Request (model : pystr) (image_bytes : pybytes) (prompt : pystr)
| SaveImage (output_path : pystr) (data : pybytes) (format : option pystr)
| PrintSaved (output_path : pystr)
| PrintComplete (processed_count : nat).

(** The events so far and the variable [processed_count]. *)
Record run_state : Type := mkRun
  { log : list event;
    processed_count : nat }.

Definition start : run_state := mkRun [] 0.

(** A step either returns or raises; neither script catches anything, so
    an exception ends the run.  The state it leaves is kept: what was
    saved before stays saved. *)
Definition M (A : Type) : Type := run_state -> option A * run_state.

Definition ret {A : Type} (a : A) : M A := fun st => (Some a, st).

Definition raise {A : Type} : M A := fun st => (None, st).

Definition bind {A B : Type} (m : M A) (k : A -> M B) : M B :=
  fun st =>
    match m st with
    | (Some a, st') => k a st'
    | (None, st') => (None, st')
    end.

Definition say (evs : list event) : M unit :=
  fun st => (Some tt, mkRun (log st ++ evs) (processed_count st)).

(** A call to the outside that returns [r], or raises when [r] is
    [None]. *)
Definition call {A : Type} (r : option A) : M A := fun st => (r, st).

Notation "x <~ m ;; k" := (bind m (fun x => k))
  (at level 61, m at next level, right associativity).
Notation "m ;;; k" := (bind m (fun _ => k))
  (at level 61, right associativity).

(** The two scripts have the same loop, but for three things: [main.py]
    prints the entry it takes up and the path it saved, where
    [src/single_retouch.py] shows a progress bar; the path of a result;
    and the format given to [save]. *)
Record script : Type := mkScript
  { announces : bool;
    path_of : pystr -> pystr;
    format : option pystr }.

Definition main_py (processed_dir : pystr) : script :=
  mkScript true (flat_output_path processed_dir) None.

Definition single_retouch_py (raw_dir processed_dir : pystr) : script :=
  mkScript false (output_path raw_dir processed_dir) (Some (py "PNG")).

Section World.

(** [open(img_path, "rb").read()]. *)
Variable read_file : pystr -> option pybytes.

(** [response.candidates[0].content.parts] of the reply to a request,
    each part with the bytes of its [inline_data] when it has one (none
    read as empty, as [io.BytesIO(None)] does); [None] when the request
    or the way to the parts raises. *)
Variable generate_content :
  pystr -> pybytes -> pystr -> option (list (option pybytes)).

(** Does [Image.open] read the bytes, and does [save] write the image
    to the path? *)
Variable image_open : pybytes -> bool.
Variable image_save : pybytes -> pystr -> option pystr -> bool.

(** One turn of the loop over the parts. *)
Definition save_part (s : script) (filename : pystr) (part : option pybytes)
  : M unit :=
  match part with
  | None => ret tt
  | Some data =>
      if image_open data then
        let output_path := path_of s filename in
        if image_save data output_path (format s) then
          fun st =>
            (Some tt,
             mkRun (log st ++ SaveImage output_path data (format s)
                      :: (if announces s then [PrintSaved output_path] else []))
                   (processed_count st + 1))
        else raise
      else raise
  end.

Fixpoint for_parts (s : script) (filename : pystr)
    (parts : list (option pybytes)) : M unit :=
  match parts with
  | [] => ret tt
  | part :: parts' => save_part s filename part ;;; for_parts s filename parts'
  end.

(** One turn of the loop over the directory. *)
Definition process_file (s : script) (raw_dir model prompt filename : pystr)
  : M unit :=
  if accepts filename then
    let img_path := PyPath.join raw_dir filename in
    say (if announces s then [PrintProcessing filename] else []) ;;;
    say [ReadFile img_path] ;;;
    image_bytes <~ call (read_file img_path) ;;
    say [Request model image_bytes prompt] ;;;
    parts <~ call (generate_content model image_bytes prompt) ;;
    for_parts s filename parts
  else ret tt.

Fixpoint for_files (s : script) (raw_dir model prompt : pystr)
    (listing : list pystr) : M unit :=
  match listing with
  | [] => ret tt
  | filename :: listing' =>
      process_file s raw_dir model prompt filename ;;;
      for_files s raw_dir model prompt listing'
  end.

(** The loop and the closing message, given the listing of [raw_dir]. *)
Definition main (s : script) (raw_dir model prompt : pystr)
    (listing : list pystr) : M unit :=
  for_files s raw_dir model prompt listing ;;;
  (fun st => say [PrintComplete (processed_count st)] st).

End World.

(** The images saved and the files read, in order. *)
Definition saves_of (tr : list event) : list (pystr * pybytes) :=
  flat_map (fun e => match e with
                     | SaveImage p d _ => [(p, d)]
                     | _ => []
                     end) tr.

Definition reads_of (tr : list event) : list pystr :=
  flat_map (fun e => match e with ReadFile p => [p] | _ => [] end) tr.

(** The state after some more events. *)
Definition grow (st : run_state) (evs : list event) : run_state :=
  mkRun (log st ++ evs) (processed_count st + length (saves_of evs)).

(** No closing message among the events. *)
Definition silent (evs : list event) : bool :=
  forallb (fun e => match e with PrintComplete _ => false | _ => true end) evs.

(** Events of the loop over the parts of one reply: saves at one path,
    no reading, no closing message. *)
Definition at_path (path : pystr) (evs : list event) : Prop :=
  Forall (fun w => fst w = path) (saves_of evs) /\
  reads_of evs = [] /\
  silent evs = true.

End SyncRun.

(* ================================================================== *)
(** * Further sample inputs *)
(* ================================================================== *)

Module MoreSamples.

Import Samples.

(** A success line with two images, the payload of the second not
    base64. *)
Definition broken_payload_line : pybytes :=
  json_text "{'custom_id':'retouch_a.jpg','response':{'candidates':[{'content':{'parts':[{'inline_data':{'mime_type':'image/png','data':'aGk='}},{'inline_data':{'mime_type':'image/png','data':'a'}}]}}]}}".

Definition broken_payload_value : json :=
  Eval vm_compute in value_of broken_payload_line.

Definition hi_part : json :=
  JObj [ (py "inline_data",
          JObj [ (py "mime_type", JStr (py "image/png"));
                 (py "data", JStr (py "aGk=")) ]) ].

Definition broken_inline : dict :=
  [ (py "mime_type", JStr (py "image/png")); (py "data", JStr (py "a")) ].

Definition broken_part : dict := [ (py "inline_data", JObj broken_inline) ].

(** A success line with a number for its identifier. *)
Definition numbered_line : pybytes :=
  json_text "{'custom_id':7,'response':{'candidates':[{'content':{'parts':[{'inline_data':{'mime_type':'image/png','data':'aGk='}}]}}]}}".

Definition numbered_value : json := Eval vm_compute in value_of numbered_line.

Definition hi_inline : dict :=
  [ (py "mime_type", JStr (py "image/png")); (py "data", JStr (py "aGk=")) ].

(** A line whose response has an empty list of candidates. *)
Definition empty_candidates_line : pybytes :=
  json_text "{'custom_id':'retouch_e.jpg','response':{'candidates':[]}}".

Definition empty_candidates_value : json :=
  Eval vm_compute in value_of empty_candidates_line.


(** A result file of white space. *)
Definition blank_content : pybytes := [32%N; 10%N; 9%N; 10%N].

(** A directory with an entry the filter refuses, and one with an entry
    that cannot be read. *)
Definition mixed_listing : list pystr := [py "a.jpg"; py "notes.txt"; py "b.png"].

(** A world where all goes well: every file reads as three bytes, and
    every reply has a text part and two images. *)
Definition read_any (img_path : pystr) : option pybytes :=
  Some [1%N; 2%N; 3%N].

Definition reply_two (model : pystr) (image_bytes : pybytes) (prompt : pystr)
  : option (list (option pybytes)) :=
  Some [None; Some [7%N]; Some [8%N]].

Definition opens_any (data : pybytes) : bool := true.

Definition saves_any (data : pybytes) (output_path : pystr)
    (format : option pystr) : bool := true.

(** A world where [b.png] cannot be read. *)
Definition read_but_b (img_path : pystr) : option pybytes :=
  if endswith (py "b.png") img_path then None else Some [1%N; 2%N; 3%N].

End MoreSamples.

(* ================================================================== *)
(** * Facts about strings *)
(* ================================================================== *)

Module PyStrFacts.

Lemma eqb_refl (a : pystr) : PyStr.eqb a a = true.
Proof.
  induction a as [|x a IH]; simpl; [reflexivity|].
  now rewrite N.eqb_refl, IH.
Qed.

Lemma eqb_eq (a b : pystr) : PyStr.eqb a b = true <-> a = b.
Proof.
  split.
  - revert b; induction a as [|x a IH]; intros [|y b]; simpl; try discriminate.
    + reflexivity.
    + intros H. apply andb_true_iff in H as [Hx Hab].
      apply N.eqb_eq in Hx. now rewrite Hx, (IH b Hab).
  - intros ->. apply eqb_refl.
Qed.

Lemma eqb_neq (a b : pystr) : PyStr.eqb a b = false <-> a <> b.
Proof.
  split.
  - intros H E. apply eqb_eq in E. congruence.
  - intros H. destruct (PyStr.eqb a b) eqn:E; [|reflexivity].
    apply eqb_eq in E. contradiction.
Qed.

Lemma startswith_app (p t : pystr) : startswith p (p ++ t) = true.
Proof.
  induction p as [|a p IH]; simpl; [reflexivity|].
  now rewrite N.eqb_refl.
Qed.

Lemma startswith_spec (p s : pystr) :
  startswith p s = true <-> exists t, s = p ++ t.
Proof.
  split.
  - revert s; induction p as [|a p IH]; intros s H.
    + now exists s.
    + destruct s as [|b s]; simpl in H; [discriminate|].
      apply andb_true_iff in H as [Hab Hps].
      apply N.eqb_eq in Hab. destruct (IH s Hps) as [t ->].
      exists t. now rewrite Hab.
  - intros [t ->]. apply startswith_app.
Qed.

Lemma endswith_spec (suf s : pystr) :
  endswith suf s = true <-> exists pre, s = pre ++ suf.
Proof.
  unfold endswith. rewrite startswith_spec. split.
  - intros [t Ht]. exists (rev t).
    rewrite <- (rev_involutive s), Ht, rev_app_distr.
    now rewrite rev_involutive.
  - intros [pre ->]. exists (rev pre). apply rev_app_distr.
Qed.

Lemma endswith_app (pre suf : pystr) : endswith suf (pre ++ suf) = true.
Proof. apply endswith_spec. now exists pre. Qed.

Lemma endswith_any_spec (sufs : list pystr) (s : pystr) :
  endswith_any sufs s = true <->
  exists suf pre, In suf sufs /\ s = pre ++ suf.
Proof.
  unfold endswith_any. rewrite existsb_exists. split.
  - intros (suf & Hin & H). apply endswith_spec in H as [pre ->].
    now exists suf, pre.
  - intros (suf & pre & Hin & ->). exists suf. split; [assumption|].
    apply endswith_app.
Qed.

Lemma contains_head (sub s : pystr) :
  startswith sub s = true -> contains sub s = true.
Proof. intros H. destruct s; simpl; now rewrite H. Qed.

Lemma contains_spec (sub s : pystr) :
  contains sub s = true <-> Spec.occurs sub s.
Proof.
  unfold Spec.occurs. split.
  - induction s as [|c s IH]; simpl; intros H.
    + rewrite orb_false_r in H. apply startswith_spec in H as [t Ht].
      exists [], t. exact Ht.
    + apply orb_true_iff in H as [H|H].
      * apply startswith_spec in H as [t Ht]. now exists [], t.
      * destruct (IH H) as (pre & post & ->). now exists (c :: pre), post.
  - intros (pre & post & ->). induction pre as [|c pre IH].
    + apply contains_head. exact (startswith_app sub post).
    + simpl. rewrite IH. apply orb_true_r.
Qed.

Lemma contains_false_tail (sub : pystr) (c : N) (s : pystr) :
  contains sub (c :: s) = false ->
  startswith sub (c :: s) = false /\ contains sub s = false.
Proof. simpl. intros H. now apply orb_false_iff in H. Qed.

(** Passing over the rest of an occurrence. *)
Lemma replace_from_skip (old new p s : pystr) :
  replace_from old new (length p) (p ++ s) = replace_from old new 0 s.
Proof.
  induction p as [|c p IH]; simpl.
  - reflexivity.
  - exact IH.
Qed.

(** An occurrence at the front is replaced, and the scan goes on after
    it. *)
Lemma replace_prefix (old new s : pystr) :
  old <> [] -> replace old new (old ++ s) = new ++ replace old new s.
Proof.
  destruct old as [|c old]; [congruence|]. intros _.
  unfold replace.
  change ((c :: old) ++ s) with (c :: (old ++ s)).
  cbn [replace_from].
  replace (startswith (c :: old) (c :: old ++ s)) with true
    by (symmetry; apply (startswith_app (c :: old) s)).
  cbn [length]. replace (S (length old) - 1) with (length old) by lia.
  now rewrite replace_from_skip.
Qed.

(** A string in which [old] does not occur is left as it is. *)
Lemma replace_absent (old new s : pystr) :
  old <> [] -> contains old s = false -> replace old new s = s.
Proof.
  destruct old as [|a old]; [congruence|]. intros _.
  unfold replace. induction s as [|c s IH]; intros H.
  - reflexivity.
  - apply contains_false_tail in H as [H1 H2].
    cbn [replace_from]. rewrite H1. now rewrite IH.
Qed.



Lemma rfind_from_absent (c : N) (s : pystr) (i last : Z) :
  forallb (fun x => negb (x =? c)%N) s = true ->
  rfind_from c s i last = last.
Proof.
  revert i last; induction s as [|x s IH]; intros i last H; simpl in *.
  - reflexivity.
  - apply andb_true_iff in H as [Hx Hs].
    apply negb_true_iff in Hx. rewrite Hx. now apply IH.
Qed.

Lemma rfind_absent (c : N) (s : pystr) :
  forallb (fun x => negb (x =? c)%N) s = true -> rfind c s = (-1)%Z.
Proof. apply rfind_from_absent. Qed.

Lemma lower_app (a b : pystr) : lower (a ++ b) = lower a ++ lower b.
Proof. apply map_app. Qed.

End PyStrFacts.

(* ================================================================== *)
(** * The result fetcher: how one line is processed *)
(* ================================================================== *)

Module FetcherFacts.

Import PyStrFacts Fetcher Spec.

Arguments py : simpl never.

Lemma dict_mem_lookup (key : pystr) (d : dict) :
  dict_mem key d = match dict_lookup key d with Some _ => true | None => false end.
Proof.
  induction d as [|[k v] d IH]; simpl; [reflexivity|].
  destruct (PyStr.eqb k key); simpl; auto.
Qed.

Lemma writes_of_app (a b : list event) :
  writes_of (a ++ b) = writes_of a ++ writes_of b.
Proof. apply flat_map_app. Qed.

Lemma failures_of_app (a b : list event) :
  failures_of (a ++ b) = failures_of a ++ failures_of b.
Proof. apply flat_map_app. Qed.

Lemma saved_refl (st : state) : saved st st [].
Proof.
  exists []. rewrite app_nil_r. simpl. repeat split. lia.
Qed.

Lemma saved_trans (a b c : state) (x y : list (pystr * pybytes)) :
  saved a b x -> saved b c y -> saved a c (x ++ y).
Proof.
  intros (e1 & T1 & W1 & F1 & C1) (e2 & T2 & W2 & F2 & C2).
  exists (e1 ++ e2).
  rewrite T2, T1, C2, C1, writes_of_app, failures_of_app, W1, W2, F1, F2.
  rewrite length_app, app_assoc. repeat split. lia.
Qed.

Lemma saved_writes (st st' : state) (images : list (pystr * pybytes)) :
  saved st st' images ->
  writes_of (trace st') = writes_of (trace st) ++ images.
Proof. intros (e & T & W & _). now rewrite T, writes_of_app, W. Qed.

Lemma saved_failures (st st' : state) (images : list (pystr * pybytes)) :
  saved st st' images ->
  failures_of (trace st') = failures_of (trace st).
Proof.
  intros (e & T & _ & F & _). now rewrite T, failures_of_app, F, app_nil_r.
Qed.

Lemma saved_count (st st' : state) (images : list (pystr * pybytes)) :
  saved st st' images ->
  success_count st' = success_count st + length images.
Proof. now intros (e & _ & _ & _ & C). Qed.

(** One well-formed part: no exception, and its image, if it carries
    one, is saved. *)
Lemma save_part_wf (custom_id : pystr) (part : json) (st : state) :
  wf_part part = true ->
  exists st',
    save_part (JStr custom_id) part st = (Some tt, st') /\
    saved st st' (image_of custom_id part).
Proof.
  intros Hwf. destruct part as [| | | | | |p]; try discriminate.
  unfold wf_part in Hwf. unfold save_part, bind, try. cbn [py_in image_of].
  rewrite dict_mem_lookup. cbn [py_item].
  destruct (dict_lookup (py "inline_data") p) as [idata|] eqn:E.
  2:{ exists st. split; [reflexivity | apply saved_refl]. }
  destruct idata as [| | | | | |i]; try discriminate.
  unfold wf_inline in Hwf.
  destruct (declared_mime i) as [mime|] eqn:Em; try discriminate.
  destruct (dict_lookup (py "data") i) as [data|] eqn:Ed; try discriminate.
  destruct (Base64.b64decode data) as [payload|] eqn:Eb; try discriminate.
  assert (Hget : py_get (JObj i) (py "mime_type") (JStr (py "image/png"))
                 = Some (JStr mime)).
  { unfold declared_mime in Em. cbn [py_get].
    destruct (dict_lookup (py "mime_type") i) as [[]|]; try discriminate;
      congruence. }
  rewrite Hget. cbn [py_in py_replace]. unfold say, count_success, ret.
  cbn [trace success_count py_item]. rewrite Ed, Eb.
  eexists. split; [reflexivity|].
  eexists. cbn [trace success_count]. split.
  - rewrite <- !app_assoc. reflexivity.
  - repeat split.
Qed.

(** A list of well-formed parts: every image is saved, in order. *)
Lemma for_parts_wf (custom_id : pystr) (parts : list json) (st : state) :
  forallb wf_part parts = true ->
  exists st',
    for_parts (JStr custom_id) parts st = (Some tt, st') /\
    saved st st' (flat_map (image_of custom_id) parts).
Proof.
  revert st; induction parts as [|part parts IH]; intros st Hwf.
  - exists st. split; [reflexivity | apply saved_refl].
  - simpl in Hwf. apply andb_true_iff in Hwf as [Hp Hps].
    destruct (save_part_wf custom_id part st Hp) as (st1 & E1 & S1).
    destruct (IH st1 Hps) as (st2 & E2 & S2).
    exists st2. split.
    + cbn [for_parts]. unfold bind. now rewrite E1.
    + cbn [flat_map]. eapply saved_trans; eassumption.
Qed.

(** The identifier [main] computes for a well-formed line. *)
Lemma custom_id_of_line (i : nat) (d : dict) (o : option pystr) :
  id_of (JObj d) = Some o ->
  py_get (JObj d) (py "custom_id") (JStr (py "image_" ++ str_of_nat i))
  = Some (JStr (name_of_line i (JObj d))).
Proof.
  unfold name_of_line, id_of. cbn [py_get].
  destruct (dict_lookup (py "custom_id") d) as [[]|]; try discriminate;
    reflexivity.
Qed.

(** A well-formed success line: the body of the [try] statement ends
    without an exception, having saved the images of the line. *)
Lemma line_body_success (i : nat) (line : pybytes) (v : json) (st : state) :
  loads_bytes line = Some v ->
  wf_success v = true ->
  exists st',
    line_body i line st = (Some tt, st') /\
    saved st st' (images_of_line i v).
Proof.
  intros Hload Hwf. destruct v as [| | | | | |d]; try discriminate.
  unfold wf_success in Hwf.
  destruct (id_of (JObj d)) as [o|] eqn:Eid; try discriminate.
  destruct (dict_lookup (py "response") d) as [[| | | | | |r]|] eqn:Er;
    try discriminate.
  apply andb_true_iff in Hwf as [Herr Hcs].
  apply negb_true_iff in Herr.
  destruct (dict_lookup (py "candidates") r) as [[| | | | |[|c cs]|]|] eqn:Ec;
    try discriminate.
  cbn [forallb] in Hcs. apply andb_true_iff in Hcs as [Hc _].
  unfold wf_candidate in Hc.
  destruct c as [| | | | | |cd]; try discriminate.
  assert (Hparts : forallb wf_part (parts_of (JObj cd)) = true /\
                   forall st0,
                     (content <~ try (py_get (JObj cd) (py "content") (JObj [])) ;;
                      parts <~ try (py_get content (py "parts") (JArr [])) ;;
                      items <~ try (py_iter parts) ;;
                      for_parts (JStr (name_of_line i (JObj d))) items) st0
                     = for_parts (JStr (name_of_line i (JObj d)))
                                 (parts_of (JObj cd)) st0).
  { unfold parts_of, bind, try. cbn [py_get].
    destruct (dict_lookup (py "content") cd) as [[| | | | | |ct]|];
      try discriminate; [|now split].
    cbn [py_get].
    destruct (dict_lookup (py "parts") ct) as [[| | | | |ps|]|];
      try discriminate; now split. }
  destruct Hparts as [Hwfp Hrun].
  destruct (for_parts_wf (name_of_line i (JObj d)) (parts_of (JObj cd)) st Hwfp)
    as (st' & E & S).
  exists st'. split.
  - unfold line_body. unfold bind at 1, try at 1. rewrite Hload.
    unfold bind at 1, try at 1. rewrite (custom_id_of_line i d Eid).
    unfold bind at 1, try at 1. cbn [py_get]. rewrite Er.
    unfold bind at 1, try at 1. cbn [py_in]. rewrite Herr.
    unfold bind at 1, try at 1. cbn [py_get]. rewrite Ec.
    cbn [truthy negb]. unfold bind at 1, try at 1. cbn [py_item0].
    rewrite Hrun. exact E.
  - unfold images_of_line, candidates_of.
    rewrite Er, Ec. cbn [hd]. exact S.
Qed.

Lemma process_line_success (i : nat) (line : pybytes) (v : json) (st : state) :
  loads_bytes line = Some v ->
  wf_success v = true ->
  saved st (process_line i line st) (images_of_line i v).
Proof.
  intros Hload Hwf.
  destruct (line_body_success i line st Hload Hwf) as (st' & E & S).
  unfold process_line. now rewrite E.
Qed.

(** A line that is not JSON: the failure is reported, nothing else
    happens. *)
Lemma process_line_malformed (i : nat) (line : pybytes) (st : state) :
  loads_bytes line = None ->
  process_line i line st
  = mkState (trace st ++ [PrintFailed i]) (success_count st).
Proof.
  intros Hload. unfold process_line, line_body, bind, try.
  now rewrite Hload.
Qed.

(** A line whose response carries an error: the error is shown, and the
    loop goes on to the next line. *)
Lemma process_line_error (i : nat) (line : pybytes) (v : json) (st : state) :
  loads_bytes line = Some v ->
  is_error_line v = true ->
  exists custom_id err,
    process_line i line st
    = mkState (trace st ++ [PrintError custom_id err]) (success_count st).
Proof.
  intros Hload Herr. destruct v as [| | | | | |d]; try discriminate.
  unfold is_error_line in Herr.
  destruct (dict_lookup (py "response") d) as [[| | | | | |r]|] eqn:Er;
    try discriminate.
  pose proof Herr as Hmem. rewrite dict_mem_lookup in Hmem.
  destruct (dict_lookup (py "error") r) as [err|] eqn:Ee; try discriminate.
  unfold process_line, line_body, bind, try. rewrite Hload. cbn [py_get].
  destruct (dict_lookup (py "custom_id") d) as [cid|];
    rewrite Er; cbn [py_in]; rewrite Herr; cbn [py_item]; rewrite Ee;
    unfold say; cbn [trace success_count]; eauto.
Qed.


(** ** Counting the images of a line *)

Lemma image_of_length (custom_id : pystr) (part : json) :
  wf_part part = true ->
  length (image_of custom_id part) = if carries_inline part then 1 else 0.
Proof.
  intros Hwf. destruct part as [| | | | | |p]; try discriminate.
  unfold wf_part in Hwf. unfold image_of, carries_inline.
  rewrite dict_mem_lookup.
  destruct (dict_lookup (py "inline_data") p) as [idata|]; [|reflexivity].
  destruct idata as [| | | | | |i]; try discriminate.
  unfold wf_inline in Hwf.
  destruct (declared_mime i); try discriminate.
  destruct (dict_lookup (py "data") i) as [data|]; try discriminate.
  destruct (Base64.b64decode data); [reflexivity | discriminate].
Qed.

Lemma images_length (custom_id : pystr) (parts : list json) :
  forallb wf_part parts = true ->
  length (flat_map (image_of custom_id) parts)
  = length (filter carries_inline parts).
Proof.
  induction parts as [|part parts IH]; intros Hwf; [reflexivity|].
  simpl in Hwf. apply andb_true_iff in Hwf as [Hp Hps].
  cbn [flat_map filter]. rewrite length_app, (image_of_length _ _ Hp), (IH Hps).
  destruct (carries_inline part); reflexivity.
Qed.

Lemma wf_success_parts (v : json) :
  wf_success v = true ->
  forallb wf_part (parts_of (hd JNull (candidates_of v))) = true.
Proof.
  intros Hwf. destruct v as [| | | | | |d]; try discriminate.
  unfold wf_success in Hwf. unfold candidates_of.
  destruct (id_of (JObj d)); try discriminate.
  destruct (dict_lookup (py "response") d) as [[| | | | | |r]|];
    try discriminate.
  apply andb_true_iff in Hwf as [_ Hcs].
  destruct (dict_lookup (py "candidates") r) as [[| | | | |[|c cs]|]|];
    try discriminate.
  cbn [forallb] in Hcs. apply andb_true_iff in Hcs as [Hc _].
  cbn [hd]. unfold wf_candidate in Hc. unfold parts_of.
  destruct c as [| | | | | |cd]; try discriminate.
  destruct (dict_lookup (py "content") cd) as [[| | | | | |ct]|];
    try discriminate; [|reflexivity].
  destruct (dict_lookup (py "parts") ct) as [[| | | | |ps|]|];
    try discriminate; [exact Hc | reflexivity].
Qed.

Lemma images_of_line_length (i : nat) (v : json) :
  wf_success v = true ->
  length (images_of_line i v)
  = length (filter carries_inline (parts_of (hd JNull (candidates_of v)))).
Proof.
  intros Hwf. apply images_length, wf_success_parts, Hwf.
Qed.

(** ** The whole file *)

Lemma parse_results_trace (content : pybytes) :
  let st := for_lines 0 (split_nl (strip content)) initial in
  writes_of (trace (parse_results content)) = writes_of (trace st) /\
  failures_of (trace (parse_results content)) = failures_of (trace st) /\
  success_count (parse_results content) = success_count st /\
  (forall e, In e (trace st) -> In e (trace (parse_results content))).
Proof.
  unfold parse_results. cbn [trace success_count].
  rewrite writes_of_app, failures_of_app. simpl. rewrite !app_nil_r.
  repeat split. intros e He. apply in_or_app. now left.
Qed.

(** ** The fallback identifier *)







Lemma join_output_dir (name : pystr) :
  startswith [PyPath.SEP] name = false ->
  PyPath.join OUTPUT_DIR name = OUTPUT_DIR ++ py "/" ++ name.
Proof. intros H. unfold PyPath.join. rewrite H. reflexivity. Qed.


Lemma saved_keeps (st st' : state) (images : list (pystr * pybytes)) :
  saved st st' images -> forall e, In e (trace st) -> In e (trace st').
Proof.
  intros (evs & T & _) e He. rewrite T. apply in_or_app. now left.
Qed.

Lemma process_line_error_saved (i : nat) (line : pybytes) (v : json)
    (st : state) :
  loads_bytes line = Some v ->
  is_error_line v = true ->
  saved st (process_line i line st) [] /\
  exists custom_id err,
    In (PrintError custom_id err) (trace (process_line i line st)).
Proof.
  intros Hload Herr.
  destruct (process_line_error i line st Hload Herr) as (cid & err & E).
  rewrite E. split.
  - exists [PrintError cid err]. cbn [trace success_count length].
    repeat split. lia.
  - exists cid, err. cbn [trace]. apply in_or_app. right. now left.
Qed.

Lemma process_line_malformed_trace (i : nat) (line : pybytes) (st : state) :
  loads_bytes line = None ->
  let st' := process_line i line st in
  writes_of (trace st') = writes_of (trace st) /\
  failures_of (trace st') = failures_of (trace st) ++ [i] /\
  success_count st' = success_count st.
Proof.
  intros Hload. cbv zeta. rewrite (process_line_malformed i line st Hload).
  cbn [trace success_count]. rewrite writes_of_app, failures_of_app.
  simpl. rewrite app_nil_r. repeat split.
Qed.

(** ** The claims about the result parser *)

(** C3. A result file of one well-formed success line (its one candidate
    carrying one inline-data part) and one line whose response holds an
    [error] field, in either order: exactly one image is written, no
    failure is reported for any line, and the error line is shown and
    passed over. *)
Theorem error_line_is_skipped
    (content ok_line err_line : pybytes) (v_ok v_err : json) :
  split_nl (strip content) = [ok_line; err_line] \/
  split_nl (strip content) = [err_line; ok_line] ->
  loads_bytes ok_line = Some v_ok ->
  wf_success v_ok = true ->
  (exists c, candidates_of v_ok = [c] /\
             length (filter carries_inline (parts_of c)) = 1) ->
  loads_bytes err_line = Some v_err ->
  is_error_line v_err = true ->
  let st := parse_results content in
  (exists image, writes_of (trace st) = [image]) /\
  success_count st = 1 /\
  failures_of (trace st) = [] /\
  (exists custom_id err, In (PrintError custom_id err) (trace st)).
Proof.
  intros Hlines Hok Hwf (c & Hc & Hone) Herr Hise. cbv zeta.
  destruct (parse_results_trace content) as (W & F & C & K).
  rewrite W, F, C. clear W F C.
  assert (Hlen : forall i, length (images_of_line i v_ok) = 1).
  { intros i. rewrite (images_of_line_length i _ Hwf), Hc. exact Hone. }
  destruct Hlines as [Hl | Hl]; rewrite Hl in *; cbn [for_lines] in *.
  - pose proof (process_line_success 0 ok_line initial Hok Hwf) as S1.
    set (st1 := process_line 0 ok_line initial) in *.
    destruct (process_line_error_saved 1 err_line st1 Herr Hise)
      as (S2 & cid & err & Hin).
    pose proof (saved_trans S1 S2) as S. rewrite app_nil_r in S.
    rewrite (saved_writes S), (saved_failures S), (saved_count S), Hlen.
    cbn [initial trace success_count writes_of failures_of flat_map app].
    destruct (images_of_line 0 v_ok) as [|image [|]] eqn:E;
      specialize (Hlen 0); rewrite E in Hlen; try discriminate.
    repeat split; [now exists image | exists cid, err; apply K, Hin].
  - destruct (process_line_error_saved 0 err_line initial Herr Hise)
      as (S1 & cid & err & Hin).
    set (st1 := process_line 0 err_line initial) in *.
    pose proof (process_line_success 1 ok_line st1 Hok Hwf) as S2.
    pose proof (saved_trans S1 S2) as S. cbn [app] in S.
    rewrite (saved_writes S), (saved_failures S), (saved_count S), Hlen.
    cbn [initial trace success_count writes_of failures_of flat_map app].
    destruct (images_of_line 1 v_ok) as [|image [|]] eqn:E;
      specialize (Hlen 1); rewrite E in Hlen; try discriminate.
    repeat split; [now exists image|].
    exists cid, err. apply K. exact (saved_keeps S2 _ Hin).
Qed.

(** C4. A line that is not JSON between two well-formed success lines:
    a failure is reported for that line and for no other, and the
    images of both well-formed lines are written. *)
Theorem malformed_line_is_isolated
    (content first bad last : pybytes) (v1 v3 : json) :
  split_nl (strip content) = [first; bad; last] ->
  loads_bytes first = Some v1 ->
  wf_success v1 = true ->
  loads_bytes bad = None ->
  loads_bytes last = Some v3 ->
  wf_success v3 = true ->
  let st := parse_results content in
  failures_of (trace st) = [1] /\
  writes_of (trace st) = images_of_line 0 v1 ++ images_of_line 2 v3 /\
  success_count st
  = length (images_of_line 0 v1) + length (images_of_line 2 v3).
Proof.
  intros Hlines H1 Hwf1 Hbad H3 Hwf3. cbv zeta.
  destruct (parse_results_trace content) as (W & F & C & _).
  rewrite W, F, C, Hlines. clear W F C. cbn [for_lines].
  pose proof (process_line_success 0 first initial H1 Hwf1) as S1.
  set (st1 := process_line 0 first initial) in *.
  destruct (process_line_malformed_trace 1 bad st1 Hbad) as (W2 & F2 & C2).
  set (st2 := process_line 1 bad st1) in *.
  pose proof (process_line_success 2 last st2 H3 Hwf3) as S3.
  rewrite (saved_writes S3), (saved_failures S3), (saved_count S3).
  rewrite W2, F2, C2.
  rewrite (saved_writes S1), (saved_failures S1), (saved_count S1).
  repeat split.
Qed.


(** C5. An inline-data part that is saved gets the extension [.jpg]
    exactly when the MIME type string it declares contains ["jpeg"], and
    [.png] for every other declared type; a part that declares no type
    counts as ["image/png"] and gets [.png]. *)
Theorem extension_follows_mime
    (custom_id : pystr) (p idata : dict) (data : json) (payload : pybytes)
    (mime : pystr) (st : state) :
  dict_lookup (py "inline_data") p = Some (JObj idata) ->
  declared_mime idata = Some mime ->
  dict_lookup (py "data") idata = Some data ->
  Base64.b64decode data = Some payload ->
  exists ext,
    writes_of (trace (snd (save_part (JStr custom_id) (JObj p) st)))
    = writes_of (trace st) ++
      [ (PyPath.join OUTPUT_DIR
           (fst (PyPath.splitext (replace (py "retouch_") [] custom_id))
            ++ py "_retouched" ++ ext),
         payload) ] /\
    (occurs (py "jpeg") mime -> ext = py ".jpg") /\
    (~ occurs (py "jpeg") mime -> ext = py ".png") /\
    (dict_lookup (py "mime_type") idata = None -> ext = py ".png").
Proof.
  intros Hi Hm Hd Hb.
  assert (Hwf : wf_part (JObj p) = true).
  { unfold wf_part, wf_inline. now rewrite Hi, Hm, Hd, Hb. }
  destruct (save_part_wf custom_id (JObj p) st Hwf) as (st' & E & S).
  rewrite E. cbn [snd]. rewrite (saved_writes S).
  unfold image_of. rewrite Hi, Hm, Hd, Hb.
  exists (ext_for (contains (py "jpeg") mime)). split; [reflexivity|].
  repeat split.
  - intros Hocc. apply contains_spec in Hocc. now rewrite Hocc.
  - intros Hno. destruct (contains (py "jpeg") mime) eqn:Ec; [|reflexivity].
    apply contains_spec in Ec. contradiction.
  - intros Hnone. unfold declared_mime in Hm. rewrite Hnone in Hm.
    injection Hm as <-. reflexivity.
Qed.

(** C7, as the code has it.  A well-formed result line is processed
    without a failure; the parts of its first candidate are walked, and
    each of them that carries inline image bytes is written once, under
    the path made from the line's identifier and the part's MIME type.
    Candidates after the first are not looked at.  When no part of the
    first candidate carries inline data, nothing is written. *)
Theorem first_candidate_is_saved
    (i : nat) (line : pybytes) (v : json) (st : state) :
  loads_bytes line = Some v ->
  wf_success v = true ->
  let st' := process_line i line st in
  let parts := parts_of (hd JNull (candidates_of v)) in
  writes_of (trace st') = writes_of (trace st) ++ images_of_line i v /\
  length (images_of_line i v) = length (filter carries_inline parts) /\
  success_count st' = success_count st + length (filter carries_inline parts) /\
  failures_of (trace st') = failures_of (trace st) /\
  (filter carries_inline parts = [] ->
   writes_of (trace st') = writes_of (trace st)).
Proof.
  intros Hload Hwf. cbv zeta.
  pose proof (process_line_success i line st Hload Hwf) as S.
  pose proof (images_of_line_length i v Hwf) as L.
  rewrite (saved_writes S), (saved_failures S), (saved_count S), L.
  repeat split. intros Hnone. rewrite Hnone in L.
  destruct (images_of_line i v); [apply app_nil_r | discriminate].
Qed.

(** ** The name a [custom_id] is decoded to *)

(** The tag in front of a [custom_id] is taken off, and the scan for
    further occurrences goes on in the file name. *)
Lemma out_name_of_tagged (f ext : pystr) :
  out_name_of (Builder.ID_TAG ++ f) ext = out_name_of f ext.
Proof.
  unfold out_name_of. change (py "retouch_") with Builder.ID_TAG.
  now rewrite replace_prefix by discriminate.
Qed.

(** For a file name in which the tag does not occur, encoding and
    decoding give the name back, with the suffix and the extension of
    the result. *)
Lemma round_trip_without_tag (f ext : pystr) :
  contains Builder.ID_TAG f = false ->
  out_name_of (Builder.ID_TAG ++ f) ext
  = fst (PyPath.splitext f) ++ py "_retouched" ++ ext.
Proof.
  intros H. rewrite out_name_of_tagged. unfold out_name_of.
  change (py "retouch_") with Builder.ID_TAG.
  now rewrite replace_absent by (discriminate || assumption).
Qed.

(** C2, at a file name that contains the tag.  The file
    [IMG_retouch_01.jpg] gets the [custom_id]
    [retouch_IMG_retouch_01.jpg]; the parser names its result
    [IMG_01_retouched.png], not [IMG_retouch_01_retouched.png]: the
    occurrence of the tag inside the name is removed as well. *)
Theorem tag_inside_name_is_lost :
  let f := py "IMG_retouch_01.jpg" in
  let ext := py ".png" in
  py_get (Builder.request_line f []) (py "custom_id") JNull
  = Some (JStr (py "retouch_IMG_retouch_01.jpg")) /\
  out_name_of (py "retouch_IMG_retouch_01.jpg") ext
  = py "IMG_01_retouched.png" /\
  fst (PyPath.splitext f) ++ py "_retouched" ++ ext
  = py "IMG_retouch_01_retouched.png" /\
  out_name_of (Builder.ID_TAG ++ f) ext
  <> fst (PyPath.splitext f) ++ py "_retouched" ++ ext /\
  writes_of (trace (process_line 0 Samples.tagged_name_line initial))
  = [ (py "./data/processed/IMG_01_retouched.png", py "hello") ].
Proof. vm_compute. repeat split. discriminate. Qed.


(** The end-to-end example of the specification: a result file whose
    one line has the identifier [retouch_a.jpg] and a PNG payload leaves
    one file, [a_retouched.png], holding the decoded bytes. *)
Example end_to_end :
  files_of (trace (main (py "JOB_STATE_SUCCEEDED")
                        (Samples.success_line ++ Samples.LF)))
  = [ (py "./data/processed/a_retouched.png", py "hello") ].
Proof. vm_compute. reflexivity. Qed.

(** A line whose candidate holds text only: nothing is written and
    nothing is reported as failed. *)
Example text_only_line_is_quiet :
  process_line 0 Samples.text_only_line initial = initial.
Proof. vm_compute. reflexivity. Qed.

(** C7, as the specification states it, fails on a line with two
    candidates that hold one image each: both parts carry inline data,
    and one file is written. *)
Lemma later_candidates_are_ignored :
  exists v,
    loads_bytes Samples.two_candidates_line = Some v /\
    wf_success v = true /\
    length (filter carries_inline (flat_map parts_of (candidates_of v))) = 2 /\
    length (writes_of
              (trace (process_line 0 Samples.two_candidates_line initial)))
    = 1 /\
    length (writes_of
              (trace (process_line 0 Samples.two_candidates_line initial)))
    <> length (filter carries_inline (flat_map parts_of (candidates_of v))).
Proof. eexists. vm_compute. repeat split. discriminate. Qed.

End FetcherFacts.

(* ================================================================== *)
(** * The selection of input files, and the synchronous transform *)
(* ================================================================== *)

Module SyncFacts.

Import PyStrFacts Sync Spec.

(** ** Which directory entries are processed *)

(** The synchronous scripts take a name that ends with one of the six
    suffixes, as they are spelled. *)
Lemma accepts_spec (f : pystr) :
  accepts f = true <->
  exists suf stem, In suf SYNC_SUFFIXES /\ f = stem ++ suf.
Proof.
  unfold accepts. rewrite endswith_any_spec. split.
  - intros (suf & pre & Hin & ->). now exists suf, pre.
  - intros (suf & stem & Hin & ->). now exists suf, stem.
Qed.

(** The upload path takes a name that ends with one of its four
    suffixes in any letter case. *)
Lemma upload_accepts_spec (f : pystr) :
  Builder.upload_accepts f = true <->
  exists ext, In ext Builder.UPLOAD_SUFFIXES /\ ends_with_ci ext f.
Proof.
  unfold Builder.upload_accepts, ends_with_ci. rewrite endswith_any_spec.
  split.
  - intros (suf & pre & Hin & E). unfold lower in E.
    apply map_eq_app in E as (stem & suffix & -> & _ & Hs).
    exists suf. split; [assumption|]. now exists stem, suffix.
  - intros (ext & Hin & stem & suffix & -> & Hl).
    exists ext, (lower stem). split; [assumption|].
    now rewrite lower_app, Hl.
Qed.

(** C8, at a name with a suffix in mixed case.  [photo.Jpg] ends with
    [.jpg] up to letter case; the upload path takes it, and the test of
    [main.py] and [single_retouch.py] refuses it. *)
Theorem mixed_case_suffix_is_refused :
  ends_with_ci (py ".jpg") (py "photo.Jpg") /\
  Builder.upload_accepts (py "photo.Jpg") = true /\
  accepts (py "photo.Jpg") = false /\
  image_files [py "photo.Jpg"] = [].
Proof.
  split; [|vm_compute; repeat split].
  exists (py "photo"), (py ".Jpg"). split; reflexivity.
Qed.

(** ** Paths *)

Lemma split_sep_nonempty (s : pystr) : split_sep s <> [].
Proof.
  destruct s as [|c s]; simpl; [discriminate|].
  destruct (c =? PyPath.SEP)%N; [discriminate|].
  destruct (split_sep s); discriminate.
Qed.

Lemma split_sep_no_sep (s : pystr) : Forall (fun x => no_sep x = true) (split_sep s).
Proof.
  induction s as [|c s IH]; simpl.
  - repeat constructor.
  - destruct (c =? PyPath.SEP)%N eqn:E.
    + constructor; [reflexivity | exact IH].
    + destruct (split_sep s) as [|x rest]; [repeat constructor; simpl; now rewrite E|].
      inversion IH as [|? ? Hx Hrest]; subst.
      constructor; [|assumption]. simpl. now rewrite E, Hx.
Qed.

Lemma split_sep_plain (s : pystr) : no_sep s = true -> split_sep s = [s].
Proof.
  induction s as [|c s IH]; intros H; [reflexivity|].
  simpl in H. apply andb_true_iff in H as [Hc Hs].
  apply negb_true_iff in Hc. simpl. now rewrite Hc, (IH Hs).
Qed.

(** A segment as the parser keeps them: it parses to itself. *)
Lemma parse_segment (x : pystr) :
  no_sep x = true -> kept x = true -> parse x = mkPath [] [x].
Proof.
  intros Hn Hk. unfold parse. rewrite (split_sep_plain _ Hn).
  cbn [filter]. rewrite Hk.
  destruct x as [|c x]; [discriminate|].
  simpl in Hn. apply andb_true_iff in Hn as [Hc _].
  apply negb_true_iff in Hc.
  unfold py at 1. cbn [list_ascii_of_string map startswith].
  change (N_of_ascii "/") with PyPath.SEP.
  now rewrite N.eqb_sym, Hc.
Qed.

Lemma segs_plain (s : pystr) :
  Forall (fun x => no_sep x = true /\ kept x = true) (segs (parse s)).
Proof.
  unfold parse. cbn [segs]. apply Forall_forall. intros x Hin.
  apply filter_In in Hin as [Hin Hk]. split; [|assumption].
  pose proof (split_sep_no_sep s) as H.
  rewrite Forall_forall in H. now apply H.
Qed.

(** Joining plain segments appends them. *)
Lemma joinpath_segments (p : Path) (xs : list pystr) :
  Forall (fun x => no_sep x = true /\ kept x = true) xs ->
  joinpath p xs = mkPath (root p) (segs p ++ xs).
Proof.
  unfold joinpath. revert p; induction xs as [|x xs IH]; intros p H.
  - destruct p. simpl. now rewrite app_nil_r.
  - inversion H as [|? ? [Hn Hk] Hxs]; subst. cbn [fold_left].
    rewrite (parse_segment _ Hn Hk). cbn [root segs].
    rewrite (IH _ Hxs). cbn [root segs]. now rewrite <- app_assoc.
Qed.

Lemma parts_append (p : Path) (xs : list pystr) :
  parts (mkPath (root p) (segs p ++ xs)) = parts p ++ xs.
Proof. unfold parts. cbn [root segs]. now destruct (root p). Qed.

Lemma root_cases (s : pystr) :
  root (parse s) = [] \/ root (parse s) = py "/" \/ root (parse s) = py "//".
Proof.
  unfold parse. cbn [root].
  destruct (startswith (py "/") s); [|now left].
  destruct (startswith (py "//") s && negb (startswith (py "///") s));
    auto.
Qed.

(** What follows a part of a parsed path is made of its segments. *)
Lemma after_part_plain (s : pystr) (before : list pystr) (x : pystr)
    (after : list pystr) :
  parts (parse s) = before ++ x :: after ->
  Forall (fun y => no_sep y = true /\ kept y = true) after.
Proof.
  intros H. pose proof (segs_plain s) as Hs.
  destruct (parse s) as [r sg]. unfold parts in H. cbn [root segs] in H, Hs.
  destruct r as [|r0 r].
  - rewrite H in Hs. apply Forall_app in Hs as [_ Hs]. now inversion Hs.
  - destruct before as [|b before]; simpl in H.
    + injection H as _ H. now rewrite H in Hs.
    + injection H as _ H. rewrite H in Hs.
      apply Forall_app in Hs as [_ Hs]. now inversion Hs.
Qed.

Lemma member_spec (x : pystr) (l : list pystr) :
  member x l = true <-> In x l.
Proof.
  unfold member. rewrite existsb_exists. split.
  - intros (y & Hin & E). apply eqb_eq in E. now subst.
  - intros Hin. exists x. split; [assumption | apply eqb_refl].
Qed.

Lemma index_first (x : pystr) (before after : list pystr) :
  ~ In x before -> index x (before ++ x :: after) = Some (length before).
Proof.
  induction before as [|b before IH]; intros Hno; simpl.
  - now rewrite eqb_refl.
  - destruct (PyStr.eqb b x) eqn:E.
    + apply eqb_eq in E. subst. exfalso. apply Hno. now left.
    + rewrite IH; [reflexivity|]. intros Hin. apply Hno. now right.
Qed.

(** ** The stem of a file name *)

Lemma rfind_from_last (c : N) (base ext : pystr) (i last : Z) :
  forallb (fun x => negb (x =? c)%N) ext = true ->
  rfind_from c (base ++ c :: ext) i last = (i + Z.of_nat (length base))%Z.
Proof.
  intros Hext. revert i last; induction base as [|b base IH]; intros i last.
  - cbn [app rfind_from length]. rewrite N.eqb_refl.
    rewrite (rfind_from_absent _ _ _ _ Hext). simpl. lia.
  - cbn [app rfind_from length]. rewrite IH. lia.
Qed.

Lemma stem_of_name (base ext : pystr) :
  base <> [] -> ext <> [] ->
  forallb (fun x => negb (x =? PyPath.EXTSEP)%N) ext = true ->
  no_sep (base ++ PyPath.EXTSEP :: ext) = true ->
  stem (parse (base ++ PyPath.EXTSEP :: ext)) = base.
Proof.
  intros Hb He Hdot Hsep.
  assert (Hk : kept (base ++ PyPath.EXTSEP :: ext) = true).
  { destruct base as [|b base]; [congruence|].
    unfold kept, py. simpl.
    destruct base; simpl; now rewrite andb_false_r. }
  rewrite (parse_segment _ Hsep Hk). unfold stem, name. cbn [segs last].
  unfold rfind. rewrite (rfind_from_last _ base _ 0 (-1) Hdot).
  rewrite length_app. cbn [length]. rewrite Nat2Z.inj_add, Nat2Z.inj_succ.
  assert (0 < Z.of_nat (length base))%Z by (destruct base; [congruence|simpl; lia]).
  assert (0 < Z.of_nat (length ext))%Z by (destruct ext; [congruence|simpl; lia]).
  replace ((0 <? 0 + Z.of_nat (length base))%Z) with true
    by (symmetry; apply Z.ltb_lt; lia).
  replace ((0 + Z.of_nat (length base) <?
            Z.of_nat (length base) + Z.succ (Z.of_nat (length ext)) - 1)%Z)
    with true by (symmetry; apply Z.ltb_lt; lia).
  cbn [andb]. unfold upto. rewrite Z.add_0_l, Nat2Z.id.
  rewrite firstn_app, Nat.sub_diag, firstn_all. cbn [firstn].
  apply app_nil_r.
Qed.


(** ** The claim about the synchronous transform *)

(** C9. In [single_retouch.py], when the parts of the input directory
    hold a part [raw], the output directory is the processed base
    directory joined with every part after the first [raw]; when they
    hold none, it is the processed base directory.  An image of a
    directory entry [base.ext] is saved under the name [retouched_base.png]:
    the prefix put before the stem of the entry, and the suffix [.png].
    ([main.py], which has no subdirectories, puts the prefix before the
    stem and keeps the suffix of the entry.) *)
Theorem output_mirrors_raw (raw_dir processed_dir : pystr) :
  (forall before after,
     parts (parse raw_dir) = before ++ py "raw" :: after ->
     ~ In (py "raw") before ->
     output_dir raw_dir processed_dir
     = mkPath (root (parse processed_dir))
              (segs (parse processed_dir) ++ after) /\
     parts (output_dir raw_dir processed_dir)
     = parts (parse processed_dir) ++ after) /\
  (~ In (py "raw") (parts (parse raw_dir)) ->
   output_dir raw_dir processed_dir = parse processed_dir) /\
  (forall base ext,
     base <> [] -> ext <> [] ->
     forallb (fun x => negb (x =? PyPath.EXTSEP)%N) ext = true ->
     no_sep (base ++ PyPath.EXTSEP :: ext) = true ->
     stem (parse (base ++ PyPath.EXTSEP :: ext)) = base /\
     output_name (base ++ PyPath.EXTSEP :: ext)
     = py "retouched_" ++ base ++ py ".png" /\
     flat_output_name (base ++ PyPath.EXTSEP :: ext)
     = py "retouched_" ++ base ++ PyPath.EXTSEP :: ext).
Proof.
  split; [|split].
  - intros before after Hparts Hfirst.
    assert (E : output_dir raw_dir processed_dir
                = mkPath (root (parse processed_dir))
                         (segs (parse processed_dir) ++ after)).
    { unfold output_dir. rewrite Hparts.
      replace (member (py "raw") (before ++ py "raw" :: after)) with true
        by (symmetry; apply member_spec, in_or_app; right; now left).
      rewrite (@index_first _ _ after Hfirst).
      replace (skipn (length before + 1) (before ++ py "raw" :: after))
        with after.
      - apply joinpath_segments. exact (@after_part_plain _ _ _ _ Hparts).
      - rewrite skipn_app, skipn_all2 by lia.
        replace (length before + 1 - length before) with 1 by lia.
        reflexivity. }
    split; [exact E|]. rewrite E. apply parts_append.
  - intros Hno. unfold output_dir.
    destruct (member (py "raw") (parts (parse raw_dir))) eqn:E;
      [|reflexivity].
    apply member_spec in E. contradiction.
  - intros base ext Hb He Hdot Hsep. unfold output_name, flat_output_name.
    rewrite stem_of_name by assumption. repeat split.
Qed.

End SyncFacts.

(* ================================================================== *)
(** * [loads] reads back what [dumps] writes *)
(* ================================================================== *)

Module JsonFacts.

Import PyStrFacts Spec.

(** ** Hexadecimal escapes *)

Lemma hex_val_digit_nat (n : nat) :
  n < 16 -> hex_val (hex_digit (N.of_nat n)) = Some (N.of_nat n).
Proof.
  intros H. do 16 (destruct n as [|n]; [reflexivity|]). lia.
Qed.

Lemma hex_val_digit (d : N) : (d < 16)%N -> hex_val (hex_digit d) = Some d.
Proof.
  intros H. rewrite <- (N2Nat.id d). apply hex_val_digit_nat. lia.
Qed.

Lemma hex_digit_printable (d : N) :
  (d < 16)%N -> (48 <= hex_digit d <= 102)%N.
Proof.
  intros H. unfold hex_digit. destruct (d <? 10)%N eqn:E.
  - apply N.ltb_lt in E. lia.
  - apply N.ltb_ge in E. lia.
Qed.

Lemma hex4_value (n : N) :
  (n < 0x10000)%N ->
  ((n / 4096 mod 16) * 4096 + (n / 256 mod 16) * 256
   + (n / 16 mod 16) * 16 + n mod 16 = n)%N.
Proof.
  intros H.
  pose proof (N.div_mod n 16 ltac:(discriminate)) as E1.
  pose proof (N.div_mod (n / 16) 16 ltac:(discriminate)) as E2.
  pose proof (N.div_mod (n / 256) 16 ltac:(discriminate)) as E3.
  assert (D2 : (n / 16 / 16 = n / 256)%N)
    by (rewrite N.Div0.div_div; reflexivity).
  assert (D3 : (n / 256 / 16 = n / 4096)%N)
    by (rewrite N.Div0.div_div; reflexivity).
  rewrite D2 in E2. rewrite D3 in E3.
  assert (n / 4096 < 16)%N by (apply N.Div0.div_lt_upper_bound; simpl; lia).
  rewrite (N.mod_small (n / 4096) 16) by assumption.
  lia.
Qed.

Lemma decode_hex4 (n : N) (rest : pystr) :
  (n < 0x10000)%N -> decode_uXXXX (hex4 n ++ rest) = Some (n, rest).
Proof.
  intros H. unfold hex4, decode_uXXXX. cbn [app].
  rewrite !hex_val_digit by (apply N.mod_lt; discriminate).
  now rewrite hex4_value.
Qed.

(** ** Surrogate pairs *)

Lemma land_low_bits (a b : N) (k : N) :
  (b < 2 ^ k)%N -> N.land (a * 2 ^ k) b = 0%N.
Proof.
  intros Hb. apply N.bits_inj. intros n.
  rewrite N.land_spec, N.bits_0.
  destruct (N.lt_ge_cases n k) as [Hn | Hn].
  - rewrite N.mul_pow2_bits_low by assumption. reflexivity.
  - rewrite <- (N.mod_small b (2 ^ k)) by assumption.
    rewrite N.mod_pow2_bits_high by assumption. apply andb_false_r.
Qed.

Lemma lor_low_bits (a b : N) (k : N) :
  (b < 2 ^ k)%N -> N.lor (a * 2 ^ k) b = (a * 2 ^ k + b)%N.
Proof.
  intros Hb. pose proof (land_low_bits a k Hb) as H.
  rewrite <- (N.lxor_lor _ _ H). symmetry. now apply N.add_nocarry_lxor.
Qed.

(** The two halves [encode_basestring_ascii] writes for a code point
    above the basic plane. *)
Lemma high_half (c : N) :
  (0x10000 <= c < 0x110000)%N ->
  N.lor 0xd800 (N.land (N.shiftr (c - 0x10000) 10) 0x3ff)
  = (0xd800 + (c - 0x10000) / 1024)%N.
Proof.
  intros H. rewrite N.shiftr_div_pow2.
  change 0x3ff%N with (N.ones 10). rewrite N.land_ones.
  change (2 ^ 10)%N with 1024%N.
  assert ((c - 0x10000) / 1024 < 1024)%N
    by (apply N.Div0.div_lt_upper_bound; lia).
  rewrite N.mod_small by assumption.
  change 0xd800%N with (54 * 2 ^ 10)%N. now apply lor_low_bits.
Qed.

Lemma low_half (c : N) :
  N.lor 0xdc00 (N.land (c - 0x10000) 0x3ff)
  = (0xdc00 + (c - 0x10000) mod 1024)%N.
Proof.
  change 0x3ff%N with (N.ones 10). rewrite N.land_ones.
  change (2 ^ 10)%N with 1024%N.
  change 0xdc00%N with (55 * 2 ^ 10)%N. apply lor_low_bits.
  apply N.mod_lt. discriminate.
Qed.

Lemma join_halves (c : N) :
  (0x10000 <= c < 0x110000)%N ->
  join_surrogates (0xd800 + (c - 0x10000) / 1024)
                  (0xdc00 + (c - 0x10000) mod 1024) = c.
Proof.
  intros H. unfold join_surrogates.
  rewrite (N.add_comm 0xd800), (N.add_comm 0xdc00), !N.add_sub.
  rewrite N.shiftl_mul_pow2. rewrite lor_low_bits.
  - change (2 ^ 10)%N with 1024%N.
    pose proof (N.div_mod (c - 0x10000) 1024 ltac:(discriminate)). lia.
  - apply N.mod_lt. discriminate.
Qed.

(** ** Strings *)

Lemma scanstring_backslash (fuel : nat) (s : pystr) :
  scanstring (S fuel) (BACKSLASH :: s)
  = '(u, s2) <- scan_escape s ;;
    '(str, rest) <- scanstring fuel s2 ;;
    Some (u :: str, rest).
Proof. reflexivity. Qed.

Lemma scan_escape_u (n : N) (t : pystr) :
  (n < 0x10000)%N -> is_high_surrogate n = false ->
  scan_escape (ch "u" :: hex4 n ++ t) = Some (n, t).
Proof.
  intros Hn Hh. unfold scan_escape. rewrite N.eqb_refl.
  rewrite (decode_hex4 t Hn), Hh. reflexivity.
Qed.

Lemma scan_escape_pair (c : N) (t : pystr) :
  (0x10000 <= c < 0x110000)%N ->
  scan_escape
    (ch "u" :: hex4 (0xd800 + (c - 0x10000) / 1024)
     ++ u_escape (0xdc00 + (c - 0x10000) mod 1024) ++ t)
  = Some (c, t).
Proof.
  intros Hc.
  assert (Hq : ((c - 0x10000) / 1024 < 1024)%N)
    by (apply N.Div0.div_lt_upper_bound; lia).
  assert (Hr : ((c - 0x10000) mod 1024 < 1024)%N)
    by (apply N.mod_lt; discriminate).
  revert Hq Hr. pose proof (join_halves Hc) as J. revert J.
  generalize ((c - 0x10000) / 1024)%N ((c - 0x10000) mod 1024)%N.
  intros q r J Hq Hr.
  unfold scan_escape. rewrite N.eqb_refl.
  rewrite decode_hex4 by lia.
  replace (is_high_surrogate (0xd800 + q)) with true
    by (symmetry; unfold is_high_surrogate;
        apply andb_true_iff; split; apply N.leb_le; lia).
  unfold u_escape. cbn [app startswith andb skipn].
  rewrite !N.eqb_refl. cbn [andb].
  rewrite decode_hex4 by lia.
  replace (is_low_surrogate (0xdc00 + r)) with true
    by (symmetry; unfold is_low_surrogate;
        apply andb_true_iff; split; apply N.leb_le; lia).
  now rewrite J.
Qed.

(** One character: what [dumps] writes for it is read back as it. *)
Lemma scanstring_char (c : N) (fuel : nat) (t : pystr) :
  text_char c = true ->
  scanstring (S fuel) (escape_char c ++ t)
  = '(str, rest) <- scanstring fuel t ;; Some (c :: str, rest).
Proof.
  intros Hc. unfold text_char in Hc. apply andb_true_iff in Hc as [Hmax Hh].
  apply N.ltb_lt in Hmax. apply negb_true_iff in Hh.
  unfold escape_char.
  destruct (c =? QUOTE)%N eqn:E1;
    [apply N.eqb_eq in E1; subst; reflexivity|].
  destruct (c =? BACKSLASH)%N eqn:E2;
    [apply N.eqb_eq in E2; subst; reflexivity|].
  destruct (c =? 10)%N eqn:E3; [apply N.eqb_eq in E3; subst; reflexivity|].
  destruct (c =? 13)%N eqn:E4; [apply N.eqb_eq in E4; subst; reflexivity|].
  destruct (c =? 9)%N eqn:E5; [apply N.eqb_eq in E5; subst; reflexivity|].
  destruct (c =? 12)%N eqn:E6; [apply N.eqb_eq in E6; subst; reflexivity|].
  destruct (c =? 8)%N eqn:E7; [apply N.eqb_eq in E7; subst; reflexivity|].
  destruct ((32 <=? c) && (c <=? 126))%N eqn:E8.
  - apply andb_true_iff in E8 as [Hlo _]. apply N.leb_le in Hlo.
    cbn [app scanstring]. rewrite E1, E2.
    replace (c <? 32)%N with false by (symmetry; apply N.ltb_ge; lia).
    reflexivity.
  - destruct (c <? 0x10000)%N eqn:E9.
    + apply N.ltb_lt in E9. unfold u_escape.
      cbn [app]. rewrite scanstring_backslash.
      now rewrite (scan_escape_u t E9 Hh).
    + apply N.ltb_ge in E9. cbv zeta.
      rewrite high_half, low_half by lia.
      unfold u_escape at 1. cbn [app]. rewrite scanstring_backslash.
      rewrite <- app_assoc.
      now rewrite (@scan_escape_pair c t) by lia.
Qed.

Lemma escape_char_nonempty (c : N) : 1 <= length (escape_char c).
Proof.
  unfold escape_char, u_escape.
  repeat match goal with
         | |- context [if ?b then _ else _] => destruct b
         end; cbn [length app]; try rewrite length_app; cbn [length]; lia.
Qed.

(** A string: what [encode_string] writes after the opening quote is
    read back as the string. *)
Lemma scanstring_encode (s : pystr) :
  text s = true ->
  forall (fuel : nat) (rest : pystr),
    length s < fuel ->
    scanstring fuel (flat_map escape_char s ++ QUOTE :: rest)
    = Some (s, rest).
Proof.
  induction s as [|c s IH]; intros Ht fuel rest Hf.
  - destruct fuel as [|fuel]; [inversion Hf|]. reflexivity.
  - destruct fuel as [|fuel]; [inversion Hf|].
    cbn [text forallb] in Ht. apply andb_true_iff in Ht as [Hc Hs].
    cbn [flat_map]. rewrite <- app_assoc, (scanstring_char _ _ _ Hc).
    rewrite (IH Hs) by (cbn [length] in Hf; lia). reflexivity.
Qed.

(** ** Values *)

(** Induction on a value, the hypothesis available for every element of
    a list and every value of a dictionary. *)
Section Induction.

Variable P : json -> Prop.
Hypothesis HNull : P JNull.
Hypothesis HBool : forall b, P (JBool b).
Hypothesis HInt : forall z, P (JInt z).
Hypothesis HFloat : forall lexeme, P (JFloat lexeme).
Hypothesis HStr : forall s, P (JStr s).
Hypothesis HArr : forall items, Forall P items -> P (JArr items).
Hypothesis HObj :
  forall members, Forall (fun kv => P (snd kv)) members -> P (JObj members).

Fixpoint json_induction (v : json) : P v :=
  match v with
  | JNull => HNull
  | JBool b => HBool b
  | JInt z => HInt z
  | JFloat lexeme => HFloat lexeme
  | JStr s => HStr s
  | JArr items =>
      HArr ((fix all (l : list json) : Forall P l :=
               match l with
               | [] => Forall_nil P
               | x :: l' => Forall_cons x (json_induction x) (all l')
               end) items)
  | JObj members =>
      HObj ((fix all (l : list (pystr * json))
               : Forall (fun kv => P (snd kv)) l :=
               match l with
               | [] => Forall_nil _
               | kv :: l' =>
                   Forall_cons kv (json_induction (snd kv)) (all l')
               end) members)
  end.

End Induction.

Lemma skip_ws_head (c : N) (s : pystr) :
  is_ws c = false -> skip_ws (c :: s) = c :: s.
Proof. intros H. simpl. now rewrite H. Qed.

(** The first character of a serialised value opens a string, a list or
    a dictionary, or starts a literal. *)
Lemma dumps_head (v : json) :
  serialisable v = true -> exists c t, dumps v = c :: t /\ opener c.
Proof.
  destruct v as [|[|]| | |s|items|members]; intros H; try discriminate;
    eexists; eexists; (split; [reflexivity | split; reflexivity]).
Qed.

Lemma join_head (sep : pystr) (x : pystr) (xs : list pystr) :
  exists t, join_with sep (x :: xs) = x ++ t.
Proof.
  destruct xs as [|y xs].
  - exists []. simpl. now rewrite app_nil_r.
  - eexists. reflexivity.
Qed.

Lemma flat_map_escape_length (s : pystr) :
  length s <= length (flat_map escape_char s).
Proof.
  induction s as [|c s IH]; simpl; [lia|].
  rewrite length_app. pose proof (escape_char_nonempty c). lia.
Qed.

(** ** Dictionaries with distinct keys *)

Lemma distinct_fresh (l1 : list pystr) (k : pystr) (l2 : list pystr) :
  distinct (l1 ++ k :: l2) = true ->
  forall a, In a l1 -> PyStr.eqb a k = false.
Proof.
  induction l1 as [|b l1 IH]; intros H a Ha; [inversion Ha|].
  cbn [app distinct] in H. apply andb_true_iff in H as [Hb Hrest].
  destruct Ha as [<- | Ha]; [|now apply IH].
  apply negb_true_iff in Hb.
  destruct (PyStr.eqb b k) eqn:E; [|reflexivity].
  rewrite existsb_app in Hb. cbn [existsb] in Hb.
  rewrite E in Hb. cbn in Hb. now rewrite orb_true_r in Hb.
Qed.

Lemma dict_set_fresh (k : pystr) (v : json) (d : dict) :
  (forall a, In a (map fst d) -> PyStr.eqb a k = false) ->
  dict_set k v d = d ++ [(k, v)].
Proof.
  induction d as [|[a w] d IH]; intros H; [reflexivity|].
  cbn [dict_set]. rewrite (H a (or_introl eq_refl)).
  cbn [app]. f_equal. apply IH. intros b Hb. apply H. now right.
Qed.

Lemma dict_of_pairs_from (pairs acc : list (pystr * json)) :
  distinct (map fst (acc ++ pairs)) = true ->
  fold_left (fun d kv => dict_set (fst kv) (snd kv) d) pairs acc
  = acc ++ pairs.
Proof.
  revert acc; induction pairs as [|[k v] pairs IH]; intros acc H.
  - now rewrite app_nil_r.
  - cbn [fold_left fst snd]. rewrite dict_set_fresh.
    + rewrite IH; rewrite <- app_assoc; [reflexivity | exact H].
    + rewrite map_app in H. cbn [map fst] in H.
      exact (distinct_fresh _ _ _ H).
Qed.

Lemma dict_of_pairs_distinct (members : list (pystr * json)) :
  distinct (map fst members) = true -> dict_of_pairs members = members.
Proof. intros H. exact (dict_of_pairs_from members [] H). Qed.


(** ** Lists and dictionaries *)

Lemma skip_ws_dumps (v : json) (t : pystr) :
  serialisable v = true -> skip_ws (dumps v ++ t) = dumps v ++ t.
Proof.
  intros H. destruct (dumps_head v H) as (c & u & E & Hws & _).
  rewrite E. cbn [app]. now apply skip_ws_head.
Qed.

Lemma skip_ws_space (s : pystr) : skip_ws (32%N :: s) = skip_ws s.
Proof. reflexivity. Qed.

Lemma join_with_more (sep x y : pystr) (l : list pystr) :
  join_with sep (x :: y :: l) = x ++ sep ++ join_with sep (y :: l).
Proof. reflexivity. Qed.

Lemma scan_items_step (fuel : nat) (s : pystr) :
  scan_items (S fuel) s
  = '(value, s1) <- scan_once fuel s ;;
    match skip_ws s1 with
    | e :: s2 =>
        if (e =? RBRACKET)%N then Some ([value], s2)
        else if (e =? COMMA)%N then
          '(more, s3) <- scan_items fuel (skip_ws s2) ;;
          Some (value :: more, s3)
        else None
    | [] => None
    end.
Proof. reflexivity. Qed.

Lemma scan_items_dumps (items : list json) :
  items <> [] ->
  Forall (fun x => serialisable x = true /\ reads_back x) items ->
  forall (fuel : nat) (rest : pystr),
    length (join_with (py ", ") (map dumps items)) < fuel ->
    scan_items fuel (join_with (py ", ") (map dumps items)
                     ++ RBRACKET :: rest)
    = Some (items, rest).
Proof.
  induction items as [|x items IH]; intros Hne Hall fuel rest Hf;
    [congruence|].
  inversion Hall as [|? ? [Hsx Hx] Hrest]; subst.
  destruct fuel as [|fuel]; [inversion Hf|].
  rewrite scan_items_step.
  destruct items as [|y items].
  - cbn [map join_with] in *. rewrite Hx by lia. reflexivity.
  - rewrite !map_cons in *. rewrite join_with_more in *.
    rewrite <- !map_cons in *.
    set (tail := join_with (py ", ") (map dumps (y :: items))) in *.
    rewrite !length_app in Hf. change (length (py ", ")) with 2 in Hf.
    rewrite <- !app_assoc. rewrite Hx by lia.
    change (py ", " ++ tail ++ RBRACKET :: rest)
      with (COMMA :: 32%N :: (tail ++ RBRACKET :: rest)).
    rewrite skip_ws_head by reflexivity.
    replace (COMMA =? RBRACKET)%N with false by reflexivity.
    rewrite N.eqb_refl, skip_ws_space.
    inversion Hrest as [|? ? [Hsy _] _]; subst.
    assert (Hskip : skip_ws (tail ++ RBRACKET :: rest)
                    = tail ++ RBRACKET :: rest).
    { subst tail. rewrite map_cons.
      destruct (join_head (py ", ") (dumps y) (map dumps items)) as [t ->].
      rewrite <- app_assoc. now apply skip_ws_dumps. }
    rewrite Hskip. subst tail.
    rewrite IH; [reflexivity | discriminate | assumption | lia].
Qed.

(** The text of one member of a dictionary. *)
Lemma scan_members_step (fuel : nat) (s : pystr) :
  scan_members (S fuel) (QUOTE :: s)
  = '(key, s2) <- scanstring fuel s ;;
    match skip_ws s2 with
    | col :: s3 =>
        if (col =? COLON)%N then
          '(value, s4) <- scan_once fuel (skip_ws s3) ;;
          match skip_ws s4 with
          | e :: s5 =>
              if (e =? RBRACE)%N then Some ([(key, value)], s5)
              else if (e =? COMMA)%N then
                '(more, s6) <- scan_members fuel (skip_ws s5) ;;
                Some ((key, value) :: more, s6)
              else None
          | [] => None
          end
        else None
    | [] => None
    end.
Proof. reflexivity. Qed.

Lemma member_text_length (k : pystr) (v : json) :
  length (member_text (k, v))
  = length (flat_map escape_char k) + 4 + length (dumps v).
Proof.
  unfold member_text, encode_string. cbn [fst snd app length].
  rewrite !length_app. change (length (py ": ")) with 2.
  cbn [length]. lia.
Qed.

Lemma scan_members_dumps (members : list (pystr * json)) :
  members <> [] ->
  Forall (fun kv => text (fst kv) = true /\ serialisable (snd kv) = true
                    /\ reads_back (snd kv)) members ->
  forall (fuel : nat) (rest : pystr),
    length (join_with (py ", ") (map member_text members)) < fuel ->
    scan_members fuel (join_with (py ", ") (map member_text members)
                       ++ RBRACE :: rest)
    = Some (members, rest).
Proof.
  induction members as [|[k v] members IH]; intros Hne Hall fuel rest Hf;
    [congruence|].
  inversion Hall as [|? ? (Hk & Hsv & Hv) Hrest]; subst.
  cbn [fst snd] in Hk, Hsv, Hv.
  destruct fuel as [|fuel]; [inversion Hf|].
  assert (Hone : forall t,
    length (member_text (k, v)) <= fuel ->
    scan_members (S fuel) (member_text (k, v) ++ t)
    = match skip_ws t with
      | e :: s5 =>
          if (e =? RBRACE)%N then Some ([(k, v)], s5)
          else if (e =? COMMA)%N then
            '(more, s6) <- scan_members fuel (skip_ws s5) ;;
            Some ((k, v) :: more, s6)
          else None
      | [] => None
      end).
  { intros t Hlen. rewrite member_text_length in Hlen.
    unfold member_text, encode_string. cbn [fst snd app].
    pose proof (flat_map_escape_length k) as Hkl.
    rewrite scan_members_step.
    rewrite <- !app_assoc. cbn [app].
    rewrite (scanstring_encode _ Hk) by lia.
    change (py ": " ++ ?u) with (COLON :: 32%N :: u).
    change (py ": " ++ dumps v ++ t) with (COLON :: 32%N :: (dumps v ++ t)).
    rewrite skip_ws_head by reflexivity. rewrite N.eqb_refl.
    rewrite skip_ws_space, (skip_ws_dumps _ _ Hsv).
    rewrite Hv by lia. reflexivity. }
  destruct members as [|kv members].
  - cbn [map join_with] in *. rewrite Hone by lia.
    rewrite skip_ws_head by reflexivity. now rewrite N.eqb_refl.
  - rewrite !map_cons in *. rewrite join_with_more in *.
    rewrite <- !map_cons in *.
    set (tail := join_with (py ", ") (map member_text (kv :: members))) in *.
    rewrite !length_app in Hf. change (length (py ", ")) with 2 in Hf.
    rewrite <- !app_assoc. rewrite Hone by lia.
    change (py ", " ++ tail ++ RBRACE :: rest)
      with (COMMA :: 32%N :: (tail ++ RBRACE :: rest)).
    rewrite skip_ws_head by reflexivity.
    replace (COMMA =? RBRACE)%N with false by reflexivity.
    rewrite N.eqb_refl, skip_ws_space.
    assert (Hskip : skip_ws (tail ++ RBRACE :: rest)
                    = tail ++ RBRACE :: rest).
    { subst tail. rewrite map_cons.
      destruct (join_head (py ", ") (member_text kv) (map member_text members))
        as [t ->].
      reflexivity. }
    rewrite Hskip. subst tail.
    rewrite IH; [reflexivity | discriminate | assumption | lia].
Qed.


(** ** The round trip *)

Lemma scan_once_list (fuel : nat) (s1 : pystr) :
  scan_once (S fuel) (LBRACKET :: s1)
  = match skip_ws s1 with
    | d :: s2 =>
        if (d =? RBRACKET)%N then Some (JArr [], s2)
        else
          '(items, rest) <- scan_items fuel (d :: s2) ;;
          Some (JArr items, rest)
    | [] => None
    end.
Proof. reflexivity. Qed.

Lemma scan_once_dict (fuel : nat) (s1 : pystr) :
  scan_once (S fuel) (LBRACE :: s1)
  = match skip_ws s1 with
    | d :: s2 =>
        if (d =? RBRACE)%N then Some (JObj [], s2)
        else
          '(pairs, rest) <- scan_members fuel (d :: s2) ;;
          Some (JObj (dict_of_pairs pairs), rest)
    | [] => None
    end.
Proof. reflexivity. Qed.

Lemma dumps_list (items : list json) :
  dumps (JArr items)
  = LBRACKET :: join_with (py ", ") (map dumps items) ++ [RBRACKET].
Proof. reflexivity. Qed.

Lemma dumps_dict (members : list (pystr * json)) :
  dumps (JObj members)
  = LBRACE :: join_with (py ", ") (map member_text members) ++ [RBRACE].
Proof. reflexivity. Qed.

(** Every serialisable value is read back from what [dumps] writes for
    it, and the text after it is left untouched. *)
Theorem scan_once_dumps (v : json) : serialisable v = true -> reads_back v.
Proof.
  induction v as [|b|z|lexeme|s|items IH|members IH] using json_induction;
    intros Hs; try discriminate.
  - intros [|fuel] rest Hf; [inversion Hf | reflexivity].
  - intros [|fuel] rest Hf; [destruct b; inversion Hf|].
    destruct b; reflexivity.
  - intros [|fuel] rest Hf; [inversion Hf|].
    cbn [serialisable] in Hs. cbn [dumps] in *. unfold encode_string in *.
    cbn [app length] in Hf. rewrite length_app in Hf. cbn [length] in Hf.
    pose proof (flat_map_escape_length s).
    cbn [app scanstring scan_once]. rewrite N.eqb_refl.
    rewrite <- app_assoc. cbn [app].
    rewrite (scanstring_encode _ Hs) by lia. reflexivity.
  - intros [|fuel] rest Hf; [inversion Hf|].
    cbn [serialisable] in Hs. rewrite dumps_list in *.
    cbn [app length] in Hf. rewrite length_app in Hf. cbn [length] in Hf.
    cbn [app]. rewrite scan_once_list, <- app_assoc. cbn [app].
    destruct items as [|x items]; [reflexivity|].
    assert (Hall : Forall (fun x => serialisable x = true /\ reads_back x)
                          (x :: items)).
    { rewrite forallb_forall in Hs. rewrite Forall_forall in IH |- *.
      intros y Hy. split; [now apply Hs | apply IH; [assumption | now apply Hs]]. }
    assert (Hsx : serialisable x = true) by (inversion Hall; tauto).
    destruct (dumps_head x Hsx) as (c & u & Ex & Hws & Hnb).
    destruct (join_head (py ", ") (dumps x) (map dumps items)) as [t Et].
    rewrite map_cons in *.
    pose proof (@scan_items_dumps (x :: items) ltac:(discriminate) Hall
                  fuel rest) as Hscan.
    rewrite map_cons in Hscan. rewrite Et in *. rewrite Ex in *.
    cbn [app] in *. rewrite skip_ws_head by assumption. rewrite Hnb.
    rewrite Hscan by lia. reflexivity.
  - intros [|fuel] rest Hf; [inversion Hf|].
    cbn [serialisable] in Hs. apply andb_true_iff in Hs as [Hs Hd].
    rewrite dumps_dict in *.
    cbn [app length] in Hf. rewrite length_app in Hf. cbn [length] in Hf.
    cbn [app]. rewrite scan_once_dict, <- app_assoc. cbn [app].
    destruct members as [|kv members]; [reflexivity|].
    assert (Hall : Forall (fun kv => text (fst kv) = true
                                     /\ serialisable (snd kv) = true
                                     /\ reads_back (snd kv)) (kv :: members)).
    { rewrite forallb_forall in Hs. rewrite Forall_forall in IH |- *.
      intros y Hy. specialize (Hs y Hy). apply andb_true_iff in Hs as [? ?].
      repeat split; try assumption. now apply IH. }
    pose proof (@scan_members_dumps (kv :: members) ltac:(discriminate) Hall
                  fuel rest) as Hscan.
    destruct (join_head (py ", ") (member_text kv) (map member_text members))
      as [t Et].
    assert (Eh : exists w, member_text kv ++ t = QUOTE :: w)
      by (unfold member_text, encode_string; cbn [app]; eauto).
    destruct Eh as [w Ew].
    rewrite map_cons in *. rewrite Et in *. rewrite Ew in *.
    cbn [app] in *. rewrite skip_ws_head by reflexivity.
    replace (QUOTE =? RBRACE)%N with false by reflexivity.
    rewrite Hscan by lia. now rewrite (@dict_of_pairs_distinct (kv :: members) Hd).
Qed.

(** [json.loads(json.dumps(v)) == v]. *)
Theorem loads_dumps (v : json) :
  serialisable v = true -> loads (dumps v) = Some v.
Proof.
  intros Hs. unfold loads.
  pose proof (skip_ws_dumps v [] Hs) as Hskip. rewrite app_nil_r in Hskip.
  rewrite Hskip.
  pose proof (@scan_once_dumps v Hs (S (length (dumps v))) []) as H.
  rewrite app_nil_r in H. rewrite H by lia. reflexivity.
Qed.


(** ** What [dumps] writes is printable ASCII *)

Lemma hex4_printable (n : N) : forallb printable (hex4 n) = true.
Proof.
  unfold hex4. cbn [forallb]. unfold printable.
  repeat match goal with
         | |- context [hex_digit ?d] =>
             let H := fresh in
             assert (H : (48 <= hex_digit d <= 102)%N)
               by (apply hex_digit_printable, N.mod_lt; discriminate);
             generalize dependent (hex_digit d); intros
         end.
  repeat (apply andb_true_iff; split); try reflexivity;
    apply N.leb_le; lia.
Qed.

Lemma u_escape_printable (n : N) : forallb printable (u_escape n) = true.
Proof. unfold u_escape. cbn [forallb]. now rewrite hex4_printable. Qed.

Lemma escape_char_printable (c : N) :
  forallb printable (escape_char c) = true.
Proof.
  unfold escape_char.
  repeat match goal with
         | |- context [if ?b then _ else _] =>
             let E := fresh "E" in destruct b eqn:E; try reflexivity
         end.
  - cbn [forallb]. unfold printable. now rewrite E6.
  - apply u_escape_printable.
  - cbv zeta. rewrite forallb_app, !u_escape_printable. reflexivity.
Qed.

Lemma encode_string_printable (s : pystr) :
  forallb printable (encode_string s) = true.
Proof.
  unfold encode_string. cbn [forallb]. rewrite forallb_app.
  replace (forallb printable (flat_map escape_char s)) with true;
    [reflexivity|].
  symmetry. induction s as [|c s IH]; [reflexivity|].
  cbn [flat_map]. now rewrite forallb_app, escape_char_printable, IH.
Qed.

Lemma join_printable (sep : pystr) (chunks : list pystr) :
  forallb printable sep = true ->
  Forall (fun x => forallb printable x = true) chunks ->
  forallb printable (join_with sep chunks) = true.
Proof.
  intros Hsep H. induction H as [|x chunks Hx Hrest IH]; [reflexivity|].
  destruct chunks as [|y chunks]; [exact Hx|].
  rewrite join_with_more, !forallb_app, Hx, Hsep. exact IH.
Qed.

Theorem dumps_printable (v : json) :
  serialisable v = true -> forallb printable (dumps v) = true.
Proof.
  induction v as [|b|z|lexeme|s|items IH|members IH] using json_induction;
    intros Hs; try discriminate.
  - reflexivity.
  - destruct b; reflexivity.
  - apply encode_string_printable.
  - rewrite dumps_list. cbn [forallb serialisable] in *.
    rewrite forallb_app, join_printable; [reflexivity | reflexivity |].
    rewrite forallb_forall in Hs. rewrite Forall_forall in IH |- *.
    intros x Hx. apply in_map_iff in Hx as (y & <- & Hy). auto.
  - rewrite dumps_dict. cbn [forallb serialisable] in *.
    apply andb_true_iff in Hs as [Hs _].
    rewrite forallb_app, join_printable; [reflexivity | reflexivity |].
    rewrite forallb_forall in Hs. rewrite Forall_forall in IH |- *.
    intros x Hx. apply in_map_iff in Hx as (kv & <- & Hkv).
    specialize (Hs kv Hkv). apply andb_true_iff in Hs as [_ Hv].
    unfold member_text.
    rewrite !forallb_app, encode_string_printable, (IH kv Hkv Hv).
    reflexivity.
Qed.

End JsonFacts.

(* ================================================================== *)
(** * The request manifest *)
(* ================================================================== *)

Module BuilderFacts.

Import PyStrFacts JsonFacts Builder Spec.

Lemma create_batch_file_from (image_names : list pystr) (prompt acc : pystr) :
  fold_left
    (fun f img_name => f ++ dumps (request_line img_name prompt) ++ [10%N])
    image_names acc
  = acc ++ flat_map (fun n => dumps (request_line n prompt) ++ [10%N])
                    image_names.
Proof.
  revert acc; induction image_names as [|n names IH]; intros acc.
  - now rewrite app_nil_r.
  - cbn [fold_left flat_map]. rewrite IH. now rewrite <- !app_assoc.
Qed.

Lemma create_batch_file_lines (image_names : list pystr) (prompt : pystr) :
  create_batch_file image_names prompt
  = flat_map (fun n => dumps (request_line n prompt) ++ [10%N]) image_names.
Proof. unfold create_batch_file. now rewrite create_batch_file_from. Qed.

Lemma lines_of_line (l s : pystr) :
  forallb printable l = true -> lines_of (l ++ 10%N :: s) = l :: lines_of s.
Proof.
  induction l as [|c l IH]; intros H; [reflexivity|].
  cbn [forallb] in H. apply andb_true_iff in H as [Hc Hl].
  unfold printable in Hc. apply andb_true_iff in Hc as [Hlo _].
  apply N.leb_le in Hlo.
  cbn [app lines_of].
  replace (c =? 10)%N with false by (symmetry; apply N.eqb_neq; lia).
  now rewrite (IH Hl).
Qed.

Lemma text_app (a b : pystr) : text (a ++ b) = text a && text b.
Proof. apply forallb_app. Qed.

Lemma request_line_serialisable (img_name prompt : pystr) :
  text img_name = true -> text prompt = true ->
  serialisable (request_line img_name prompt) = true.
Proof.
  intros Hn Hp. unfold request_line.
  cbn [serialisable forallb fst snd map].
  rewrite !text_app, Hn, Hp. reflexivity.
Qed.


Lemma manifest_lines (image_names : list pystr) (prompt : pystr) :
  forallb text image_names = true -> text prompt = true ->
  lines_of (create_batch_file image_names prompt)
  = map (fun n => dumps (request_line n prompt)) image_names.
Proof.
  intros Hn Hp. rewrite create_batch_file_lines.
  induction image_names as [|n names IH]; [reflexivity|].
  cbn [forallb] in Hn. apply andb_true_iff in Hn as [Hn Hns].
  cbn [flat_map map]. rewrite <- app_assoc. cbn [app].
  rewrite lines_of_line, (IH Hns); [reflexivity|].
  apply dumps_printable, request_line_serialisable; assumption.
Qed.

(** ** The claims about the request manifest *)

(** C1. For a list of file names and an instruction, both text, the
    manifest [create_batch_file] writes has one line per file name, in
    the order of the list.  Each line is read by [json.loads] as an
    object of the request schema, its [custom_id] the tag ["retouch_"]
    followed by the file name.  Distinct file names get distinct
    [custom_id]s, and taking the tag off a [custom_id] gives the file
    name back. *)
Theorem manifest_has_one_line_per_file
    (image_names : list pystr) (prompt : pystr) :
  forallb text image_names = true ->
  text prompt = true ->
  let manifest := create_batch_file image_names prompt in
  length (lines_of manifest) = length image_names /\
  Forall2
    (fun img_name line =>
       loads line
       = Some
           (JObj
              [ (py "custom_id", JStr (py "retouch_" ++ img_name));
                (py "method", JStr (py "POST"));
                (py "request",
                 JObj
                   [ (py "model", JStr MODEL_ID);
                     (py "contents",
                      JArr
                        [ JObj [ (py "parts",
                                  JArr [ JObj [ (py "text", JStr prompt) ] ]) ];
                          JObj
                            [ (py "parts",
                               JArr
                                 [ JObj
                                     [ (py "file_data",
                                        JObj
                                          [ (py "mime_type",
                                             JStr (py "image/jpeg"));
                                            (py "file_uri",
                                             JStr (GCS_INPUT_PATH
                                                   ++ img_name)) ]) ] ]) ] ]);
                     (py "generation_config",
                      JObj [ (py "response_modalities",
                              JArr [ JStr (py "IMAGE") ]) ]) ]) ]))
    image_names (lines_of manifest) /\
  (NoDup image_names ->
   NoDup (map (fun img_name => ID_TAG ++ img_name) image_names)) /\
  (forall img_name,
     In img_name image_names -> strip_tag (ID_TAG ++ img_name) = img_name).
Proof.
  intros Hn Hp. cbv zeta. rewrite (manifest_lines _ _ Hn Hp).
  split; [apply length_map|]. split; [|split].
  - clear -Hn Hp. induction image_names as [|n names IH]; [constructor|].
    cbn [forallb] in Hn. apply andb_true_iff in Hn as [Hn Hns].
    cbn [map]. constructor; [|exact (IH Hns)].
    exact (loads_dumps _ (request_line_serialisable _ _ Hn Hp)).
  - clear Hn Hp. intros Hnd.
    induction Hnd as [|n names Hnotin _ IH]; [constructor|].
    cbn [map]. constructor; [|exact IH].
    intros Hin. apply in_map_iff in Hin as (m & E & Hm).
    apply app_inv_head in E. now subst.
  - intros n _. reflexivity.
Qed.

(** C6. For the empty collection [create_batch_file] leaves an empty
    manifest.  The script does not get that far: when no file of the
    directory is taken for upload it ends, without an error, having
    uploaded nothing, written no manifest and created no job. *)
Theorem empty_input_is_a_no_op (prompt : pystr) :
  create_batch_file [] prompt = [] /\
  lines_of (create_batch_file [] prompt) = [] /\
  (forall listing,
     filter upload_accepts listing = [] ->
     script (Some listing) prompt = []).
Proof.
  split; [reflexivity|]. split; [reflexivity|].
  intros listing H. unfold script, upload_images_to_gcs.
  replace (startswith (py "gs://") GCS_INPUT_PATH) with true by reflexivity.
  cbn [negb]. rewrite H. reflexivity.
Qed.

End BuilderFacts.

(* ================================================================== *)
(** * The theorems at the sample inputs *)
(* ================================================================== *)

Module Witnesses.

Import Spec Samples.

Lemma manifest_witness :
  forallb text listing = true /\
  text instruction = true /\
  length (lines_of (Builder.create_batch_file listing instruction)) = 2.
Proof.
  split; [reflexivity|]. split; [reflexivity|].
  exact (proj1 (@BuilderFacts.manifest_has_one_line_per_file
                  listing instruction eq_refl eq_refl)).
Defined.

Lemma error_line_witness :
  Fetcher.split_nl (Fetcher.strip success_then_error)
  = [success_line; error_line] /\
  loads_bytes success_line = Some success_value /\
  wf_success success_value = true /\
  loads_bytes error_line = Some error_value /\
  is_error_line error_value = true /\
  Fetcher.success_count (Fetcher.parse_results success_then_error) = 1 /\
  Fetcher.failures_of (Fetcher.trace (Fetcher.parse_results success_then_error))
  = [].
Proof.
  assert (Hl : Fetcher.split_nl (Fetcher.strip success_then_error)
               = [success_line; error_line]) by (vm_compute; reflexivity).
  assert (H1 : loads_bytes success_line = Some success_value)
    by (vm_compute; reflexivity).
  assert (H2 : wf_success success_value = true) by (vm_compute; reflexivity).
  assert (H3 : loads_bytes error_line = Some error_value)
    by (vm_compute; reflexivity).
  assert (H4 : is_error_line error_value = true) by (vm_compute; reflexivity).
  repeat (split; [assumption|]).
  assert (H5 : exists c, candidates_of success_value = [c] /\
                         length (filter carries_inline (parts_of c)) = 1)
    by (eexists; split; vm_compute; reflexivity).
  pose proof (@FetcherFacts.error_line_is_skipped
                success_then_error success_line error_line
                success_value error_value (or_introl Hl) H1 H2 H5 H3 H4)
    as W.
  cbv zeta in W. destruct W as (_ & Wc & Wf & _). split; assumption.
Defined.

Lemma malformed_line_witness :
  Fetcher.split_nl (Fetcher.strip malformed_in_between)
  = [success_line; malformed_line; anonymous_line] /\
  loads_bytes success_line = Some success_value /\
  wf_success success_value = true /\
  loads_bytes malformed_line = None /\
  loads_bytes anonymous_line = Some anonymous_value /\
  wf_success anonymous_value = true /\
  Fetcher.failures_of
    (Fetcher.trace (Fetcher.parse_results malformed_in_between)) = [1].
Proof.
  assert (Hl : Fetcher.split_nl (Fetcher.strip malformed_in_between)
               = [success_line; malformed_line; anonymous_line])
    by (vm_compute; reflexivity).
  assert (H1 : loads_bytes success_line = Some success_value)
    by (vm_compute; reflexivity).
  assert (H2 : wf_success success_value = true) by (vm_compute; reflexivity).
  assert (H3 : loads_bytes malformed_line = None) by (vm_compute; reflexivity).
  assert (H4 : loads_bytes anonymous_line = Some anonymous_value)
    by (vm_compute; reflexivity).
  assert (H5 : wf_success anonymous_value = true)
    by (vm_compute; reflexivity).
  repeat (split; [assumption|]).
  pose proof (@FetcherFacts.malformed_line_is_isolated
                malformed_in_between success_line malformed_line
                anonymous_line success_value anonymous_value
                Hl H1 H2 H3 H4 H5) as W.
  cbv zeta in W. exact (proj1 W).
Defined.

Lemma extension_witness :
  dict_lookup (py "inline_data") png_part = Some (JObj png_inline) /\
  declared_mime png_inline = Some (py "image/png") /\
  dict_lookup (py "data") png_inline = Some (JStr (py "aGVsbG8=")) /\
  Base64.b64decode (JStr (py "aGVsbG8=")) = Some (py "hello") /\
  exists ext,
    Fetcher.writes_of
      (Fetcher.trace
         (snd (Fetcher.save_part (JStr (py "retouch_a.jpg")) (JObj png_part)
                                 Fetcher.initial)))
    = Fetcher.writes_of (Fetcher.trace Fetcher.initial) ++
      [ (PyPath.join Fetcher.OUTPUT_DIR
           (fst (PyPath.splitext
                   (replace (py "retouch_") [] (py "retouch_a.jpg")))
            ++ py "_retouched" ++ ext),
         py "hello") ] /\
    (occurs (py "jpeg") (py "image/png") -> ext = py ".jpg") /\
    (~ occurs (py "jpeg") (py "image/png") -> ext = py ".png") /\
    (dict_lookup (py "mime_type") png_inline = None -> ext = py ".png").
Proof.
  repeat (split; [vm_compute; reflexivity|]).
  apply (@FetcherFacts.extension_follows_mime
           (py "retouch_a.jpg") png_part png_inline (JStr (py "aGVsbG8="))
           (py "hello") (py "image/png") Fetcher.initial);
    vm_compute; reflexivity.
Defined.

Lemma empty_input_witness :
  filter Builder.upload_accepts notes_only = [] /\
  Builder.script (Some notes_only) instruction = [].
Proof.
  split; [reflexivity|].
  exact (proj2 (proj2 (BuilderFacts.empty_input_is_a_no_op instruction))
               notes_only eq_refl).
Defined.

Lemma first_candidate_witness :
  loads_bytes anonymous_line = Some anonymous_value /\
  wf_success anonymous_value = true /\
  Fetcher.success_count (Fetcher.process_line 3 anonymous_line Fetcher.initial)
  = Fetcher.success_count Fetcher.initial
    + length (filter carries_inline
                (parts_of (hd JNull (candidates_of anonymous_value)))).
Proof.
  assert (H1 : loads_bytes anonymous_line = Some anonymous_value)
    by (vm_compute; reflexivity).
  assert (H2 : wf_success anonymous_value = true)
    by (vm_compute; reflexivity).
  repeat (split; [assumption|]).
  pose proof (@FetcherFacts.first_candidate_is_saved
                3 anonymous_line anonymous_value Fetcher.initial H1 H2) as W.
  cbv zeta in W. destruct W as (_ & _ & Wc & _). exact Wc.
Defined.

Lemma output_dir_witness :
  Sync.parts (Sync.parse (py "./data/raw/piano_full"))
  = [py "data"] ++ py "raw" :: [py "piano_full"] /\
  ~ In (py "raw") [py "data"] /\
  Sync.parts (Sync.output_dir (py "./data/raw/piano_full")
                              (py "./data/processed"))
  = Sync.parts (Sync.parse (py "./data/processed")) ++ [py "piano_full"].
Proof.
  assert (H1 : Sync.parts (Sync.parse (py "./data/raw/piano_full"))
               = [py "data"] ++ py "raw" :: [py "piano_full"])
    by (vm_compute; reflexivity).
  assert (H2 : ~ In (py "raw") [py "data"])
    by (intros [E | []]; vm_compute in E; discriminate).
  repeat (split; [assumption|]).
  exact (proj2 (proj1 (SyncFacts.output_mirrors_raw
                         (py "./data/raw/piano_full")
                         (py "./data/processed"))
                      [py "data"] [py "piano_full"] H1 H2)).
Defined.

End Witnesses.

(* ================================================================== *)
(** * The result parser on arbitrary input *)
(* ================================================================== *)

Module FetcherLaws.

Import PyStrFacts Fetcher Spec Laws.

(** ** What one part and one line add to the trace *)

Lemma after_nil (st : state) : after st [] = st.
Proof.
  destruct st. unfold after. cbn. now rewrite app_nil_r, Nat.add_0_r.
Qed.

Lemma after_app (st : state) (a b : list event) :
  after (after st a) b = after st (a ++ b).
Proof.
  unfold after. cbn [trace success_count].
  now rewrite FetcherFacts.writes_of_app, length_app, app_assoc,
    Nat.add_assoc.
Qed.

Lemma join_keeps_name (a b : pystr) : exists pre, PyPath.join a b = pre ++ b.
Proof.
  unfold PyPath.join. destruct (startswith [PyPath.SEP] b).
  - now exists [].
  - destruct a as [|c a]; [now exists []|].
    destruct (endswith [PyPath.SEP] (c :: a)).
    + now exists (c :: a).
    + exists ((c :: a) ++ [PyPath.SEP]). now rewrite <- app_assoc.
Qed.

Lemma out_path_named (name : pystr) (is_jpeg : bool) :
  named_retouched
    (PyPath.join OUTPUT_DIR (name ++ py "_retouched" ++ ext_for is_jpeg))
  = true.
Proof.
  destruct (join_keeps_name OUTPUT_DIR
              (name ++ py "_retouched" ++ ext_for is_jpeg)) as [pre ->].
  unfold named_retouched. apply orb_true_iff.
  destruct is_jpeg; [left | right]; apply endswith_spec;
    exists (pre ++ name); now rewrite <- app_assoc.
Qed.

Ltac raises :=
  eexists; exists []; split;
  [intros st; rewrite after_nil; reflexivity | try constructor].

(** Whatever the part and the identifier, the body of the loop over the
    parts ends in one of three ways, the same from every state. *)
Lemma save_part_cases (custom_id part : json) :
  exists o evs,
    (forall st, save_part custom_id part st = (o, after st evs)) /\
    part_events o evs.
Proof.
  unfold save_part, bind, try.
  destruct (py_in (py "inline_data") part) as [[|]|]; try raises.
  destruct (py_item part (py "inline_data")) as [inline_data|]; try raises.
  destruct (py_get inline_data (py "mime_type") (JStr (py "image/png")))
    as [mime_type|]; try raises.
  destruct (py_item inline_data (py "data")) as [data_b64|]; try raises.
  destruct (py_in (py "jpeg") mime_type) as [is_jpeg|]; try raises.
  destruct (py_replace custom_id (py "retouch_") []) as [base_name|];
    try raises.
  unfold say, count_success, ret, after. cbn [trace success_count].
  destruct (Base64.b64decode data_b64) as [data|].
  - eexists. eexists. split; [|apply part_saved, out_path_named].
    intros st. apply (f_equal2 pair); [reflexivity|].
    apply (f_equal2 mkState); [rewrite <- !app_assoc|]; reflexivity.
  - eexists. eexists. split; [|apply part_refused, out_path_named].
    intros st. apply (f_equal2 pair); [reflexivity|].
    apply (f_equal2 mkState); [reflexivity|].
    cbn [writes_of flat_map app length]. now rewrite Nat.add_0_r.
Qed.

(** Events without a write. *)
Lemma opened_first_idle (evs : list event) :
  writes_of evs = [] -> opened_first evs.
Proof.
  intros H pre p d post ->.
  rewrite FetcherFacts.writes_of_app in H. cbn in H.
  now destruct (writes_of pre).
Qed.

Lemma opened_first_app (a b : list event) :
  opened_first a -> opened_first b -> opened_first (a ++ b).
Proof.
  intros Ha Hb pre p d post E.
  apply app_eq_app in E as [l [[Ea El] | [Ep Eb]]].
  - destruct l as [|e l].
    + cbn in El. destruct (Hb [] p d post (eq_sym El)) as [pre' E'].
      now destruct pre'.
    + cbn in El. injection El as <- _.
      exact (Ha pre p d l Ea).
  - destruct (Hb l p d post Eb) as [pre' ->].
    exists (a ++ pre'). now rewrite Ep, app_assoc.
Qed.

Lemma quiet_nil : quiet [].
Proof.
  repeat split; [constructor | intros x [] |].
  now apply opened_first_idle.
Qed.

Lemma opens_of_app (a b : list event) :
  opens_of (a ++ b) = opens_of a ++ opens_of b.
Proof. apply flat_map_app. Qed.

Lemma quiet_app (a b : list event) : quiet a -> quiet b -> quiet (a ++ b).
Proof.
  intros (Fa & Na & Oa & Da) (Fb & Nb & Ob & Db). unfold quiet.
  rewrite FetcherFacts.failures_of_app, FetcherFacts.writes_of_app,
    opens_of_app, Fa, Fb, map_app.
  split; [reflexivity|]. split; [|split].
  - apply Forall_app. now split.
  - apply incl_app; [apply incl_appl | apply incl_appr]; assumption.
  - now apply opened_first_app.
Qed.

Lemma part_events_quiet (o : option unit) (evs : list event) :
  part_events o evs -> quiet evs.
Proof.
  intros [o'|p Hp|p d Hp]; [apply quiet_nil | |].
  - split; [reflexivity|]. split; [constructor|].
    split; [intros x [] | now apply opened_first_idle].
  - split; [reflexivity|]. split; [repeat constructor; exact Hp|]. split.
    + intros x [<- | []]. now left.
    + intros pre q d' post E.
      destruct pre as [|e0 [|e1 [|e2 pre]]]; try discriminate.
      * injection E as <- <- <- <-. now exists [].
      * injection E as _ _ _ E. now destruct pre.
Qed.

Lemma for_parts_cases (custom_id : json) (parts : list json) :
  exists o evs,
    (forall st, for_parts custom_id parts st = (o, after st evs)) /\
    quiet evs.
Proof.
  induction parts as [|part parts IH].
  - exists (Some tt), []. split; [|apply quiet_nil].
    intros st. now rewrite after_nil.
  - destruct (save_part_cases custom_id part) as (o1 & e1 & E1 & P1).
    destruct IH as (o2 & e2 & E2 & Q2).
    destruct o1 as [[]|].
    + exists o2, (e1 ++ e2). split.
      * intros st. cbn [for_parts]. unfold bind.
        now rewrite E1, E2, after_app.
      * apply quiet_app; [exact (part_events_quiet P1) | exact Q2].
    + exists None, e1. split; [|exact (part_events_quiet P1)].
      intros st. cbn [for_parts]. unfold bind. now rewrite E1.
Qed.

Ltac says :=
  exists (Some tt); eexists; split;
  [intros st; unfold say, after; apply (f_equal2 pair); [reflexivity|];
   apply (f_equal2 mkState); [reflexivity|];
   cbn [writes_of flat_map app length]; now rewrite Nat.add_0_r
  | split; [reflexivity|]; split; [constructor|];
    split; [intros x [] | now apply opened_first_idle]].

Lemma line_body_cases (i : nat) (line : pybytes) :
  exists o evs,
    (forall st, line_body i line st = (o, after st evs)) /\ quiet evs.
Proof.
  unfold line_body, bind, try.
  destruct (loads_bytes line) as [result|]; [|raises; apply quiet_nil].
  destruct (py_get result (py "custom_id") _) as [custom_id|];
    [|raises; apply quiet_nil].
  destruct (py_get result (py "response") (JObj [])) as [response|];
    [|raises; apply quiet_nil].
  destruct (py_in (py "error") response) as [[|]|];
    [| |raises; apply quiet_nil].
  - destruct (py_item response (py "error")) as [err|];
      [says | raises; apply quiet_nil].
  - destruct (py_get response (py "candidates") (JArr [])) as [candidates|];
      [|raises; apply quiet_nil].
    destruct (negb (truthy candidates)); [says|].
    destruct (py_item0 candidates) as [candidate|];
      [|raises; apply quiet_nil].
    destruct (py_get candidate (py "content") (JObj [])) as [content|];
      [|raises; apply quiet_nil].
    destruct (py_get content (py "parts") (JArr [])) as [parts|];
      [|raises; apply quiet_nil].
    destruct (py_iter parts) as [items|]; [|raises; apply quiet_nil].
    apply for_parts_cases.
Qed.

Lemma failures_of_reports (fs : list nat) :
  failures_of (map PrintFailed fs) = fs.
Proof.
  induction fs as [|k fs IH]; [reflexivity|].
  change (k :: failures_of (map PrintFailed fs) = k :: fs). now rewrite IH.
Qed.

Lemma writes_of_reports (fs : list nat) : writes_of (map PrintFailed fs) = [].
Proof. induction fs as [|k fs IH]; [reflexivity | exact IH]. Qed.

Lemma opens_of_reports (fs : list nat) : opens_of (map PrintFailed fs) = [].
Proof. induction fs as [|k fs IH]; [reflexivity | exact IH]. Qed.

(** One line: the trace grows by quiet events and then, when the line
    fails, by the report that names it, the same from every state. *)
Lemma process_line_cases (i : nat) (line : pybytes) :
  exists evs,
    quiet evs /\
    forall st,
      process_line i line st
      = after st (evs ++ map PrintFailed (if line_fails i line then [i] else [])).
Proof.
  destruct (line_body_cases i line) as (o & evs & E & Q).
  exists evs. split; [exact Q|]. intros st.
  unfold process_line, line_fails. rewrite !E. cbn [fst].
  unfold after. cbn [trace success_count].
  rewrite FetcherFacts.writes_of_app.
  destruct o as [[]|]; cbn [map]; rewrite ?app_nil_r, ?length_app;
    cbn [writes_of flat_map app length]; rewrite ?Nat.add_0_r, ?app_assoc;
    reflexivity.
Qed.


Lemma line_events_cases (i : nat) (line : pybytes) :
  exists evs,
    quiet evs /\
    line_events i line
    = evs ++ map PrintFailed (if line_fails i line then [i] else []).
Proof.
  destruct (process_line_cases i line) as (evs & Q & E).
  exists evs. split; [exact Q|]. unfold line_events. now rewrite E.
Qed.

Lemma process_line_after (i : nat) (line : pybytes) (st : state) :
  process_line i line st = after st (line_events i line).
Proof.
  destruct (process_line_cases i line) as (evs & _ & E).
  unfold line_events. rewrite !E. unfold after at 2. now cbn [trace app].
Qed.

Lemma for_lines_after (lines : list pybytes) (i : nat) (st : state) :
  for_lines i lines st = after st (events_from i lines).
Proof.
  revert i st; induction lines as [|line rest IH]; intros i st.
  - cbn [for_lines events_from]. now rewrite after_nil.
  - cbn [for_lines events_from].
    now rewrite process_line_after, IH, after_app.
Qed.

(** X1. The lines of a result file are processed independently: the
    events of the file are those of its lines, each processed on its
    own from the empty state, one after the other; the closing message
    follows, with the number of payloads written. *)
Theorem lines_are_independent (content : pybytes) :
  let lines := split_nl (strip content) in
  trace (parse_results content)
  = events_from 0 lines
    ++ [PrintComplete (length (writes_of (events_from 0 lines)))] /\
  forall (i : nat) (line : pybytes) (st : state),
    trace (process_line i line st) = trace st ++ line_events i line.
Proof.
  cbv zeta. split.
  - unfold parse_results. rewrite for_lines_after. reflexivity.
  - intros i line st. now rewrite process_line_after.
Qed.

Lemma main_cases (job_state : pystr) (content : pybytes) :
  main job_state content = parse_results content \/
  (success_count (main job_state content) = 0 /\
   writes_of (trace (main job_state content)) = [] /\
   opens_of (trace (main job_state content)) = []).
Proof.
  unfold main.
  repeat match goal with
         | |- context [if ?b then _ else _] => destruct b
         end; auto.
Qed.

Lemma parse_results_after (content : pybytes) :
  exists evs,
    evs = events_from 0 (split_nl (strip content)) /\
    success_count (parse_results content) = length (writes_of evs) /\
    writes_of (trace (parse_results content)) = writes_of evs /\
    opens_of (trace (parse_results content)) = opens_of evs /\
    failures_of (trace (parse_results content)) = failures_of evs.
Proof.
  eexists. split; [reflexivity|]. unfold parse_results.
  rewrite for_lines_after. unfold after, initial. cbn [trace success_count app].
  rewrite FetcherFacts.writes_of_app, opens_of_app,
    FetcherFacts.failures_of_app.
  cbn. now rewrite !app_nil_r.
Qed.

(** X2. The number [main] reports at the end is the number of payloads
    it wrote, whatever the state of the job and the content of the
    result file. *)
Theorem count_is_number_of_writes (job_state : pystr) (content : pybytes) :
  success_count (main job_state content)
  = length (writes_of (trace (main job_state content))).
Proof.
  destruct (main_cases job_state content) as [-> | (C & W & _)].
  - destruct (parse_results_after content) as (evs & _ & C & W & _).
    now rewrite C, W.
  - now rewrite C, W.
Qed.

(** The payloads of some events go to paths of the expected form,
    opened right before. *)
Lemma line_events_tidy (i : nat) (line : pybytes) :
  Forall (fun w => named_retouched (fst w) = true)
         (writes_of (line_events i line)) /\
  incl (map fst (writes_of (line_events i line)))
       (opens_of (line_events i line)) /\
  opened_first (line_events i line).
Proof.
  destruct (line_events_cases i line) as (evs & (_ & Hn & Ho & Hd) & ->).
  rewrite FetcherFacts.writes_of_app, opens_of_app, writes_of_reports,
    opens_of_reports, !app_nil_r.
  repeat split; try assumption.
  apply opened_first_app; [exact Hd|].
  apply opened_first_idle, writes_of_reports.
Qed.

Lemma events_from_tidy (lines : list pybytes) (i : nat) :
  Forall (fun w => named_retouched (fst w) = true)
         (writes_of (events_from i lines)) /\
  incl (map fst (writes_of (events_from i lines)))
       (opens_of (events_from i lines)) /\
  opened_first (events_from i lines).
Proof.
  revert i; induction lines as [|line rest IH]; intros i.
  - split; [constructor|]. split; [intros x []|].
    now apply opened_first_idle.
  - cbn [events_from].
    rewrite FetcherFacts.writes_of_app, opens_of_app, map_app.
    destruct (line_events_tidy i line) as (N1 & O1 & D1).
    destruct (IH (S i)) as (N2 & O2 & D2). split; [|split].
    + apply Forall_app. now split.
    + apply incl_app; [apply incl_appl | apply incl_appr]; assumption.
    + now apply opened_first_app.
Qed.

(** X3. Every file [main] writes has a name that ends with
    [_retouched.jpg] or [_retouched.png], and every write comes right
    after the opening of the file it goes to: wherever the trace is cut
    in front of a write, what precedes the cut ends with the opening of
    the same path.  This holds whatever the result file holds. *)
Theorem written_files_are_retouched (job_state : pystr) (content : pybytes) :
  let tr := trace (main job_state content) in
  Forall (fun w => named_retouched (fst w) = true) (writes_of tr) /\
  incl (map fst (writes_of tr)) (opens_of tr) /\
  forall (pre : list event) (p : pystr) (d : pybytes) (post : list event),
    tr = pre ++ WriteBytes p d :: post ->
    exists pre', pre = pre' ++ [OpenFile p].
Proof.
  cbv zeta. destruct (main_cases job_state content) as [E | (_ & W & _)].
  - destruct (parse_results_after content) as (evs & -> & _ & W & O & _).
    destruct (events_from_tidy (split_nl (strip content)) 0) as (N & I & D).
    rewrite E, W, O. split; [exact N|]. split; [exact I|].
    change (opened_first (trace (parse_results content))).
    unfold parse_results. rewrite for_lines_after.
    cbn [trace after initial app].
    apply opened_first_app; [exact D | now apply opened_first_idle].
  - rewrite W. split; [constructor|]. split; [intros x []|].
    now apply opened_first_idle.
Qed.

Lemma failures_of_line (i : nat) (line : pybytes) :
  failures_of (line_events i line) = if line_fails i line then [i] else [].
Proof.
  destruct (line_events_cases i line) as (evs & (Hf & _) & ->).
  now rewrite FetcherFacts.failures_of_app, Hf, failures_of_reports.
Qed.

Lemma failures_from (lines : list pybytes) (i : nat) :
  failures_of (events_from i lines)
  = filter (fun k => line_fails k (nth (k - i) lines []))
           (seq i (length lines)).
Proof.
  revert i; induction lines as [|line rest IH]; intros i; [reflexivity|].
  cbn [events_from length seq].
  rewrite FetcherFacts.failures_of_app, failures_of_line, IH.
  assert (T : filter (fun k => line_fails k (nth (k - i) (line :: rest) []))
                     (seq (S i) (length rest))
              = filter (fun k => line_fails k (nth (k - S i) rest []))
                       (seq (S i) (length rest))).
  { apply filter_ext_in. intros k Hk. apply in_seq in Hk.
    replace (k - i) with (S (k - S i)) by lia. reflexivity. }
  cbn [filter]. rewrite T, Nat.sub_diag.
  change (nth 0 (line :: rest) []) with line.
  now destruct (line_fails i line).
Qed.

(** X4. The lines reported as failed are exactly the lines whose own
    processing raises, each reported once and in the order of the file:
    a failure neither hides nor causes the failure of another line. *)
Theorem failures_are_the_failing_lines (content : pybytes) :
  let lines := split_nl (strip content) in
  failures_of (trace (parse_results content))
  = filter (fun k => line_fails k (nth k lines [])) (seq 0 (length lines)).
Proof.
  cbv zeta. destruct (parse_results_after content) as (evs & -> & _ & _ & _ & F).
  rewrite F, failures_from. apply filter_ext. intros k.
  now rewrite Nat.sub_0_r.
Qed.


(** ** Lines of particular shapes *)

Lemma custom_id_at_get (i : nat) (d : dict) :
  py_get (JObj d) (py "custom_id") (JStr (py "image_" ++ str_of_nat i))
  = Some (custom_id_at i (JObj d)).
Proof.
  cbn [py_get custom_id_at].
  now destruct (dict_lookup (py "custom_id") d).
Qed.

(** A line that leads to the loop over the parts. *)
Lemma line_body_walk (i : nat) (line : pybytes) (v : json)
    (parts : list json) (st : state) :
  loads_bytes line = Some v ->
  walk_of v = Some parts ->
  line_body i line st = for_parts (custom_id_at i v) parts st.
Proof.
  intros Hload Hwalk. destruct v as [| | | | | |d]; try discriminate.
  unfold walk_of in Hwalk.
  destruct (dict_lookup (py "response") d) as [[| | | | | |r]|] eqn:Er;
    try discriminate.
  destruct (dict_mem (py "error") r) eqn:Ee; try discriminate.
  destruct (dict_lookup (py "candidates") r)
    as [[| | | | |[|[| | | | | |cd] cs]|]|] eqn:Ec; try discriminate.
  unfold line_body. unfold bind at 1, try at 1. rewrite Hload.
  unfold bind at 1, try at 1. rewrite custom_id_at_get.
  unfold bind at 1, try at 1. cbn [py_get]. rewrite Er.
  unfold bind at 1, try at 1. cbn [py_in]. rewrite Ee.
  unfold bind at 1, try at 1. cbn [py_get]. rewrite Ec.
  cbn [truthy negb]. unfold bind at 1, try at 1. cbn [py_item0].
  unfold bind, try. cbn [py_get].
  destruct (dict_lookup (py "content") cd) as [[| | | | | |ct]|];
    try discriminate.
  - cbn [py_get].
    destruct (dict_lookup (py "parts") ct) as [[| | | | |ps|]|];
      try discriminate; injection Hwalk as <-; reflexivity.
  - injection Hwalk as <-. reflexivity.
Qed.

Lemma for_parts_app (custom_id : json) (a b : list json) (st : state) :
  for_parts custom_id (a ++ b) st
  = match for_parts custom_id a st with
    | (Some _, st1) => for_parts custom_id b st1
    | (None, st1) => (None, st1)
    end.
Proof.
  revert st; induction a as [|part a IH]; intros st; [reflexivity|].
  cbn [app for_parts]. unfold bind.
  destruct (save_part custom_id part st) as [[[]|] st1]; [apply IH|].
  reflexivity.
Qed.

(** A part without [inline_data] is passed over, whatever the
    identifier of the line. *)
Lemma save_part_plain (custom_id part : json) (st : state) :
  plain_part part = true -> save_part custom_id part st = (Some tt, st).
Proof.
  intros H. destruct part as [| | | | | |p]; try discriminate.
  cbn [plain_part] in H. apply negb_true_iff in H.
  unfold save_part, bind, try. cbn [py_in]. now rewrite H.
Qed.

Lemma for_parts_plain (custom_id : json) (parts : list json) (st : state) :
  forallb plain_part parts = true ->
  for_parts custom_id parts st = (Some tt, st).
Proof.
  induction parts as [|part parts IH]; intros H; [reflexivity|].
  cbn [forallb] in H. apply andb_true_iff in H as [Hp Hps].
  cbn [for_parts]. unfold bind. rewrite (@save_part_plain custom_id part st Hp).
  now apply IH.
Qed.

Lemma content_of_put (p q : pystr) (d : pybytes) (fs : list (pystr * pybytes)) :
  content_of p (put q d fs)
  = if PyStr.eqb q p then Some d else content_of p fs.
Proof.
  induction fs as [|[k c] fs IH]; cbn [put content_of].
  - reflexivity.
  - destruct (PyStr.eqb k q) eqn:Ekq.
    + apply eqb_eq in Ekq. rewrite <- Ekq. cbn [content_of].
      now destruct (PyStr.eqb k p).
    + cbn [content_of]. rewrite IH.
      destruct (PyStr.eqb k p) eqn:Ekp; [|reflexivity].
      apply eqb_eq in Ekp. apply eqb_neq in Ekq.
      replace (PyStr.eqb q p) with false; [reflexivity|].
      symmetry. apply eqb_neq. congruence.
Qed.

(** X5. A part whose payload is not base64: the parts before it are
    saved and stay counted; the file of the part is opened, and so left
    empty, whatever it held; the line is reported as failed; the parts
    after it are not looked at. *)
Theorem undecodable_payload_empties_the_file
    (i : nat) (line : pybytes) (v : json) (custom_id : pystr)
    (good rest : list json) (p idata : dict) (mime : pystr) (data : json)
    (st : state) :
  loads_bytes line = Some v ->
  walk_of v = Some (good ++ JObj p :: rest) ->
  custom_id_at i v = JStr custom_id ->
  forallb wf_part good = true ->
  dict_lookup (py "inline_data") p = Some (JObj idata) ->
  declared_mime idata = Some mime ->
  dict_lookup (py "data") idata = Some data ->
  Base64.b64decode data = None ->
  let path :=
    PyPath.join OUTPUT_DIR
      (out_name_of custom_id (ext_for (contains (py "jpeg") mime))) in
  let st' := process_line i line st in
  (exists evs,
     trace st' = trace st ++ evs ++ [OpenFile path; PrintFailed i] /\
     writes_of evs = flat_map (image_of custom_id) good) /\
  success_count st'
  = success_count st + length (flat_map (image_of custom_id) good) /\
  forall fs, content_of path (files_after fs (trace st')) = Some [].
Proof.
  intros Hload Hwalk Hid Hgood Hi Hm Hd Hb. cbv zeta.
  destruct (FetcherFacts.for_parts_wf custom_id good st Hgood)
    as (st1 & E1 & evs & T1 & W1 & _ & C1).
  assert (Hget : py_get (JObj idata) (py "mime_type") (JStr (py "image/png"))
                 = Some (JStr mime)).
  { unfold declared_mime in Hm. cbn [py_get].
    destruct (dict_lookup (py "mime_type") idata) as [[]|];
      try discriminate; congruence. }
  assert (E : process_line i line st
              = mkState (trace st1
                         ++ [OpenFile
                               (PyPath.join OUTPUT_DIR
                                  (out_name_of custom_id
                                     (ext_for (contains (py "jpeg") mime))));
                             PrintFailed i])
                        (success_count st1)).
  { unfold process_line.
    rewrite (@line_body_walk i line v _ st Hload Hwalk), Hid, for_parts_app, E1.
    cbn [for_parts]. unfold bind at 1.
    unfold save_part, bind, try. cbn [py_in py_item].
    rewrite FetcherFacts.dict_mem_lookup, Hi, Hget. cbn [py_item].
    rewrite Hd. cbn [py_in py_replace]. unfold say.
    cbn [trace success_count]. rewrite Hb. cbn [trace success_count].
    now rewrite <- app_assoc. }
  rewrite E. cbn [trace success_count]. split; [|split].
  - exists evs. rewrite T1, <- app_assoc. now split.
  - exact C1.
  - intros fs. unfold files_after.
    rewrite !fold_left_app. cbn [fold_left file_step].
    now rewrite content_of_put, eqb_refl.
Qed.

(** X6. A line of which the identifier is not a string (a number,
    [null], ...) and that carries an image: the line is reported as
    failed when its first image is reached, before any file is opened. *)
Theorem identifier_must_be_a_string
    (i : nat) (line : pybytes) (v : json)
    (plain rest : list json) (p idata : dict) (mime : pystr) (data : json)
    (st : state) :
  loads_bytes line = Some v ->
  walk_of v = Some (plain ++ JObj p :: rest) ->
  is_string (custom_id_at i v) = false ->
  forallb plain_part plain = true ->
  dict_lookup (py "inline_data") p = Some (JObj idata) ->
  declared_mime idata = Some mime ->
  dict_lookup (py "data") idata = Some data ->
  process_line i line st
  = mkState (trace st ++ [PrintFailed i]) (success_count st).
Proof.
  intros Hload Hwalk Hid Hplain Hi Hm Hd.
  assert (Hget : py_get (JObj idata) (py "mime_type") (JStr (py "image/png"))
                 = Some (JStr mime)).
  { unfold declared_mime in Hm. cbn [py_get].
    destruct (dict_lookup (py "mime_type") idata) as [[]|];
      try discriminate; congruence. }
  unfold process_line.
  rewrite (@line_body_walk i line v _ st Hload Hwalk), for_parts_app,
    (@for_parts_plain (custom_id_at i v) plain st Hplain).
  cbn [for_parts]. unfold bind at 1.
  unfold save_part, bind, try. cbn [py_in py_item].
  rewrite FetcherFacts.dict_mem_lookup, Hi, Hget. cbn [py_item].
  rewrite Hd. cbn [py_in].
  destruct (custom_id_at i v); try discriminate; reflexivity.
Qed.

(** X7. A line without candidates (no [response], or a response without
    [error] whose [candidates] are missing, empty or otherwise false):
    the fact is shown with the identifier of the line, of whatever type
    it is; nothing is written and nothing is reported as failed. *)
Theorem line_without_candidates
    (i : nat) (line : pybytes) (v : json) (st : state) :
  loads_bytes line = Some v ->
  no_candidates v = true ->
  process_line i line st
  = mkState (trace st ++ [PrintNoCandidates (custom_id_at i v)])
            (success_count st).
Proof.
  intros Hload Hno. destruct v as [| | | | | |d]; try discriminate.
  unfold no_candidates in Hno.
  unfold process_line, line_body. unfold bind at 1, try at 1. rewrite Hload.
  unfold bind at 1, try at 1. rewrite custom_id_at_get.
  unfold bind, try. cbn [py_get].
  destruct (dict_lookup (py "response") d) as [[| | | | | |r]|];
    try discriminate.
  - apply andb_true_iff in Hno as [He Hc]. apply negb_true_iff in He.
    cbn [py_in py_get]. rewrite He.
    destruct (dict_lookup (py "candidates") r) as [c|].
    + rewrite Hc. reflexivity.
    + reflexivity.
  - reflexivity.
Qed.

(** X8. A line that is not a JSON object (not JSON at all, or a list, a
    string, a number or a literal) is reported as failed, and that is
    all that happens. *)
Theorem line_must_be_an_object (i : nat) (line : pybytes) (st : state) :
  (forall v, loads_bytes line = Some v -> is_object v = false) ->
  process_line i line st
  = mkState (trace st ++ [PrintFailed i]) (success_count st).
Proof.
  intros H. unfold process_line, line_body, bind, try.
  destruct (loads_bytes line) as [v|]; [|reflexivity].
  specialize (H v eq_refl). destruct v; try discriminate; reflexivity.
Qed.


(** ** A line without identifier *)






(** The decimal numeral of a number is unique: [decimal_of] says what
    [str] returns. *)
Lemma decimal_value_numeral (s : pystr) (acc m : nat) :
  decimal_value acc s = Some m ->
  exists d, s = digits_of_uint d /\ m = Nat.of_uint_acc d acc.
Proof.
  revert acc; induction s as [|c s IH]; intros acc H.
  - exists Decimal.Nil. cbn in H. injection H as <-. now split.
  - cbn [decimal_value] in H. destruct (is_digit c) eqn:Hc; [|discriminate].
    destruct (IH _ H) as (d & -> & ->).
    unfold is_digit in Hc. apply andb_true_iff in Hc as [Lo Hi].
    apply N.leb_le in Lo, Hi.
    assert (C : (c = 48 \/ c = 49 \/ c = 50 \/ c = 51 \/ c = 52 \/ c = 53
                 \/ c = 54 \/ c = 55 \/ c = 56 \/ c = 57)%N) by lia.
    repeat destruct C as [-> | C]; try subst c;
      [exists (Decimal.D0 d) | exists (Decimal.D1 d) | exists (Decimal.D2 d)
       | exists (Decimal.D3 d) | exists (Decimal.D4 d) | exists (Decimal.D5 d)
       | exists (Decimal.D6 d) | exists (Decimal.D7 d) | exists (Decimal.D8 d)
       | exists (Decimal.D9 d)];
      (split; [reflexivity|]);
      cbn [Nat.of_uint_acc]; rewrite Nat.tail_mul_spec; f_equal;
      match goal with
      | |- 10 * acc + N.to_nat ?k = _ =>
          let v := eval vm_compute in (N.to_nat k) in
          change (N.to_nat k) with v
      end; lia.
Qed.

Lemma decimal_of_unique (n : nat) (s : pystr) :
  decimal_of n s -> s = str_of_nat n.
Proof.
  intros (Hne & Hv & Hz).
  destruct (decimal_value_numeral s 0 Hv) as (d & -> & ->).
  unfold str_of_nat.
  change (Nat.of_uint_acc d 0) with (Nat.of_uint d).
  rewrite DecimalNat.Unsigned.to_of.
  destruct d; try reflexivity; [now elim Hne|].
  specialize (Hz eq_refl). injection Hz as Hz.
  destruct d; try discriminate. reflexivity.
Qed.



(** ** Blank input *)

Lemma lstrip_blank (s : pybytes) : forallb is_space s = true -> lstrip s = [].
Proof.
  induction s as [|c s IH]; intros H; [reflexivity|].
  cbn [forallb] in H. apply andb_true_iff in H as [Hc Hs].
  cbn [lstrip]. rewrite Hc. now apply IH.
Qed.

(** X10. A result file that is empty or holds white space only counts
    as one line, which is reported as failed; nothing is written. *)
Theorem blank_file_is_one_failed_line (content : pybytes) :
  forallb is_space content = true ->
  parse_results content = mkState [PrintFailed 0; PrintComplete 0] 0.
Proof.
  intros H. unfold parse_results, strip.
  rewrite (lstrip_blank _ H). reflexivity.
Qed.

(** ** The name of an output file *)

(** [os.path.splitext] takes a simple name [base.ext] apart into
    [base] and [.ext]: [base] without a slash and with a character that
    is not a dot, [ext] without a dot or a slash. *)
Lemma splitext_simple_name (base ext : pystr) :
  no_sep base = true ->
  PyPath.has_non_dot base = true ->
  no_sep ext = true ->
  forallb (fun x => negb (x =? PyPath.EXTSEP)%N) ext = true ->
  PyPath.splitext (base ++ PyPath.EXTSEP :: ext)
  = (base, PyPath.EXTSEP :: ext).
Proof.
  intros Hsb Hnd Hse Hde. unfold PyPath.splitext.
  assert (Hsep : rfind PyPath.SEP (base ++ PyPath.EXTSEP :: ext) = (-1)%Z).
  { apply rfind_absent. unfold no_sep in *.
    rewrite forallb_app. cbn [forallb]. now rewrite Hsb, Hse. }
  assert (Hdot : rfind PyPath.EXTSEP (base ++ PyPath.EXTSEP :: ext)
                 = Z.of_nat (length base)).
  { unfold rfind. rewrite (SyncFacts.rfind_from_last _ base _ 0 (-1) Hde). lia. }
  rewrite Hsep, Hdot.
  replace (-1 <? Z.of_nat (length base))%Z with true
    by (symmetry; apply Z.ltb_lt; lia).
  unfold slice, upto, from.
  replace (Z.to_nat (-1 + 1)) with 0 by reflexivity.
  replace (Z.to_nat (Z.of_nat (length base) - (-1 + 1))) with (length base)
    by lia.
  rewrite Nat2Z.id. cbn [skipn].
  rewrite firstn_app, Nat.sub_diag, firstn_all. cbn [firstn].
  rewrite app_nil_r, Hnd.
  rewrite skipn_app, skipn_all, Nat.sub_diag. reflexivity.
Qed.

(** X11. The extension of the source file does not reach the name of
    the result: for a simple name [base.ext] without the tag in it, the
    result of [retouch_base.ext] is named [base_retouched] and the
    extension of the MIME type.  So the results of [a.jpg] and [a.png],
    both taken for upload, go to the same file. *)
Theorem result_name_forgets_extension (base ext1 ext2 out_ext : pystr) :
  no_sep base = true -> PyPath.has_non_dot base = true ->
  no_sep ext1 = true ->
  forallb (fun x => negb (x =? PyPath.EXTSEP)%N) ext1 = true ->
  no_sep ext2 = true ->
  forallb (fun x => negb (x =? PyPath.EXTSEP)%N) ext2 = true ->
  contains Builder.ID_TAG (base ++ PyPath.EXTSEP :: ext1) = false ->
  contains Builder.ID_TAG (base ++ PyPath.EXTSEP :: ext2) = false ->
  out_name_of (Builder.ID_TAG ++ base ++ PyPath.EXTSEP :: ext1) out_ext
  = base ++ py "_retouched" ++ out_ext /\
  out_name_of (Builder.ID_TAG ++ base ++ PyPath.EXTSEP :: ext1) out_ext
  = out_name_of (Builder.ID_TAG ++ base ++ PyPath.EXTSEP :: ext2) out_ext.
Proof.
  intros Hsb Hnd Hs1 Hd1 Hs2 Hd2 Ht1 Ht2.
  rewrite !FetcherFacts.round_trip_without_tag by assumption.
  rewrite !splitext_simple_name by assumption. now split.
Qed.

End FetcherLaws.

(* ================================================================== *)
(** * The batch submitter on arbitrary input *)
(* ================================================================== *)

Module BuilderLaws.

Import PyStrFacts JsonFacts Builder Spec Laws.

(** ** The manifest, whatever the names *)

Theorem dumps_stringy_printable (v : json) :
  stringy v = true -> forallb printable (dumps v) = true.
Proof.
  induction v as [|b|z|lexeme|s|items IH|members IH] using json_induction;
    intros Hs; try discriminate.
  - apply encode_string_printable.
  - rewrite dumps_list. cbn [forallb stringy] in *.
    rewrite forallb_app, join_printable; [reflexivity | reflexivity |].
    rewrite forallb_forall in Hs. rewrite Forall_forall in IH |- *.
    intros x Hx. apply in_map_iff in Hx as (y & <- & Hy). auto.
  - rewrite dumps_dict. cbn [forallb stringy] in *.
    rewrite forallb_app, join_printable; [reflexivity | reflexivity |].
    rewrite forallb_forall in Hs. rewrite Forall_forall in IH |- *.
    intros x Hx. apply in_map_iff in Hx as (kv & <- & Hkv).
    unfold member_text.
    rewrite !forallb_app, encode_string_printable, (IH kv Hkv (Hs kv Hkv)).
    reflexivity.
Qed.

Lemma request_line_printable (img_name prompt : pystr) :
  forallb printable (dumps (request_line img_name prompt)) = true.
Proof. apply dumps_stringy_printable. reflexivity. Qed.

(** X12. Whatever the file names and the instruction are (control
    characters, quotes, characters outside ASCII, line feeds), the
    manifest is made of printable ASCII and line feeds only, and it has
    one line per file name, in the order of the list: the serialised
    request of that name. *)
Theorem manifest_is_ascii_lines (image_names : list pystr) (prompt : pystr) :
  let manifest := create_batch_file image_names prompt in
  forallb manifest_char manifest = true /\
  lines_of manifest
  = map (fun n => dumps (request_line n prompt)) image_names /\
  length (lines_of manifest) = length image_names.
Proof.
  cbv zeta. rewrite BuilderFacts.create_batch_file_lines.
  assert (L : lines_of
                (flat_map (fun n => dumps (request_line n prompt) ++ [10%N])
                          image_names)
              = map (fun n => dumps (request_line n prompt)) image_names).
  { induction image_names as [|n names IH]; [reflexivity|].
    cbn [flat_map map]. rewrite <- app_assoc. cbn [app].
    rewrite BuilderFacts.lines_of_line, IH; [reflexivity|].
    apply request_line_printable. }
  split; [|split; [exact L | now rewrite L, length_map]].
  clear L. induction image_names as [|n names IH]; [reflexivity|].
  cbn [flat_map]. rewrite !forallb_app, IH. cbn [forallb].
  rewrite andb_true_r. apply andb_true_iff. split; [|reflexivity].
  pose proof (request_line_printable n prompt) as P.
  rewrite forallb_forall in P |- *. intros c Hc.
  unfold manifest_char. now rewrite (P c Hc).
Qed.

(** ** Where the uploads go *)

Lemma split_first_slash_plain (s : pystr) :
  no_sep s = true -> split_first_slash s = [s].
Proof.
  induction s as [|c s IH]; intros H; [reflexivity|].
  unfold no_sep in *. cbn [forallb] in H.
  apply andb_true_iff in H as [Hc Hs]. apply negb_true_iff in Hc.
  cbn [split_first_slash]. change (ch "/") with PyPath.SEP.
  now rewrite Hc, (IH Hs).
Qed.

Lemma split_first_slash_at (bucket prefix : pystr) :
  no_sep bucket = true ->
  split_first_slash (bucket ++ PyPath.SEP :: prefix) = [bucket; prefix].
Proof.
  induction bucket as [|c s IH]; intros H.
  - cbn [app split_first_slash]. change (ch "/") with PyPath.SEP.
    now rewrite N.eqb_refl.
  - unfold no_sep in *. cbn [forallb] in H.
    apply andb_true_iff in H as [Hc Hs]. apply negb_true_iff in Hc.
    cbn [app split_first_slash]. change (ch "/") with PyPath.SEP.
    now rewrite Hc, (IH Hs).
Qed.

Lemma endswith_char_app (c : N) (a b : pystr) :
  b <> [] -> endswith [c] (a ++ b) = endswith [c] b.
Proof.
  intros Hb. unfold endswith. rewrite rev_app_distr.
  destruct (rev b) as [|x r] eqn:E.
  - apply (f_equal (@rev N)) in E. rewrite rev_involutive in E.
    now subst.
  - reflexivity.
Qed.

Lemma no_sep_not_slash_ended (s : pystr) :
  s <> [] -> no_sep s = true -> endswith (py "/") s = false.
Proof.
  intros Hne Hs. destruct (endswith (py "/") s) eqn:E; [|reflexivity].
  apply endswith_spec in E as [pre ->]. unfold no_sep in Hs.
  rewrite forallb_app in Hs. apply andb_true_iff in Hs as [_ Hs].
  discriminate.
Qed.

(** X13. Every file taken for upload lands, in the bucket the path
    names, at the address made of the path and the file name with
    exactly one slash between them, whether or not the path ends with a
    slash; the list returned holds the accepted entries of the
    directory, in order. *)
Theorem uploads_land_under_the_path
    (local_dir : pystr) (entries : list pystr) (bucket tail : pystr) :
  bucket <> [] ->
  no_sep bucket = true ->
  (tail = [] \/ exists prefix, tail = PyPath.SEP :: prefix) ->
  let gcs_path := py "gs://" ++ bucket ++ tail in
  let files := filter upload_accepts entries in
  exists uploads,
    upload_images_to_gcs local_dir (Some entries) gcs_path
    = Some (uploads, files) /\
    Forall2
      (fun f a =>
         exists blob,
           a = UploadBlob bucket blob (PyPath.join local_dir f) /\
           blob_url bucket blob
           = if endswith (py "/") gcs_path
             then gcs_path ++ f else gcs_path ++ py "/" ++ f)
      files uploads.
Proof.
  intros Hne Hb Htail. cbv zeta.
  unfold upload_images_to_gcs.
  replace (startswith (py "gs://") (py "gs://" ++ bucket ++ tail)) with true
    by (symmetry; apply startswith_app).
  cbn [negb]. change (skipn 5 (py "gs://" ++ bucket ++ tail)) with (bucket ++ tail).
  change (py "/") with [PyPath.SEP].
  destruct Htail as [-> | [prefix ->]].
  - rewrite !app_nil_r, (@split_first_slash_plain bucket Hb).
    eexists. split; [reflexivity|].
    rewrite endswith_char_app by assumption.
    rewrite (no_sep_not_slash_ended Hne Hb : endswith [PyPath.SEP] bucket = false).
    induction (filter upload_accepts entries) as [|f files IH];
      [constructor|].
    cbn [map]. constructor; [|exact IH].
    eexists. split; [reflexivity|].
    unfold blob_url. cbn [hd app]. now rewrite <- !app_assoc.
  - rewrite (@split_first_slash_at bucket prefix Hb).
    eexists. split; [reflexivity|].
    rewrite app_assoc, endswith_char_app by discriminate.
    rewrite <- app_assoc.
    induction (filter upload_accepts entries) as [|f files IH];
      [constructor|].
    cbn [map]. constructor; [|exact IH].
    eexists. split; [reflexivity|].
    unfold blob_url. cbn [hd].
    destruct prefix as [|c prefix].
    + cbn. now rewrite <- !app_assoc.
    + change (PyPath.SEP :: c :: prefix) with ([PyPath.SEP] ++ c :: prefix).
      rewrite (endswith_char_app _ [PyPath.SEP]) by discriminate.
      destruct (endswith [PyPath.SEP] (c :: prefix)).
      * now rewrite <- !app_assoc.
      * rewrite <- !app_assoc. cbn [app]. reflexivity.
Qed.

(** ** The script *)

(** X14. When there is something to upload, the script uploads the
    accepted entries of the directory, writes the manifest for exactly
    these, uploads it and creates the job; and the address each line of
    the manifest gives for its image is the address the image was
    uploaded to. *)
Theorem manifest_names_the_uploaded_objects
    (listing : list pystr) (prompt : pystr) :
  let files := filter upload_accepts listing in
  files <> [] ->
  exists uploads,
    script (Some listing) prompt
    = uploads ++ [ WriteManifest (create_batch_file files prompt);
                   UploadManifest;
                   CreateBatchJob MODEL_ID (Some GCS_OUTPUT_PATH) ] /\
    Forall2
      (fun f a =>
         exists bucket blob,
           a = UploadBlob bucket blob (PyPath.join RAW_DIR f) /\
           file_uri_of (request_line f prompt)
           = Some (blob_url bucket blob))
      files uploads.
Proof.
  cbv zeta. intros Hne.
  assert (E : upload_images_to_gcs RAW_DIR (Some listing) GCS_INPUT_PATH
              = Some (map (fun f => UploadBlob (py "gemini-image-retouch")
                                               (py "raw/" ++ f)
                                               (PyPath.join RAW_DIR f))
                          (filter upload_accepts listing),
                      filter upload_accepts listing))
    by reflexivity.
  unfold script. rewrite E.
  destruct (filter upload_accepts listing) as [|f files] eqn:Ef;
    [contradiction|].
  eexists. split; [reflexivity|].
  clear. generalize (f :: files) as l.
  induction l as [|x l IH]; [constructor|].
  cbn [map]. constructor; [|exact IH].
  now exists (py "gemini-image-retouch"), (py "raw/" ++ x).
Qed.

End BuilderLaws.

(* ================================================================== *)
(** * The synchronous scripts on arbitrary input *)
(* ================================================================== *)

Module SyncLaws.

Import PyStrFacts Sync Spec SyncRun.

(** ** The two filters *)

(** X15. An entry the synchronous scripts take is also taken by the
    batch submitter: its filter lowers the name first, and knows the
    three suffixes. *)
Theorem sync_filter_is_narrower (f : pystr) :
  accepts f = true -> Builder.upload_accepts f = true.
Proof.
  intros H. apply SyncFacts.accepts_spec in H as (suf & stem & Hin & ->).
  unfold Builder.upload_accepts. rewrite lower_app.
  apply endswith_any_spec.
  exists (lower suf), (lower stem). split; [|reflexivity].
  cbn in Hin.
  repeat (destruct Hin as [<- | Hin]; [vm_compute; tauto|]).
  contradiction.
Qed.

(** ** The names of the results *)

Lemma join_under (a x y : pystr) :
  startswith [PyPath.SEP] x = false ->
  startswith [PyPath.SEP] y = false ->
  PyPath.join a x = PyPath.join a y -> x = y.
Proof.
  unfold PyPath.join. intros -> ->.
  destruct a as [|c a]; [auto|].
  destruct (endswith [PyPath.SEP] (c :: a)); intros E.
  - now apply app_inv_head in E.
  - apply app_inv_head in E. now injection E.
Qed.

(** X16. [main.py] gives two different entries two different output
    paths. *)
Theorem flat_paths_are_distinct (processed_dir f1 f2 : pystr) :
  flat_output_path processed_dir f1 = flat_output_path processed_dir f2 ->
  f1 = f2.
Proof.
  unfold flat_output_path, flat_output_name. intros E.
  apply join_under in E; [|reflexivity|reflexivity].
  now apply app_inv_head in E.
Qed.

(** X17. [src/single_retouch.py] gives entries that differ in their
    suffix only ([a.jpg] and [a.png]) the same output path: the second
    result replaces the first. *)
Theorem suffix_twins_share_a_result
    (raw_dir processed_dir base ext1 ext2 : pystr) :
  base <> [] -> ext1 <> [] -> ext2 <> [] ->
  forallb (fun x => negb (x =? PyPath.EXTSEP)%N) ext1 = true ->
  forallb (fun x => negb (x =? PyPath.EXTSEP)%N) ext2 = true ->
  no_sep (base ++ PyPath.EXTSEP :: ext1) = true ->
  no_sep (base ++ PyPath.EXTSEP :: ext2) = true ->
  output_path raw_dir processed_dir (base ++ PyPath.EXTSEP :: ext1)
  = output_path raw_dir processed_dir (base ++ PyPath.EXTSEP :: ext2).
Proof.
  intros Hb H1 H2 D1 D2 S1 S2. unfold output_path, output_name.
  now rewrite !SyncFacts.stem_of_name.
Qed.

(** ** The loop *)

Section World.

Variable read_file : pystr -> option pybytes.
Variable generate_content :
  pystr -> pybytes -> pystr -> option (list (option pybytes)).
Variable image_open : pybytes -> bool.
Variable image_save : pybytes -> pystr -> option pystr -> bool.

Variable s : script.
Variables raw_dir model prompt : pystr.

Abbreviation save_part := (save_part image_open image_save s).
Abbreviation for_parts := (for_parts image_open image_save s).
Abbreviation process_file :=
  (process_file read_file generate_content image_open image_save s
                raw_dir model prompt).
Abbreviation for_files :=
  (for_files read_file generate_content image_open image_save s
             raw_dir model prompt).
Abbreviation main :=
  (main read_file generate_content image_open image_save s
        raw_dir model prompt).

Lemma grow_nil (st : run_state) : grow st [] = st.
Proof.
  destruct st. unfold grow. cbn. now rewrite app_nil_r, Nat.add_0_r.
Qed.

Lemma saves_of_app (a b : list event) :
  saves_of (a ++ b) = saves_of a ++ saves_of b.
Proof. apply flat_map_app. Qed.

Lemma reads_of_app (a b : list event) :
  reads_of (a ++ b) = reads_of a ++ reads_of b.
Proof. apply flat_map_app. Qed.

Lemma silent_app (a b : list event) :
  silent (a ++ b) = silent a && silent b.
Proof. apply forallb_app. Qed.

Lemma grow_grow (st : run_state) (a b : list event) :
  grow (grow st a) b = grow st (a ++ b).
Proof.
  unfold grow. cbn [log processed_count].
  rewrite saves_of_app, length_app, <- app_assoc. f_equal. lia.
Qed.

Lemma at_path_nil (path : pystr) : at_path path [].
Proof. repeat split. constructor. Qed.

Lemma at_path_app (path : pystr) (a b : list event) :
  at_path path a -> at_path path b -> at_path path (a ++ b).
Proof.
  intros (Sa & Ra & Qa) (Sb & Rb & Qb). repeat split.
  - rewrite saves_of_app. now apply Forall_app.
  - now rewrite reads_of_app, Ra, Rb.
  - now rewrite silent_app, Qa, Qb.
Qed.

Lemma save_part_grows (filename : pystr) (part : option pybytes)
    (st : run_state) :
  exists r evs,
    save_part filename part st = (r, grow st evs) /\
    at_path (path_of s filename) evs.
Proof.
  unfold SyncRun.save_part. destruct part as [data|].
  - destruct (image_open data).
    + destruct (image_save data (path_of s filename) (format s)).
      * eexists _, _. split.
        -- unfold grow. apply (f_equal2 pair); [reflexivity|].
           apply (f_equal2 mkRun); [reflexivity|].
           destruct (announces s); reflexivity.
        -- destruct (announces s); repeat split; cbn; repeat constructor.
      * exists None, []. rewrite grow_nil. split; [reflexivity|].
        apply at_path_nil.
    + exists None, []. rewrite grow_nil. split; [reflexivity|].
      apply at_path_nil.
  - exists (Some tt), []. rewrite grow_nil. split; [reflexivity|].
    apply at_path_nil.
Qed.

Lemma for_parts_grows (filename : pystr) (parts : list (option pybytes))
    (st : run_state) :
  exists r evs,
    for_parts filename parts st = (r, grow st evs) /\
    at_path (path_of s filename) evs.
Proof.
  revert st; induction parts as [|part parts IH]; intros st.
  - exists (Some tt), []. rewrite grow_nil. split; [reflexivity|].
    apply at_path_nil.
  - cbn [SyncRun.for_parts]. unfold bind.
    destruct (save_part_grows filename part st) as (r & evs & -> & Hev).
    destruct r as [[]|].
    + destruct (IH (grow st evs)) as (r' & evs' & -> & Hev').
      exists r', (evs ++ evs'). rewrite grow_grow.
      split; [reflexivity | now apply at_path_app].
    + now exists None, evs.
Qed.

(** What one entry adds: nothing when it is not taken; else one reading,
    of its own file, and saves at its own path. *)
Lemma process_file_grows (filename : pystr) (st : run_state) :
  exists r evs,
    process_file filename st = (r, grow st evs) /\
    Forall (fun w => fst w = path_of s filename) (saves_of evs) /\
    reads_of evs
    = (if accepts filename then [PyPath.join raw_dir filename] else []) /\
    silent evs = true /\
    (accepts filename = false -> r = Some tt /\ evs = []).
Proof.
  unfold SyncRun.process_file. destruct (accepts filename) eqn:Hacc.
  - unfold bind, say, call. cbn [log processed_count].
    set (hello := if announces s then [PrintProcessing filename] else []).
    assert (Hs : saves_of hello = [] /\ reads_of hello = []
                 /\ silent hello = true)
      by (unfold hello; destruct (announces s); repeat split).
    destruct Hs as (Hs & Hr & Hq).
    destruct (read_file (PyPath.join raw_dir filename)) as [image_bytes|].
    + destruct (generate_content model image_bytes prompt) as [parts|].
      * match goal with
        | |- context [SyncRun.for_parts _ _ _ _ _ ?st0] =>
            destruct (for_parts_grows filename parts st0)
              as (r & evs & -> & Hsv & Hrd & Hqt)
        end.
        exists r, (hello ++ [ReadFile (PyPath.join raw_dir filename)]
                     ++ [Request model image_bytes prompt] ++ evs).
        split; [|split; [|split; [|split; [|discriminate]]]].
        -- apply (f_equal2 pair); [reflexivity|].
           unfold grow. cbn [log processed_count].
           rewrite !saves_of_app, Hs. cbn [saves_of flat_map app].
           apply (f_equal2 mkRun); [|reflexivity].
           now rewrite <- !app_assoc.
        -- rewrite !saves_of_app, Hs. exact Hsv.
        -- rewrite !reads_of_app, Hr, Hrd. reflexivity.
        -- rewrite !silent_app, Hq, Hqt. reflexivity.
      * exists None, (hello ++ [ReadFile (PyPath.join raw_dir filename)]
                        ++ [Request model image_bytes prompt]).
        split; [|split; [|split; [|split; [|discriminate]]]].
        -- apply (f_equal2 pair); [reflexivity|].
           unfold grow. cbn [log processed_count].
           rewrite !saves_of_app, Hs. cbn [saves_of flat_map app length].
           apply (f_equal2 mkRun); [now rewrite <- !app_assoc | lia].
        -- rewrite !saves_of_app, Hs. constructor.
        -- rewrite !reads_of_app, Hr. reflexivity.
        -- rewrite !silent_app, Hq. reflexivity.
    + exists None, (hello ++ [ReadFile (PyPath.join raw_dir filename)]).
      split; [|split; [|split; [|split; [|discriminate]]]].
      * apply (f_equal2 pair); [reflexivity|].
        unfold grow. cbn [log processed_count].
        rewrite !saves_of_app, Hs. cbn [saves_of flat_map app length].
        apply (f_equal2 mkRun); [now rewrite <- !app_assoc | lia].
      * rewrite !saves_of_app, Hs. constructor.
      * rewrite !reads_of_app, Hr. reflexivity.
      * rewrite !silent_app, Hq. reflexivity.
  - exists (Some tt), []. rewrite grow_nil. repeat split; constructor.
Qed.

Lemma image_files_cons (f : pystr) (listing : list pystr) :
  image_files (f :: listing)
  = (if accepts f then [f] else []) ++ image_files listing.
Proof. unfold image_files. cbn [filter]. now destruct (accepts f). Qed.

(** What the loop adds. *)
Lemma for_files_grows (listing : list pystr) (st : run_state) :
  exists r evs,
    for_files listing st = (r, grow st evs) /\
    Forall (fun w => exists f, In f (image_files listing) /\
                               fst w = path_of s f) (saves_of evs) /\
    (r = Some tt ->
     reads_of evs = map (PyPath.join raw_dir) (image_files listing)) /\
    silent evs = true.
Proof.
  revert st; induction listing as [|f listing IH]; intros st.
  - exists (Some tt), []. rewrite grow_nil. repeat split. constructor.
  - cbn [SyncRun.for_files]. unfold bind.
    destruct (process_file_grows f st) as (r & evs & -> & Hsv & Hrd & Hq & Hno).
    assert (Hsv' : Forall (fun w => exists f0, In f0 (image_files (f :: listing))
                                               /\ fst w = path_of s f0)
                          (saves_of evs)).
    { destruct (accepts f) eqn:Hacc.
      - rewrite Forall_forall in Hsv |- *. intros w Hw. exists f. split.
        + rewrite image_files_cons, Hacc. now left.
        + now apply Hsv.
      - destruct (Hno eq_refl) as [_ ->]. constructor. }
    destruct r as [[]|].
    + destruct (IH (grow st evs)) as (r' & evs' & -> & Hsv2 & Hrd2 & Hq2).
      exists r', (evs ++ evs'). rewrite grow_grow.
      split; [reflexivity|]. split; [|split].
      * rewrite saves_of_app. apply Forall_app. split; [exact Hsv'|].
        rewrite Forall_forall in Hsv2 |- *. intros w Hw.
        destruct (Hsv2 w Hw) as (f0 & Hin & E). exists f0. split; [|exact E].
        rewrite image_files_cons. apply in_or_app. now right.
      * intros Hr. rewrite reads_of_app, Hrd, (Hrd2 Hr), image_files_cons.
        rewrite map_app. now destruct (accepts f).
      * now rewrite silent_app, Hq, Hq2.
    + exists None, evs. split; [reflexivity|]. split; [exact Hsv'|].
      split; [discriminate | exact Hq].
Qed.

Lemma for_files_app (before rest : list pystr) (st : run_state) :
  for_files (before ++ rest) st
  = (for_files before ;;; for_files rest) st.
Proof.
  revert st; induction before as [|f before IH]; intros st.
  - reflexivity.
  - cbn [app SyncRun.for_files]. unfold bind in *.
    destruct (process_file f st) as [[[]|] st']; [apply IH | reflexivity].
Qed.

Lemma silent_spec (evs : list event) (n : nat) :
  silent evs = true -> ~ In (PrintComplete n) evs.
Proof.
  unfold silent. rewrite forallb_forall. intros H Hin.
  now specialize (H _ Hin).
Qed.

(** X18. Whatever the directory holds and whatever the service and the
    image library do, the count a run ends with is the number of images
    it saved, and every image is saved at the path of an entry that
    passed the filter: several images of one reply go to one file. *)
Theorem count_is_number_of_saves (listing : list pystr) :
  let st := snd (main listing start) in
  processed_count st = length (saves_of (log st)) /\
  Forall (fun w => exists f, In f (image_files listing) /\
                             fst w = path_of s f) (saves_of (log st)).
Proof.
  cbv zeta. unfold SyncRun.main, bind.
  destruct (for_files_grows listing start) as (r & evs & -> & Hsv & _ & _).
  destruct r as [[]|]; unfold say; cbn [snd log processed_count grow start app].
  - rewrite saves_of_app. cbn [saves_of flat_map]. rewrite app_nil_r.
    split; [reflexivity | exact Hsv].
  - split; [reflexivity | exact Hsv].
Qed.

(** X19. A run that ends without an exception has read every entry that
    passed the filter, once and in the order of the listing, and its
    last act is the closing message with the count. *)
Theorem complete_run_reads_each_image_once (listing : list pystr) :
  let out := main listing start in
  fst out = Some tt ->
  reads_of (log (snd out))
  = map (PyPath.join raw_dir) (image_files listing) /\
  exists evs,
    log (snd out) = evs ++ [PrintComplete (processed_count (snd out))] /\
    silent evs = true.
Proof.
  cbv zeta. unfold SyncRun.main, bind.
  destruct (for_files_grows listing start) as (r & evs & -> & _ & Hrd & Hq).
  destruct r as [[]|]; unfold say; cbn [fst snd log processed_count grow start app];
    [intros _ | discriminate].
  split.
  - rewrite reads_of_app, (Hrd eq_refl). cbn. now rewrite app_nil_r.
  - now exists evs.
Qed.

(** X20. Nothing is caught: when the turn of an entry raises (the file
    cannot be read, the request fails, a part is not an image, the
    image cannot be saved), the run ends there.  The entries after it
    are not touched, whatever they are, no closing message is printed,
    and what was saved before stays saved. *)
Theorem first_failure_ends_the_run
    (before rest : list pystr) (f : pystr) (st1 st2 : run_state) :
  for_files before start = (Some tt, st1) ->
  process_file f st1 = (None, st2) ->
  main (before ++ f :: rest) start = (None, st2) /\
  (exists evs, log st2 = log st1 ++ evs) /\
  forall n, ~ In (PrintComplete n) (log st2).
Proof.
  intros Hb Hf. split; [|split].
  - unfold SyncRun.main, bind. rewrite for_files_app. unfold bind.
    rewrite Hb. cbn [SyncRun.for_files]. unfold bind. now rewrite Hf.
  - destruct (process_file_grows f st1) as (r & evs & E & _).
    rewrite Hf in E. injection E as _ ->. now exists evs.
  - intros n.
    destruct (for_files_grows before start) as (r & evs & E & _ & _ & Hq).
    rewrite Hb in E. injection E as _ ->.
    destruct (process_file_grows f (grow start evs))
      as (r' & evs' & E' & _ & _ & Hq' & _).
    rewrite Hf in E'. injection E' as _ ->.
    apply silent_spec. cbn [grow log start app].
    now rewrite silent_app, Hq, Hq'.
Qed.

End World.

End SyncLaws.

(* ================================================================== *)
(** * The general statements at sample inputs *)
(* ================================================================== *)

Module ExtraWitnesses.

Import Spec Samples MoreSamples Laws.


Lemma opened_first_witness :
  Fetcher.trace (Fetcher.main (py "JOB_STATE_SUCCEEDED") success_line)
  = [Fetcher.OpenFile (py "./data/processed/a_retouched.png")]
    ++ Fetcher.WriteBytes (py "./data/processed/a_retouched.png") (py "hello")
    :: [Fetcher.PrintSaved (py "./data/processed/a_retouched.png");
        Fetcher.PrintComplete 1] /\
  exists pre',
    [Fetcher.OpenFile (py "./data/processed/a_retouched.png")]
    = pre' ++ [Fetcher.OpenFile (py "./data/processed/a_retouched.png")].
Proof.
  assert (H : Fetcher.trace
                (Fetcher.main (py "JOB_STATE_SUCCEEDED") success_line)
              = [Fetcher.OpenFile (py "./data/processed/a_retouched.png")]
                ++ Fetcher.WriteBytes (py "./data/processed/a_retouched.png")
                                      (py "hello")
                :: [Fetcher.PrintSaved (py "./data/processed/a_retouched.png");
                    Fetcher.PrintComplete 1])
    by (vm_compute; reflexivity).
  split; [exact H|].
  exact (proj2 (proj2 (@FetcherLaws.written_files_are_retouched
                         (py "JOB_STATE_SUCCEEDED") success_line))
               _ _ _ _ H).
Defined.

Lemma undecodable_payload_witness :
  loads_bytes broken_payload_line = Some broken_payload_value /\
  Base64.b64decode (JStr (py "a")) = None /\
  Fetcher.success_count
    (Fetcher.process_line 0 broken_payload_line Fetcher.initial) = 1 /\
  content_of (py "./data/processed/a_retouched.png")
    (files_after []
       (Fetcher.trace
          (Fetcher.process_line 0 broken_payload_line Fetcher.initial)))
  = Some [].
Proof.
  assert (H1 : loads_bytes broken_payload_line = Some broken_payload_value)
    by (vm_compute; reflexivity).
  assert (H2 : Base64.b64decode (JStr (py "a")) = None)
    by (vm_compute; reflexivity).
  split; [exact H1|]. split; [exact H2|].
  pose proof (@FetcherLaws.undecodable_payload_empties_the_file
                0 broken_payload_line broken_payload_value
                (py "retouch_a.jpg") [hi_part] [] broken_part broken_inline
                (py "image/png") (JStr (py "a")) Fetcher.initial
                H1 eq_refl eq_refl eq_refl eq_refl eq_refl eq_refl H2) as W.
  cbv zeta in W. destruct W as (_ & Wc & Wf). split; [exact Wc|].
  exact (Wf []).
Defined.

Lemma identifier_witness :
  loads_bytes numbered_line = Some numbered_value /\
  is_string (custom_id_at 0 numbered_value) = false /\
  Fetcher.process_line 0 numbered_line Fetcher.initial
  = Fetcher.mkState [Fetcher.PrintFailed 0] 0.
Proof.
  assert (H1 : loads_bytes numbered_line = Some numbered_value)
    by (vm_compute; reflexivity).
  split; [exact H1|]. split; [reflexivity|].
  exact (@FetcherLaws.identifier_must_be_a_string
           0 numbered_line numbered_value [] [] [ (py "inline_data", JObj hi_inline) ] hi_inline
           (py "image/png") (JStr (py "aGk=")) Fetcher.initial
           H1 eq_refl eq_refl eq_refl eq_refl eq_refl eq_refl).
Defined.

Lemma no_candidates_witness :
  loads_bytes empty_candidates_line = Some empty_candidates_value /\
  no_candidates empty_candidates_value = true /\
  Fetcher.process_line 3 empty_candidates_line Fetcher.initial
  = Fetcher.mkState
      [Fetcher.PrintNoCandidates (JStr (py "retouch_e.jpg"))] 0.
Proof.
  assert (H1 : loads_bytes empty_candidates_line = Some empty_candidates_value)
    by (vm_compute; reflexivity).
  split; [exact H1|]. split; [reflexivity|].
  exact (@FetcherLaws.line_without_candidates
           3 empty_candidates_line empty_candidates_value Fetcher.initial
           H1 eq_refl).
Defined.

Lemma not_an_object_witness :
  loads_bytes malformed_line = None /\
  Fetcher.process_line 2 malformed_line Fetcher.initial
  = Fetcher.mkState [Fetcher.PrintFailed 2] 0.
Proof.
  assert (H1 : loads_bytes malformed_line = None) by (vm_compute; reflexivity).
  split; [exact H1|].
  apply (@FetcherLaws.line_must_be_an_object 2 malformed_line Fetcher.initial).
  intros v Hv. rewrite H1 in Hv. discriminate.
Defined.

Lemma blank_file_witness :
  forallb Fetcher.is_space blank_content = true /\
  Fetcher.parse_results blank_content
  = Fetcher.mkState [Fetcher.PrintFailed 0; Fetcher.PrintComplete 0] 0.
Proof.
  split; [reflexivity|].
  exact (@FetcherLaws.blank_file_is_one_failed_line blank_content eq_refl).
Defined.

Lemma result_name_witness :
  Fetcher.out_name_of (py "retouch_a.jpg") (py ".png") = py "a_retouched.png" /\
  Fetcher.out_name_of (py "retouch_a.jpg") (py ".png")
  = Fetcher.out_name_of (py "retouch_a.png") (py ".png").
Proof.
  exact (@FetcherLaws.result_name_forgets_extension
           (py "a") (py "jpg") (py "png") (py ".png")
           eq_refl eq_refl eq_refl eq_refl eq_refl eq_refl eq_refl eq_refl).
Defined.

Lemma uploads_witness :
  py "bkt" <> [] /\
  no_sep (py "bkt") = true /\
  exists uploads,
    Builder.upload_images_to_gcs (py "./data/raw") (Some listing)
                                 (py "gs://bkt/in")
    = Some (uploads, filter Builder.upload_accepts listing) /\
    length uploads = length (filter Builder.upload_accepts listing).
Proof.
  assert (H1 : py "bkt" <> []) by discriminate.
  split; [exact H1|]. split; [reflexivity|].
  destruct (@BuilderLaws.uploads_land_under_the_path
              (py "./data/raw") listing (py "bkt") (py "/in")
              H1 eq_refl (or_intror (ex_intro _ (py "in") eq_refl)))
    as (uploads & E & F).
  exists uploads. split; [exact E|].
  symmetry. exact (Forall2_length F).
Defined.

Lemma script_witness :
  filter Builder.upload_accepts listing <> [] /\
  exists uploads,
    Builder.script (Some listing) instruction
    = uploads ++
      [ Builder.WriteManifest
          (Builder.create_batch_file
             (filter Builder.upload_accepts listing) instruction);
        Builder.UploadManifest;
        Builder.CreateBatchJob Builder.MODEL_ID
                               (Some Builder.GCS_OUTPUT_PATH) ].
Proof.
  assert (H1 : filter Builder.upload_accepts listing <> [])
    by (vm_compute; discriminate).
  split; [exact H1|].
  destruct (@BuilderLaws.manifest_names_the_uploaded_objects
              listing instruction H1) as (uploads & E & _).
  now exists uploads.
Defined.

Lemma narrower_filter_witness :
  Sync.accepts (py "a.JPG") = true /\
  Builder.upload_accepts (py "a.JPG") = true.
Proof.
  split; [reflexivity|].
  exact (@SyncLaws.sync_filter_is_narrower (py "a.JPG") eq_refl).
Defined.

Lemma distinct_paths_witness :
  Sync.flat_output_path (py "./data/processed") (py "a.jpg")
  = py "./data/processed/retouched_a.jpg" /\
  py "a.jpg" = py "a.jpg".
Proof.
  split; [reflexivity|].
  exact (@SyncLaws.flat_paths_are_distinct
           (py "./data/processed") (py "a.jpg") (py "a.jpg") eq_refl).
Defined.

Lemma suffix_twins_witness :
  Sync.output_path (py "./data/raw/set1") (py "./data/processed") (py "a.jpg")
  = Sync.output_path (py "./data/raw/set1") (py "./data/processed")
                     (py "a.png").
Proof.
  apply (@SyncLaws.suffix_twins_share_a_result
           (py "./data/raw/set1") (py "./data/processed")
           (py "a") (py "jpg") (py "png"));
    first [discriminate | reflexivity].
Defined.

Lemma complete_run_witness :
  fst (SyncRun.main read_any reply_two opens_any saves_any
         (SyncRun.main_py (py "./out")) (py "./in") (py "m") (py "p")
         mixed_listing SyncRun.start) = Some tt /\
  SyncRun.reads_of
    (SyncRun.log
       (snd (SyncRun.main read_any reply_two opens_any saves_any
               (SyncRun.main_py (py "./out")) (py "./in") (py "m") (py "p")
               mixed_listing SyncRun.start)))
  = [py "./in/a.jpg"; py "./in/b.png"].
Proof.
  assert (H1 : fst (SyncRun.main read_any reply_two opens_any saves_any
                      (SyncRun.main_py (py "./out")) (py "./in") (py "m")
                      (py "p") mixed_listing SyncRun.start) = Some tt)
    by (vm_compute; reflexivity).
  split; [exact H1|].
  exact (proj1 (@SyncLaws.complete_run_reads_each_image_once
                  read_any reply_two opens_any saves_any
                  (SyncRun.main_py (py "./out")) (py "./in") (py "m") (py "p")
                  mixed_listing H1)).
Defined.

Lemma first_failure_witness :
  fst (SyncRun.main read_but_b reply_two opens_any saves_any
         (SyncRun.single_retouch_py (py "./in") (py "./out"))
         (py "./in") (py "m") (py "p")
         ([py "a.jpg"] ++ py "b.png" :: [py "c.png"]) SyncRun.start)
  = None /\
  length
    (SyncRun.saves_of
       (SyncRun.log
          (snd (SyncRun.main read_but_b reply_two opens_any saves_any
                  (SyncRun.single_retouch_py (py "./in") (py "./out"))
                  (py "./in") (py "m") (py "p")
                  ([py "a.jpg"] ++ py "b.png" :: [py "c.png"])
                  SyncRun.start)))) = 2.
Proof.
  pose proof (@SyncLaws.first_failure_ends_the_run
                read_but_b reply_two opens_any saves_any
                (SyncRun.single_retouch_py (py "./in") (py "./out"))
                (py "./in") (py "m") (py "p")
                [py "a.jpg"] [py "c.png"] (py "b.png")
                (snd (SyncRun.for_files read_but_b reply_two opens_any
                        saves_any
                        (SyncRun.single_retouch_py (py "./in") (py "./out"))
                        (py "./in") (py "m") (py "p")
                        [py "a.jpg"] SyncRun.start))
                (snd (SyncRun.for_files read_but_b reply_two opens_any
                        saves_any
                        (SyncRun.single_retouch_py (py "./in") (py "./out"))
                        (py "./in") (py "m") (py "p")
                        [py "a.jpg"; py "b.png"] SyncRun.start))
                eq_refl eq_refl) as (W & _).
  rewrite W. split; reflexivity.
Defined.

End ExtraWitnesses.
